(** * The QEMU machine backend (package [qemu], stubber.go)

    A shallow embedding of the QEMU implementation of the machine
    provider interface, and the properties of its launch, readiness,
    attribute-mutation and mount passes.

    Go values are modelled as follows.
    - [string] is [string]; [[]string] is [list string].
    - [int], [uint64] and [time.Duration] are [Z] (a duration counts
      nanoseconds, as in package [time]).
    - A pointer that the code tests against [nil] or dereferences is an
      [option]; dereferencing [None] panics.
    - A Go [error] value is [option error] ([None] is [nil]); a call that
      may fail yields a [result]: [Ok] for a [nil] error, [Err] otherwise.
    - Functions with side effects run in the monad [M S]: state [S] is
      threaded through every call and survives an error return, the way a
      mutation through a Go pointer does.
    - Every call that leaves the process (starting a command, dialing a
      socket, running a remote command, printing) is appended to a trace of
      [event]s.  What such a call answers is decided by the [Host], which
      sees the whole trace so far. *)

From Stdlib Require Import String List ZArith Bool Lia Ascii DecimalString.
From Stdlib Require DecimalPos DecimalZ.
Import ListNotations.
Open Scope string_scope.
Open Scope list_scope.

(** ** Package [define]: files, devices, machine states *)

Module Define.

(** [define.VMFile], seen through [GetPath]. *)
Record VMFile : Type := mkVMFile { GetPath : string }.

(** [define.USBConfig]. *)
Record USBConfig : Type := mkUSBConfig
  { Bus : string; DevNumber : string; Vendor : Z; Product : Z }.

(** Modelled from the spec: the declaration of [define.Status] is not part
    of the sources at hand; the spec's data model lists the states of a
    machine as Uninitialized, Created, Starting, Running, Stopping,
    Stopped and Failed. *)
Inductive Status : Type :=
| Uninitialized | Created | Starting | Running | Stopping | Stopped | Failed.

Definition Status_eqb (a b : Status) : bool :=
  match a, b with
  | Uninitialized, Uninitialized | Created, Created | Starting, Starting
  | Running, Running | Stopping, Stopping | Stopped, Stopped
  | Failed, Failed => true
  | _, _ => false
  end.

(** [define.SetOptions]: each field is a pointer, [nil] when the attribute
    is not to be changed. *)
Record SetOptions : Type := mkSetOptions
  { DiskSize : option Z;          (* *strongunits.GiB *)
    Rootful : option bool;
    USBs : option (list string) }.

End Define.

(** ** Package [command]: the QEMU command line *)

Module Command.
Import Define.

(** [command.Monitor]. *)
Record Monitor : Type := mkMonitor
  { Address : VMFile; Network : string; Timeout : Z }.

(** Modelled from the spec: the builder of package [command] is not part
    of the sources at hand.  The spec describes a command line as an
    ordered sequence of token groups, one per builder call: executable
    path, bootable image, memory size, CPU count, first-boot configuration,
    monitor socket, network device bound to the proxy socket, serial port
    bound to readiness socket, PID file and machine name, one
    shared-directory attachment per mount carrying source, tag, security
    model and read-only flag, one passthrough attachment per host device,
    and the display mode. *)
Inductive group : Type :=
| Executable (binary : string)
| Options (opts : list string)
| BootableImage (image : string)
| Memory (mib : Z)
| CPUs (n : Z)
| IgnitionFile (file : VMFile)
| QmpMonitor (monitor : Monitor)
| NetworkDevice (vlanSocket : VMFile)
| SerialPort (readySocket vmPidFile : VMFile) (name : string)
| VirtfsMount (source tag securityModel : string) (readonly : bool)
| USBHostPassthrough (usb : USBConfig)
| Display (display : string).

(** [command.QemuCmd]. *)
Definition QemuCmd : Type := list group.

(** Modelled from the spec: [NewQemuBuilder] starts a command line with
    the executable path followed by the architecture options. *)
Definition NewQemuBuilder (binary : string) (options : list string) : QemuCmd :=
  [Executable binary; Options options].

(** Modelled from the spec: every setter of the builder appends the group
    it is named after, exactly once; [SetUSBHostPassthrough] appends one
    group per declared host device. *)
Definition SetBootableImage (image : string) (q : QemuCmd) : QemuCmd :=
  q ++ [BootableImage image].

Definition SetMemory (m : Z) (q : QemuCmd) : QemuCmd := q ++ [Memory m].

Definition SetCPUs (c : Z) (q : QemuCmd) : QemuCmd := q ++ [CPUs c].

Definition SetIgnitionFile (file : VMFile) (q : QemuCmd) : QemuCmd :=
  q ++ [IgnitionFile file].

Definition SetQmpMonitor (monitor : Monitor) (q : QemuCmd) : QemuCmd :=
  q ++ [QmpMonitor monitor].

Definition SetSerialPort (readySocket vmPidFile : VMFile) (name : string)
  (q : QemuCmd) : QemuCmd :=
  q ++ [SerialPort readySocket vmPidFile name].

Definition SetVirtfsMount (source tag securityModel : string) (readonly : bool)
  (q : QemuCmd) : QemuCmd :=
  q ++ [VirtfsMount source tag securityModel readonly].

Definition SetUSBHostPassthrough (usbs : list USBConfig) (q : QemuCmd) : QemuCmd :=
  q ++ map USBHostPassthrough usbs.

Definition SetDisplay (display : string) (q : QemuCmd) : QemuCmd :=
  q ++ [Display display].

(** The first token of a command line, [cmdLine[0]]; indexing an empty
    slice panics. *)
Definition first_token (q : QemuCmd) : option string :=
  match q with
  | Executable binary :: _ => Some binary
  | _ => None
  end.

(** Classifiers of the groups the properties count. *)
Definition is_monitor (g : group) : bool :=
  match g with QmpMonitor _ => true | _ => false end.

Definition is_network (g : group) : bool :=
  match g with NetworkDevice _ => true | _ => false end.

Definition is_serial (g : group) : bool :=
  match g with SerialPort _ _ _ => true | _ => false end.

Definition is_virtfs (g : group) : bool :=
  match g with VirtfsMount _ _ _ _ => true | _ => false end.

Definition is_display (g : group) : bool :=
  match g with Display _ => true | _ => false end.

Definition count (p : group -> bool) (q : QemuCmd) : nat :=
  List.length (filter p q).

End Command.

(** ** Package [vmconfigs]: the machine configuration *)

Module Vmconfigs.
Import Define Command.

(** [vmconfigs.Mount]. *)
Record Mount : Type := mkMount
  { OriginalInput : string;
    ReadOnly : bool;
    Source : string;
    Tag : string;
    Target : string;
    Type_ : string }.

(** [vmconfigs.QEMUConfig]. *)
Record QEMUConfig : Type := mkQEMUConfig
  { QMPMonitor : Monitor;
    QEMUPidPath : option VMFile }.

(** [vmconfigs.ResourceConfig]. *)
Record ResourceConfig : Type := mkResourceConfig
  { CPUs : Z; DiskSize : Z; Memory : Z; USBs : list USBConfig }.

(** [vmconfigs.HostUser]. *)
Record HostUser : Type := mkHostUser { Rootful : bool }.

(** [vmconfigs.SSHConfig]. *)
Record SSHConfig : Type := mkSSHConfig
  { IdentityPath : string; Port : Z; RemoteUsername : string }.

(** [vmconfigs.MachineConfig], with the fields the backend reads or
    writes. *)
Record MachineConfig : Type := mkMachineConfig
  { Name : string;
    ImagePath : option VMFile;
    Resources : ResourceConfig;
    QEMUHypervisor : option QEMUConfig;
    Mounts : list Mount;
    HostUser_ : HostUser;
    SSH : SSHConfig }.

(** [mc.Resources.USBs = usbs]. *)
Definition set_USBs (usbs : list USBConfig) (mc : MachineConfig) : MachineConfig :=
  {| Name := Name mc;
     ImagePath := ImagePath mc;
     Resources := {| CPUs := CPUs (Resources mc);
                     DiskSize := DiskSize (Resources mc);
                     Memory := Memory (Resources mc);
                     USBs := usbs |};
     QEMUHypervisor := QEMUHypervisor mc;
     Mounts := Mounts mc;
     HostUser_ := HostUser_ mc;
     SSH := SSH mc |}.

End Vmconfigs.

(** ** Errors, outcomes and the state monad *)

Module Go.
Import Define Command.

(** [os.File] and [bytes.Buffer] handles. *)
Definition File : Type := Z.

Inductive Buffer : Type := NewBuffer.

(** [os.Process]. *)
Record Process : Type := mkProcess { Pid : Z }.

(** [exec.Cmd]. *)
Record Cmd : Type := mkCmd
  { Args : QemuCmd;
    Path : string;
    Stdin : File;
    Stdout : File;
    Stderr : Buffer;
    Process_ : option Process }.

(** Go errors.  [NotExist] stands for every error [e] with
    [errors.Is(e, os.ErrNotExist)], the class a missing binary falls in;
    [External] for any other error a collaborator hands back. *)
Inductive error : Type :=
| NotExist (detail : string)
| External (msg : string)
| New (msg : string)                      (* errors.New, fmt.Errorf("..%s") *)
| Quoted (context : string) (e : error)   (* fmt.Errorf("..: %q", err) *)
| UnableToExecute (cmd : Cmd) (e : error).  (* fmt.Errorf("unable to execute %q: %w", cmd, err) *)

(** [errors.Is(err, os.ErrNotExist)]; [%w] keeps the chain, [%q] does
    not. *)
Fixpoint is_not_exist (e : error) : bool :=
  match e with
  | NotExist _ => true
  | UnableToExecute _ e' => is_not_exist e'
  | _ => false
  end.

(** What is on the other side of an open [net.Conn]: the bytes the peer
    sends, then the error that ends the stream ([io.EOF] when the peer
    closes). *)
Record Conn : Type := mkConn { peer_data : string; peer_end : error }.

(** What a call comes back with: a value, an error, or a panic. *)
Inductive result (A : Type) : Type :=
| Ok (a : A)
| Err (e : error)
| Panic.

Arguments Ok {A} a.
Arguments Err {A} e.
Arguments Panic {A}.

(** Computations over a state [S]. *)
Definition M (S A : Type) : Type := S -> result A * S.

Definition ret {S A : Type} (a : A) : M S A := fun s => (Ok a, s).

Definition bind {S A B : Type} (m : M S A) (k : A -> M S B) : M S B :=
  fun s =>
    match m s with
    | (Ok a, s') => k a s'
    | (Err e, s') => (Err e, s')
    | (Panic, s') => (Panic, s')
    end.

Definition fail {S A : Type} (e : error) : M S A := fun s => (Err e, s).

Definition panic {S A : Type} : M S A := fun s => (Panic, s).

Definition get {S : Type} : M S S := fun s => (Ok s, s).

Definition modify {S : Type} (f : S -> S) : M S unit := fun s => (Ok tt, f s).

(** [err := f()] without the early return: the error becomes a value the
    caller branches on. *)
Definition attempt {S A : Type} (m : M S A) : M S (result A) :=
  fun s =>
    match m s with
    | (Panic, s') => (Panic, s')
    | (r, s') => (Ok r, s')
    end.

(** A computation on an object that lives only for the call: it starts
    from [l] and hands back what [l] has become. *)
Definition with_local {S T L A : Type} (l : L) (m : M (L * T) A) : M (S * T) (A * L) :=
  fun st =>
    match m (l, snd st) with
    | (Ok a, (l', t')) => (Ok (a, l'), (fst st, t'))
    | (Err e, (_, t')) => (Err e, (fst st, t'))
    | (Panic, (_, t')) => (Panic, (fst st, t'))
    end.

(** [(v, err) := f(); if err != nil { return err }]. *)
Definition try {S A : Type} (r : result A) : M S A := fun s => (r, s).

(** Dereference of a pointer. *)
Definition deref {S A : Type} (p : option A) : M S A :=
  match p with
  | Some a => ret a
  | None => panic
  end.

(** A computation on the second component of a pair of states, and on the
    first. *)
Definition on_snd {S T A : Type} (m : M T A) : M (S * T) A :=
  fun st => let (r, t') := m (snd st) in (r, (fst st, t')).

Definition on_fst {S T A : Type} (m : M S A) : M (S * T) A :=
  fun st => let (r, s') := m (fst st) in (r, (s', snd st)).

(** [defer]: [cleanup] runs when [body] is left, whatever it came back
    with. *)
Definition defer {S A : Type} (cleanup : S -> S) (body : M S A) : M S A :=
  fun s => let (r, s') := body s in (r, cleanup s').

Declare Scope go_scope.
Delimit Scope go_scope with go.

Notation "x <- m ;; k" := (bind m (fun x => k))
  (at level 100, m at next level, right associativity) : go_scope.

Notation "m ;;; k" := (bind m (fun _ => k))
  (at level 100, right associativity) : go_scope.

(** [for _, x := range xs { body }], left when [body] returns. *)
Fixpoint for_range {S A : Type} (xs : list A) (body : A -> M S unit) : M S unit :=
  match xs with
  | [] => ret tt
  | x :: rest => bind (body x) (fun _ => for_range rest body)
  end.

End Go.

(** ** Package [qemu]: the stubber *)

Module Qemu.
Import Define Command Vmconfigs Go.
Local Open Scope go_scope.
Local Open Scope Z_scope.

(** [vmconfigs.QEMUConfig] embedded in the stubber, and the final command
    line. *)
Record QEMUStubber : Type := mkQEMUStubber
  { stub_QMPMonitor : Monitor;
    stub_QEMUPidPath : option VMFile;
    Command : QemuCmd }.

Definition set_QEMUPidPath (p : option VMFile) (q : QEMUStubber) : QEMUStubber :=
  {| stub_QMPMonitor := stub_QMPMonitor q; stub_QEMUPidPath := p; Command := Command q |}.

Definition set_Command (c : QemuCmd) (q : QEMUStubber) : QEMUStubber :=
  {| stub_QMPMonitor := stub_QMPMonitor q; stub_QEMUPidPath := stub_QEMUPidPath q;
     Command := c |}.

Definition on_Command (f : QemuCmd -> QemuCmd) (q : QEMUStubber) : QEMUStubber :=
  set_Command (f (Command q)) q.

Definition set_Path (path : string) (cmd : Cmd) : Cmd :=
  {| Args := Args cmd; Path := path; Stdin := Stdin cmd; Stdout := Stdout cmd;
     Stderr := Stderr cmd; Process_ := Process_ cmd |}.

Definition set_Process (p : Process) (cmd : Cmd) : Cmd :=
  {| Args := Args cmd; Path := Path cmd; Stdin := Stdin cmd; Stdout := Stdout cmd;
     Stderr := Stderr cmd; Process_ := Some p |}.

(** The process-health check handed to the dialer. *)
Inductive ProcCheck : Type := checkProcessStatus.

(** Calls that leave the process, with what they came back with where a
    property speaks of it. *)
Inductive event : Type :=
| EvStart (cmd : Cmd) (r : result Z)
| EvConfigDefault
| EvFindHelperBinary (name : string) (searchPATH : bool)
| EvRun (path : string) (args : list string)
| EvWaitForSocket (maxBackoffs backoff : Z) (socketPath name : string)
    (r : result unit)
| EvDialSocket (maxBackoffs backoff : Z) (socketPath : string)
    (check : ProcCheck) (name : string) (pid : Z) (stdErr : Buffer)
| EvReadString (conn : Conn) (delim : ascii)
| EvCloseConn (conn : Conn)
| EvGetDevNullFiles
| EvCloseFile (f : File)
| EvDebugCmd (cmdLine : QemuCmd)
| EvDebugPid (pid : Z)
| EvRelease (pid : Z)
| EvState (bypass : bool)
| EvSetRootful (rootful : bool)
| EvCommonSSH (username identityPath name : string) (port : Z)
    (args : list string)
| EvPrintf (s : string).

Definition Trace : Type := list event.

(** Opaque [config.Config]. *)
Inductive Config : Type := DefaultConfig.

(** Everything the stubber calls that is declared elsewhere: the operating
    system, the helper packages, the other files of package [qemu] and the
    methods of [MachineConfig].  A call with an effect sees the trace so
    far. *)
Record Host : Type := mkHost
  { (* os/exec and os *)
    exec_Start : Trace -> Cmd -> result Z;
    exec_Run : Trace -> string -> list string -> result unit;
    host_GetDevNullFiles : Trace -> result (File * File);
    (* containers/common/pkg/config *)
    host_config_Default : Trace -> result Config;
    host_FindHelperBinary : Trace -> Config -> string -> bool -> result string;
    (* logrus.IsLevelEnabled(logrus.DebugLevel) *)
    IsDebugLevelEnabled : bool;
    (* pkg/machine/sockets *)
    host_WaitForSocketWithBackoffs :
      Trace -> Z -> Z -> string -> string -> result unit;
    host_DialSocketWithBackoffsAndProcCheck :
      Trace -> Z -> Z -> string -> ProcCheck -> string -> Z -> Buffer -> result Conn;
    (* pkg/machine *)
    host_CommonSSH :
      Trace -> string -> string -> string -> Z -> list string -> result unit;
    (* package qemu, other files *)
    QemuCommand : string;
    MountType9p : string;
    findQEMUBinary : result string;
    addArchOptions : list string -> list string;
    host_State : Trace -> MachineConfig -> bool -> result Status;
    (* pkg/machine/vmconfigs and pkg/machine/define *)
    mc_IgnitionFile : MachineConfig -> result VMFile;
    mc_ReadySocket : MachineConfig -> result VMFile;
    mc_GVProxySocket : MachineConfig -> result VMFile;
    mc_SetRootful : Trace -> MachineConfig -> bool -> result unit * MachineConfig;
    SplitVolume : Z -> string -> string * string * string * bool * string;
    ParseUSBs : list string -> result (list USBConfig);
    (* pkg/machine/qemu/command *)
    SetNetwork_error : VMFile -> result unit }.

(** [strings.HasPrefix], [strconv.Itoa], and the conversion [int(x)] of a
    [uint64] on the 64-bit targets the package builds for. *)
Definition HasPrefix (s prefix : string) : bool := String.prefix prefix s.

Definition Itoa (i : Z) : string := NilZero.string_of_int (Z.to_int i).

Definition int_of_uint64 (x : Z) : Z :=
  let m := x mod 2 ^ 64 in
  if m <? 2 ^ 63 then m else m - 2 ^ 64.

(** [time.Millisecond], in nanoseconds. *)
Definition Millisecond : Z := 1000000.

Definition gvProxyWaitBackoff : Z := 500 * Millisecond.

Definition gvProxyMaxBackoffAttempts : Z := 6.

(** [bufio.Reader.ReadString]: the bytes up to and including the first
    [delim], or the error that ended the stream before one came. *)
Fixpoint read_line (delim : ascii) (s : string) : option string :=
  match s with
  | EmptyString => None
  | String c rest =>
      if Ascii.eqb c delim then Some (String c EmptyString)
      else option_map (String c) (read_line delim rest)
  end.

(** Whether byte [c] occurs in [s]. *)
Fixpoint contains_byte (c : ascii) (s : string) : bool :=
  match s with
  | EmptyString => false
  | String a rest => Ascii.eqb a c || contains_byte c rest
  end.

Definition bufio_ReadString (conn : Conn) (delim : ascii) : result string :=
  match read_line delim (peer_data conn) with
  | Some line => Ok line
  | None => Err (peer_end conn)
  end.

Definition emit (e : event) : M Trace unit := modify (fun t => t ++ [e]).

(** A call into the host: the answer is chosen on the trace so far, then
    the call is recorded. *)
Definition call {A : Type} (ask : Trace -> result A) (ev : result A -> event)
  : M Trace A :=
  fun t => (ask t, t ++ [ev (ask t)]).

Section Stubber.

Variable h : Host.

Definition config_Default : M Trace Config :=
  call (host_config_Default h) (fun _ => EvConfigDefault).

Definition FindHelperBinary (cfg : Config) (name : string) (searchPATH : bool)
  : M Trace string :=
  call (fun t => host_FindHelperBinary h t cfg name searchPATH)
       (fun _ => EvFindHelperBinary name searchPATH).

Definition WaitForSocketWithBackoffs (maxBackoffs backoff : Z)
  (socketPath name : string) : M Trace unit :=
  call (fun t => host_WaitForSocketWithBackoffs h t maxBackoffs backoff socketPath name)
       (EvWaitForSocket maxBackoffs backoff socketPath name).

Definition DialSocketWithBackoffsAndProcCheck (maxBackoffs backoff : Z)
  (socketPath : string) (check : ProcCheck) (name : string) (pid : Z)
  (stdErr : Buffer) : M Trace Conn :=
  call (fun t => host_DialSocketWithBackoffsAndProcCheck h t maxBackoffs backoff
                   socketPath check name pid stdErr)
       (fun _ => EvDialSocket maxBackoffs backoff socketPath check name pid stdErr).

Definition GetDevNullFiles : M Trace (File * File) :=
  call (host_GetDevNullFiles h) (fun _ => EvGetDevNullFiles).

Definition CommonSSH (username identityPath name : string) (port : Z)
  (args : list string) : M Trace unit :=
  call (fun t => host_CommonSSH h t username identityPath name port args)
       (fun _ => EvCommonSSH username identityPath name port args).

Definition exec_Command_Run (path : string) (args : list string) : M Trace unit :=
  call (fun t => exec_Run h t path args) (fun _ => EvRun path args).

Definition State (mc : MachineConfig) (bypass : bool) : M Trace Status :=
  call (fun t => host_State h t mc bypass) (fun _ => EvState bypass).

(** [cmd.Start()]: on success the command owns its process. *)
Definition Cmd_Start : M (Cmd * Trace) unit :=
  fun st =>
    let r := exec_Start h (snd st) (fst st) in
    let t' := snd st ++ [EvStart (fst st) r] in
    match r with
    | Ok pid => (Ok tt, (set_Process {| Pid := pid |} (fst st), t'))
    | Err e => (Err e, (fst st, t'))
    | Panic => (Panic, (fst st, t'))
    end.

(** [mc.SetRootful(rootful)]: what it does to the configuration is the
    host's. *)
Definition SetRootful (rootful : bool) : M (MachineConfig * Trace) unit :=
  fun st =>
    let (r, mc') := mc_SetRootful h (snd st) (fst st) rootful in
    (r, (mc', snd st ++ [EvSetRootful rootful])).

(** [q.Command.SetNetwork(vlanSocket)]. *)
Definition SetNetwork (vlanSocket : VMFile) : M QEMUStubber unit :=
  try (SetNetwork_error h vlanSocket) ;;;
  modify (on_Command (fun q => q ++ [NetworkDevice vlanSocket])).

Definition setQEMUCommandLine (mc : MachineConfig) : M QEMUStubber unit :=
  qemuBinary <- try (findQEMUBinary h) ;;
  ignitionFile <- try (mc_IgnitionFile h mc) ;;
  readySocket <- try (mc_ReadySocket h mc) ;;
  hv <- deref (QEMUHypervisor mc) ;;
  modify (set_QEMUPidPath (QEMUPidPath hv)) ;;;
  modify (set_Command (NewQemuBuilder qemuBinary (addArchOptions h []))) ;;;
  image <- deref (ImagePath mc) ;;
  modify (on_Command (SetBootableImage (GetPath image))) ;;;
  modify (on_Command (SetMemory (Memory (Resources mc)))) ;;;
  modify (on_Command (SetCPUs (Vmconfigs.CPUs (Resources mc)))) ;;;
  modify (on_Command (SetIgnitionFile ignitionFile)) ;;;
  modify (on_Command (SetQmpMonitor (QMPMonitor hv))) ;;;
  gvProxySock <- try (mc_GVProxySocket h mc) ;;
  SetNetwork gvProxySock ;;;
  pidPath <- deref (QEMUPidPath hv) ;;
  modify (on_Command (SetSerialPort readySocket pidPath (Name mc))) ;;;
  (* Add volumes to qemu command line *)
  for_range (Mounts mc) (fun mount =>
    let '(_, _, _, _, securityModel) := SplitVolume h 0 (OriginalInput mount) in
    modify (on_Command
      (SetVirtfsMount (Source mount) (Tag mount) securityModel (ReadOnly mount)))) ;;;
  modify (on_Command (SetUSBHostPassthrough (Vmconfigs.USBs (Resources mc)))) ;;;
  ret tt.

Definition runStartVMCommand : M (Cmd * Trace) unit :=
  err <- attempt Cmd_Start ;;
  match err with
  | Ok _ => ret tt
  | _ =>
      (* check if qemu was not found *)
      (* look up qemu again maybe the path was changed *)
      cfg <- on_snd config_Default ;;
      qemuBinaryPath <- on_snd (FindHelperBinary cfg (QemuCommand h) true) ;;
      on_fst (modify (set_Path qemuBinaryPath)) ;;;
      err <- attempt Cmd_Start ;;
      match err with
      | Err e => cmd <- on_fst get ;; fail (UnableToExecute cmd e)
      | _ => ret tt
      end
  end.

Definition waitForReady (readySocket : VMFile) (pid : Z) (stdErrBuffer : Buffer)
  : M Trace unit :=
  let defaultBackoff := 500 * Millisecond in
  let maxBackoffs := 6 in
  conn <- DialSocketWithBackoffsAndProcCheck maxBackoffs defaultBackoff
            (GetPath readySocket) checkProcessStatus "qemu" pid stdErrBuffer ;;
  defer (fun t => t ++ [EvCloseConn conn])
    (_ <- call (fun _ => bufio_ReadString conn "010"%char)
               (fun _ => EvReadString conn "010"%char) ;;
     ret tt).

(** The ready function and the release function [StartVM] hands back. *)
Record Started : Type := mkStarted
  { release : M Trace unit;
    readyFunc : M Trace unit }.

Definition Process_Release (p : Process) : M Trace unit := emit (EvRelease (Pid p)).

Definition StartVM (mc : MachineConfig) : M (QEMUStubber * Trace) Started :=
  err <- attempt (on_fst (setQEMUCommandLine mc)) ;;
  match err with
  | Err e => fail (Quoted "unable to generate qemu command line: " e)
  | _ => ret tt
  end ;;;
  readySocket <- try (mc_ReadySocket h mc) ;;
  gvProxySock <- try (mc_GVProxySocket h mc) ;;
  (* Wait on gvproxy to be running and aware *)
  on_snd (WaitForSocketWithBackoffs gvProxyMaxBackoffAttempts gvProxyWaitBackoff
            (GetPath gvProxySock) "gvproxy") ;;;
  dn <- on_snd GetDevNullFiles ;;
  let (dnr, dnw) := (dn : File * File) in
  defer (fun st => (fst st, snd st ++ [EvCloseFile dnw; EvCloseFile dnr]))
    (q <- on_fst get ;;
     let cmdLine := Command q in
     (* Disable graphic window when not in debug mode *)
     let cmdLine :=
       if negb (IsDebugLevelEnabled h) then SetDisplay "none" cmdLine else cmdLine in
     on_snd (emit (EvDebugCmd cmdLine)) ;;;
     let stderrBuf := NewBuffer in
     (* actually run the command that starts the virtual machine *)
     path <- deref (first_token cmdLine) ;;
     let cmd := {| Args := cmdLine; Path := path; Stdin := dnr; Stdout := dnw;
                   Stderr := stderrBuf; Process_ := None |} in
     started <- with_local cmd runStartVMCommand ;;
     proc <- deref (Process_ (snd started)) ;;
     on_snd (emit (EvDebugPid (Pid proc))) ;;;
     ret {| release := Process_Release proc;
            readyFunc := waitForReady readySocket (Pid proc) stderrBuf |}).

Definition Exists (q : QEMUStubber) (name : string) : bool * option error :=
  (false, None).

Definition resizeDisk (newSize : Z) (diskPath : option VMFile) : M Trace unit :=
  (* Find the qemu executable *)
  cfg <- config_Default ;;
  resizePath <- FindHelperBinary cfg "qemu-img" true ;;
  disk <- deref diskPath ;;
  err <- attempt (exec_Command_Run resizePath
           ["resize"; GetPath disk; (Itoa (int_of_uint64 newSize) ++ "G")%string]) ;;
  match err with
  | Err e => fail (Quoted "resizing image: " e)
  | _ => ret tt
  end.

Definition SetProviderAttrs (opts : SetOptions) : M (MachineConfig * Trace) unit :=
  mc <- on_fst get ;;
  state <- on_snd (State mc false) ;;
  if negb (Status_eqb state Stopped)
  then fail (New "unable to change settings unless vm is stopped")
  else
    match Define.DiskSize opts with
    | Some size => on_snd (resizeDisk size (ImagePath mc))
    | None => ret tt
    end ;;;
    mc <- on_fst get ;;
    match Define.Rootful opts with
    | Some rootful =>
        if negb (Bool.eqb (Rootful (HostUser_ mc)) rootful)
        then SetRootful rootful
        else ret tt
    | None => ret tt
    end ;;;
    match Define.USBs opts with
    | Some l =>
        usbs <- try (ParseUSBs h l) ;;
        on_fst (modify (set_USBs usbs))
    | None => ret tt
    end ;;;
    (* Because QEMU does nothing with these hardware attributes, we can
       simply return *)
    ret tt.

(** The arguments of the remote command that creates the mount point:
    because / is immutable, permissions are toggled around [mkdir] unless
    the target is in /home or /mnt. *)
Definition mkdir_args (target : string) : list string :=
  let args := ["-q"; "--"] in
  let args :=
    if negb (HasPrefix target "/home") && negb (HasPrefix target "/mnt")
    then args ++ ["sudo"; "chattr"; "-i"; "/"; ";"]
    else args in
  let args := args ++ ["sudo"; "mkdir"; "-p"; target] in
  let args :=
    if negb (HasPrefix target "/home") && negb (HasPrefix target "/mnt")
    then args ++ [";"; "sudo"; "chattr"; "+i"; "/"; ";"]
    else args in
  args.

(** The arguments of the remote mount command of a 9p mount. *)
Definition mount_args (mount : Mount) : list string :=
  let mountOptions := ["-t"; "9p"] in
  let mountOptions :=
    mountOptions ++ ["-o"; "trans=virtio"; Tag mount; Target mount] in
  let mountOptions :=
    mountOptions ++ ["-o"; "version=9p2000.L,msize=131072,cache=mmap"] in
  let mountOptions :=
    if ReadOnly mount then mountOptions ++ ["-o"; "ro"] else mountOptions in
  ["-q"; "--"; "sudo"; "mount"] ++ mountOptions.

(** One turn of the loop of [MountVolumesToVM]. *)
Definition mount_volume (mc : MachineConfig) (quiet : bool) (mount : Mount)
  : M Trace unit :=
  (if negb quiet
   then emit (EvPrintf ("Mounting volume... " ++ Source mount ++ ":"
                          ++ Target mount ++ String "010"%char "")%string)
   else ret tt) ;;;
  (* create mountpoint directory if it doesn't exist *)
  CommonSSH (RemoteUsername (SSH mc)) (IdentityPath (SSH mc)) (Name mc)
    (Port (SSH mc)) (mkdir_args (Target mount)) ;;;
  if String.eqb (Type_ mount) (MountType9p h)
  then
    CommonSSH (RemoteUsername (SSH mc)) (IdentityPath (SSH mc)) (Name mc)
      (Port (SSH mc)) (mount_args mount)
  else fail (New ("unknown mount type: " ++ Type_ mount)%string).

Definition MountVolumesToVM (mc : MachineConfig) (quiet : bool) : M Trace unit :=
  for_range (Mounts mc) (mount_volume mc quiet).

End Stubber.

(** Classifiers of the events the properties speak of. *)
Definition is_start (e : event) : bool :=
  match e with EvStart _ _ => true | _ => false end.

Definition is_dial (e : event) : bool :=
  match e with EvDialSocket _ _ _ _ _ _ _ => true | _ => false end.

Definition is_set_rootful (e : event) : bool :=
  match e with EvSetRootful _ => true | _ => false end.

Definition is_ssh (e : event) : bool :=
  match e with EvCommonSSH _ _ _ _ _ => true | _ => false end.

(** The calls a launch of the command line [cmdLine] may make. *)
Definition launch_step (cmdLine : QemuCmd) (e : event) : Prop :=
  match e with
  | EvStart cmd _ => Args cmd = cmdLine
  | EvConfigDefault | EvFindHelperBinary _ _ => True
  | _ => False
  end.

(** Neither a start of the hypervisor nor a dial of the readiness
    socket. *)
Definition is_idle (e : event) : bool := negb (is_start e) && negb (is_dial e).

(** The remote steps around the creation of a mount point. *)
Definition clear_immutable : list string := ["sudo"; "chattr"; "-i"; "/"].

Definition restore_immutable : list string := ["sudo"; "chattr"; "+i"; "/"].

Definition mkdir_step (target : string) : list string :=
  ["sudo"; "mkdir"; "-p"; target].

(** [args] clears the immutability of the root directory before the mkdir
    step and restores it after. *)
Definition toggles_around_mkdir (target : string) (args : list string) : Prop :=
  exists a b c d,
    args = a ++ clear_immutable ++ b ++ mkdir_step target ++ c
             ++ restore_immutable ++ d.

(** The target starts with one of the prefixes known to be writable. *)
Definition writable_prefix (target : string) : bool :=
  HasPrefix target "/home" || HasPrefix target "/mnt".

(** The shared-directory attachment of a mount. *)
Definition virtfs_of (h : Host) (mount : Mount) : group :=
  let '(_, _, _, _, securityModel) := SplitVolume h 0 (OriginalInput mount) in
  VirtfsMount (Source mount) (Tag mount) securityModel (ReadOnly mount).

End Qemu.

(** ** A concrete machine and concrete hosts *)

Module Fixtures.
Import Define Command Vmconfigs Go Qemu.
Local Open Scope Z_scope.

Definition file (path : string) : VMFile := {| GetPath := path |}.

Definition monitor0 : Monitor :=
  {| Address := file "/run/podman/qmp_box.sock"; Network := "unix"; Timeout := 2 |}.

Definition mount_home : Mount :=
  {| OriginalInput := "/src:/home/user/data"; ReadOnly := false; Source := "/src";
     Tag := "tag0"; Target := "/home/user/data"; Type_ := "9p" |}.

Definition mount_data : Mount :=
  {| OriginalInput := "/srv:/data:ro"; ReadOnly := true; Source := "/srv";
     Tag := "tag1"; Target := "/data"; Type_ := "9p" |}.

Definition mount_nfs : Mount :=
  {| OriginalInput := "/exp:/data"; ReadOnly := false; Source := "/exp";
     Tag := "tag2"; Target := "/data"; Type_ := "nfs" |}.

Definition machine (mounts : list Mount) (rootful : bool) : MachineConfig :=
  {| Name := "box";
     ImagePath := Some (file "/var/lib/box.qcow2");
     Resources := {| Vmconfigs.CPUs := 2; Vmconfigs.DiskSize := 100;
                     Vmconfigs.Memory := 2048; Vmconfigs.USBs := [] |};
     QEMUHypervisor := Some {| QMPMonitor := monitor0;
                               QEMUPidPath := Some (file "/run/podman/box_vm.pid") |};
     Mounts := mounts;
     HostUser_ := {| Vmconfigs.Rootful := rootful |};
     SSH := {| IdentityPath := "/home/user/.ssh/box"; Port := 2222;
               RemoteUsername := "core" |} |}.

Definition stubber0 : QEMUStubber :=
  {| stub_QMPMonitor := monitor0; stub_QEMUPidPath := None; Command := [] |}.

(** A host on which every collaborator answers, given how the first start
    of a command ends, whether the proxy socket comes up, the state of the
    machine, the log level and what the readiness peer sends. *)
Definition host (first_start : result Z) (proxy : result unit) (state : Status)
  (debug : bool) (peer : Conn) : Host :=
  {| exec_Start := fun t _ => if existsb is_start t then Ok 4242 else first_start;
     exec_Run := fun _ _ _ => Ok tt;
     host_GetDevNullFiles := fun _ => Ok (3, 4);
     host_config_Default := fun _ => Ok DefaultConfig;
     host_FindHelperBinary := fun _ _ name _ => Ok ("/usr/libexec/" ++ name)%string;
     IsDebugLevelEnabled := debug;
     host_WaitForSocketWithBackoffs := fun _ _ _ _ _ => proxy;
     host_DialSocketWithBackoffsAndProcCheck := fun _ _ _ _ _ _ _ _ => Ok peer;
     host_CommonSSH := fun _ _ _ _ _ _ => Ok tt;
     QemuCommand := "qemu-system-x86_64";
     MountType9p := "9p";
     findQEMUBinary := Ok "/usr/bin/qemu-system-x86_64";
     addArchOptions := fun opts => opts ++ ["-accel"; "kvm"];
     host_State := fun _ _ _ => Ok state;
     mc_IgnitionFile := fun mc => Ok (file ("/var/lib/" ++ Name mc ++ ".ign")%string);
     mc_ReadySocket := fun mc => Ok (file ("/run/podman/" ++ Name mc ++ "_ready.sock")%string);
     mc_GVProxySocket := fun mc => Ok (file ("/run/podman/" ++ Name mc ++ "-gvproxy.sock")%string);
     mc_SetRootful := fun _ mc rootful =>
       (Ok tt, {| Name := Name mc; ImagePath := ImagePath mc; Resources := Resources mc;
                  QEMUHypervisor := QEMUHypervisor mc; Mounts := Mounts mc;
                  HostUser_ := {| Vmconfigs.Rootful := rootful |}; SSH := SSH mc |});
     SplitVolume := fun _ input => (""%string, ""%string, ""%string, false, "none"%string);
     ParseUSBs := fun l => Ok (map (fun s => {| Bus := s; DevNumber := s;
                                                Vendor := 0; Product := 0 |}) l);
     SetNetwork_error := fun _ => Ok tt |}.

Definition peer_ready : Conn :=
  {| peer_data := String "R" (String "010"%char ""); peer_end := External "EOF" |}.

Definition peer_silent : Conn :=
  {| peer_data := "boot"; peer_end := External "EOF" |}.

Definition cmd0 : Cmd :=
  {| Args := [Executable "/opt/qemu/bin/qemu-system-x86_64"; Display "none"];
     Path := "/opt/qemu/bin/qemu-system-x86_64"; Stdin := 3; Stdout := 4;
     Stderr := NewBuffer; Process_ := None |}.

(** The first start of a command is refused for lack of permission. *)
Definition host_eacces : Host :=
  host (Err (External "permission denied")) (Ok tt) Stopped false peer_ready.

Definition machine_ok : MachineConfig := machine [mount_home; mount_data] false.

(** Every call succeeds. *)
Definition host_ok : Host := host (Ok 4242) (Ok tt) Stopped false peer_ready.

(** A start of [machine_ok] on that host, and one with a proxy socket
    that never comes up. *)
Definition started_ok : result Started * (QEMUStubber * Trace) :=
  StartVM host_ok machine_ok (stubber0, []).

Definition host_no_proxy : Host :=
  host (Ok 4242) (Err (External "gvproxy: timeout")) Stopped false peer_ready.

End Fixtures.

(** ** Package [qemu]: creation and networking *)

Module QemuRest.
Import Define Command Vmconfigs Go Qemu.
Local Open Scope go_scope.
Local Open Scope Z_scope.

(** [define.MachineDirs] and [define.CreateVMOpts], with the fields
    [CreateVM] reads; both directories are pointers. *)
Record MachineDirs : Type := mkMachineDirs { RuntimeDir : option VMFile }.

Record CreateVMOpts : Type := mkCreateVMOpts
  { opt_Name : string; Dirs : option MachineDirs }.

(** What [CreateVM] calls beyond the stubber's own host: the constructor
    of the monitor (package [command]), the runtime directory of the
    machine and the derivation of a file below a directory. *)
Record CreateHost : Type := mkCreateHost
  { base : Host;
    NewQMPMonitor : string -> option VMFile -> result Monitor;
    mc_RuntimeDir : MachineConfig -> result VMFile;
    AppendToNewVMFile : VMFile -> string -> option string -> result VMFile }.

(** [mc.QEMUHypervisor = hv]. *)
Definition set_QEMUHypervisor (hv : option QEMUConfig) (mc : MachineConfig)
  : MachineConfig :=
  {| Name := Name mc; ImagePath := ImagePath mc; Resources := Resources mc;
     QEMUHypervisor := hv; Mounts := Mounts mc; HostUser_ := HostUser_ mc;
     SSH := SSH mc |}.

(** [mc.QEMUHypervisor.QEMUPidPath = p]; the hypervisor pointer is
    dereferenced. *)
Definition assign_QEMUPidPath (p : option VMFile) : M MachineConfig unit :=
  mc <- get ;;
  hv <- deref (QEMUHypervisor mc) ;;
  modify (set_QEMUHypervisor
            (Some {| QMPMonitor := QMPMonitor hv; QEMUPidPath := p |})).

(** [CreateVM]; the ignition builder it is handed is not used. *)
Definition CreateVM (ch : CreateHost) (opts : CreateVMOpts)
  : M (MachineConfig * Trace) unit :=
  dirs <- deref (Dirs opts) ;;
  monitor <- try (NewQMPMonitor ch (opt_Name opts) (RuntimeDir dirs)) ;;
  let qemuConfig := {| QMPMonitor := monitor; QEMUPidPath := None |} in
  mc <- on_fst get ;;
  machineRuntimeDir <- try (mc_RuntimeDir ch mc) ;;
  qemuPidPath <- try (AppendToNewVMFile ch machineRuntimeDir
                        (Name mc ++ "_vm.pid")%string None) ;;
  on_fst (modify (set_QEMUHypervisor (Some qemuConfig))) ;;;
  on_fst (assign_QEMUPidPath (Some qemuPidPath)) ;;;
  mc <- on_fst get ;;
  on_snd (resizeDisk (base ch) (DiskSize (Resources mc)) (ImagePath mc)).

(** Calls [StartNetworking] makes outside the package. *)
Inductive net_event : Type :=
| EvDelete (f : VMFile) (r : result unit)
| EvLogError (e : error)
| EvAddQemuSocket (socket : string).

(** [strings.ReplaceAll] for one byte, and [filepath.ToSlash] on a system
    whose path separator is [sep]. *)
Fixpoint replace_byte (old new : ascii) (s : string) : string :=
  match s with
  | EmptyString => EmptyString
  | String c rest =>
      String (if Ascii.eqb c old then new else c) (replace_byte old new rest)
  end.

Definition ToSlash (sep : ascii) (path : string) : string :=
  if Ascii.eqb sep "/"%char then path else replace_byte sep "/"%char path.

(** What [StartNetworking] needs of its surroundings: the path separator
    of the system, the proxy socket of the machine and the deletion of a
    file. *)
Record NetHost : Type := mkNetHost
  { Separator : ascii;
    net_GVProxySocket : MachineConfig -> result VMFile;
    vmfile_Delete : list net_event -> VMFile -> result unit }.

Definition StartNetworking (nh : NetHost) (mc : MachineConfig)
  : M (list net_event) unit :=
  gvProxySock <- try (net_GVProxySocket nh mc) ;;
  (* make sure it does not exist before gvproxy is called *)
  err <- attempt (fun t => (vmfile_Delete nh t gvProxySock,
                            t ++ [EvDelete gvProxySock (vmfile_Delete nh t gvProxySock)])) ;;
  match err with
  | Err e => modify (fun t => t ++ [EvLogError e])
  | _ => ret tt
  end ;;;
  modify (fun t => t ++ [EvAddQemuSocket
                           ("unix://" ++ ToSlash (Separator nh) (GetPath gvProxySock))%string]) ;;;
  ret tt.

(** [strconv.Atoi] on the output of [strconv.Itoa]. *)
Definition Atoi (s : string) : option Z :=
  option_map Z.of_int (NilZero.int_of_string s).

(** More classifiers of events. *)
Definition is_printf (e : event) : bool :=
  match e with EvPrintf _ => true | _ => false end.

Definition is_run (e : event) : bool :=
  match e with EvRun _ _ => true | _ => false end.

Definition is_wait (e : event) : bool :=
  match e with EvWaitForSocket _ _ _ _ _ => true | _ => false end.

(** The two remote commands of a 9p mount, in the order they are sent. *)
Definition mount_commands (mc : MachineConfig) (m : Mount) : list event :=
  [EvCommonSSH (RemoteUsername (SSH mc)) (IdentityPath (SSH mc)) (Name mc)
     (Port (SSH mc)) (mkdir_args (Target m));
   EvCommonSSH (RemoteUsername (SSH mc)) (IdentityPath (SSH mc)) (Name mc)
     (Port (SSH mc)) (mount_args m)].

(** The line printed for a mount. *)
Definition mount_notice (m : Mount) : event :=
  EvPrintf ("Mounting volume... " ++ Source m ++ ":" ++ Target m
              ++ String "010"%char "")%string.

(** Everything the mount pass does for one 9p mount: the notice unless
    quiet, then the two remote commands. *)
Definition mount_script (mc : MachineConfig) (quiet : bool) (m : Mount)
  : list event :=
  (if quiet then [] else [mount_notice m]) ++ mount_commands mc m.

Definition supported (h : Host) (m : Mount) : bool :=
  (Type_ m =? MountType9p h)%string.

(** The command [StartVM] hands to the launch. *)
Definition start_command (h : Host) (q1 : QEMUStubber) (binary : string)
  (dnr dnw : File) : Cmd :=
  {| Args := if negb (IsDebugLevelEnabled h)
             then SetDisplay "none" (Command q1) else Command q1;
     Path := binary; Stdin := dnr; Stdout := dnw; Stderr := NewBuffer;
     Process_ := None |}.

(** Hosts that differ from a given one in a single answer. *)
Definition with_CommonSSH
  (f : Trace -> string -> string -> string -> Z -> list string -> result unit)
  (h : Host) : Host :=
  {| exec_Start := exec_Start h; exec_Run := exec_Run h;
     host_GetDevNullFiles := host_GetDevNullFiles h;
     host_config_Default := host_config_Default h;
     host_FindHelperBinary := host_FindHelperBinary h;
     IsDebugLevelEnabled := IsDebugLevelEnabled h;
     host_WaitForSocketWithBackoffs := host_WaitForSocketWithBackoffs h;
     host_DialSocketWithBackoffsAndProcCheck :=
       host_DialSocketWithBackoffsAndProcCheck h;
     host_CommonSSH := f;
     QemuCommand := QemuCommand h; MountType9p := MountType9p h;
     findQEMUBinary := findQEMUBinary h; addArchOptions := addArchOptions h;
     host_State := host_State h; mc_IgnitionFile := mc_IgnitionFile h;
     mc_ReadySocket := mc_ReadySocket h; mc_GVProxySocket := mc_GVProxySocket h;
     mc_SetRootful := mc_SetRootful h; SplitVolume := SplitVolume h;
     ParseUSBs := ParseUSBs h; SetNetwork_error := SetNetwork_error h |}.

Definition with_Run (f : Trace -> string -> list string -> result unit)
  (parse : list string -> result (list USBConfig)) (binary : result string)
  (h : Host) : Host :=
  {| exec_Start := exec_Start h; exec_Run := f;
     host_GetDevNullFiles := host_GetDevNullFiles h;
     host_config_Default := host_config_Default h;
     host_FindHelperBinary := host_FindHelperBinary h;
     IsDebugLevelEnabled := IsDebugLevelEnabled h;
     host_WaitForSocketWithBackoffs := host_WaitForSocketWithBackoffs h;
     host_DialSocketWithBackoffsAndProcCheck :=
       host_DialSocketWithBackoffsAndProcCheck h;
     host_CommonSSH := host_CommonSSH h;
     QemuCommand := QemuCommand h; MountType9p := MountType9p h;
     findQEMUBinary := binary; addArchOptions := addArchOptions h;
     host_State := host_State h; mc_IgnitionFile := mc_IgnitionFile h;
     mc_ReadySocket := mc_ReadySocket h; mc_GVProxySocket := mc_GVProxySocket h;
     mc_SetRootful := mc_SetRootful h; SplitVolume := SplitVolume h;
     ParseUSBs := parse; SetNetwork_error := SetNetwork_error h |}.

Definition with_Start (f : Trace -> Cmd -> result Z)
  (look : Trace -> Config -> string -> bool -> result string) (h : Host) : Host :=
  {| exec_Start := f; exec_Run := exec_Run h;
     host_GetDevNullFiles := host_GetDevNullFiles h;
     host_config_Default := host_config_Default h;
     host_FindHelperBinary := look;
     IsDebugLevelEnabled := IsDebugLevelEnabled h;
     host_WaitForSocketWithBackoffs := host_WaitForSocketWithBackoffs h;
     host_DialSocketWithBackoffsAndProcCheck :=
       host_DialSocketWithBackoffsAndProcCheck h;
     host_CommonSSH := host_CommonSSH h;
     QemuCommand := QemuCommand h; MountType9p := MountType9p h;
     findQEMUBinary := findQEMUBinary h; addArchOptions := addArchOptions h;
     host_State := host_State h; mc_IgnitionFile := mc_IgnitionFile h;
     mc_ReadySocket := mc_ReadySocket h; mc_GVProxySocket := mc_GVProxySocket h;
     mc_SetRootful := mc_SetRootful h; SplitVolume := SplitVolume h;
     ParseUSBs := ParseUSBs h; SetNetwork_error := SetNetwork_error h |}.

End QemuRest.

(** ** Package [os]: applying an image from outside the machine
    (machine_os.go) *)

Module MachineOs.
Import Define Vmconfigs Go QemuRest.
Local Open Scope go_scope.
Local Open Scope Z_scope.

(** Modelled from the spec: the declaration of [define.VMType] is not part
    of the sources at hand; the spec names the backends QEMU, Hyper-V,
    AppleHV and WSL. *)
Inductive VMType : Type := QemuVirt | HyperVVirt | AppleHvVirt | WSLVirt.

(** The interface [vmconfigs.VMStubber], seen through [VMType()]. *)
Record VMStubber : Type := mkVMStubber { stub_VMType : VMType }.

(** [MachineOS]: [VM] is a pointer, [Provider] an interface value; both
    may be nil. *)
Record MachineOS : Type := mkMachineOS
  { Args : list string;
    VM : option MachineConfig;
    Provider : option VMStubber;
    VMName : string;
    Restart : bool }.

Definition set_VM (vm : option MachineConfig) (m : MachineOS) : MachineOS :=
  {| Args := Args m; VM := vm; Provider := Provider m; VMName := VMName m;
     Restart := Restart m |}.

(** [ApplyOptions], which [Apply] does not read. *)
Inductive ApplyOptions : Type := mkApplyOptions.

(** [machine.StartOptions], with the field [Apply] sets. *)
Record StartOptions : Type := mkStartOptions { NoInfo : bool }.

(** Calls that leave the package, with what they came back with. *)
Inductive os_event : Type :=
| OsCommonSSH (username identityPath name : string) (port : Z)
    (args : list string) (r : result unit)
| OsGetMachineDirs (vmType : VMType)
| OsStop (hardStop : bool) (r : result unit)
| OsStart (opts : StartOptions) (r : result unit)
| OsPrintf (format : string) (args : list string).

(** The collaborators of [Apply]; stopping and starting a machine may
    change its configuration. *)
Record OsHost : Type := mkOsHost
  { os_CommonSSH :
      list os_event -> string -> string -> string -> Z -> list string -> result unit;
    os_GetMachineDirs : list os_event -> VMType -> result MachineDirs;
    p5_Stop : list os_event -> MachineConfig -> VMStubber -> MachineDirs -> bool
              -> result unit * MachineConfig;
    p5_Start : list os_event -> MachineConfig -> VMStubber -> MachineDirs
               -> StartOptions -> result unit * MachineConfig }.

(** A call that is handed the machine behind [m.VM]. *)
Definition on_VM
  (step : list os_event -> MachineConfig -> result unit * MachineConfig)
  (ev : result unit -> os_event) : M (MachineOS * list os_event) unit :=
  fun st =>
    match VM (fst st) with
    | None => (Panic, st)
    | Some vm =>
        let (r, vm') := step (snd st) vm in
        (r, (set_VM (Some vm') (fst st), snd st ++ [ev r]))
    end.

Definition Apply (h : OsHost) (image : string) (opts : ApplyOptions)
  : M (MachineOS * list os_event) unit :=
  let args := ["podman"; "machine"; "os"; "apply"; image] in
  m <- on_fst get ;;
  vm <- deref (VM m) ;;
  on_snd (fun t =>
    let r := os_CommonSSH h t (RemoteUsername (SSH vm)) (IdentityPath (SSH vm))
               (VMName m) (Port (SSH vm)) args in
    (r, t ++ [OsCommonSSH (RemoteUsername (SSH vm)) (IdentityPath (SSH vm))
                (VMName m) (Port (SSH vm)) args r])) ;;;
  provider <- deref (Provider m) ;;
  dirs <- on_snd (fun t =>
            (os_GetMachineDirs h t (stub_VMType provider),
             t ++ [OsGetMachineDirs (stub_VMType provider)])) ;;
  (if Restart m
   then
     on_VM (fun t vm => p5_Stop h t vm provider dirs false) (OsStop false) ;;;
     on_VM (fun t vm => p5_Start h t vm provider dirs {| NoInfo := true |})
           (OsStart {| NoInfo := true |}) ;;;
     on_snd (modify (fun t =>
       t ++ [OsPrintf ("Machine %q restarted successfully" ++ String "010"%char "")
               [VMName m]]))
   else ret tt) ;;;
  ret tt.

Definition is_stop (e : os_event) : bool :=
  match e with OsStop _ _ => true | _ => false end.

Definition is_os_start (e : os_event) : bool :=
  match e with OsStart _ _ => true | _ => false end.

Definition is_os_printf (e : os_event) : bool :=
  match e with OsPrintf _ _ => true | _ => false end.

(** Whether, in a list of calls, every start of the machine asks for no
    information and comes right after a stop that succeeded and was not
    forced, with no other stop or start in between. *)
Fixpoint stop_then_start (stopped : bool) (evs : list os_event) : bool :=
  match evs with
  | [] => true
  | OsStop false (Ok _) :: rest => stop_then_start true rest
  | OsStop _ _ :: rest => stop_then_start false rest
  | OsStart o _ :: rest => stopped && NoInfo o && stop_then_start false rest
  | _ :: rest => stop_then_start stopped rest
  end.

(** The remote command [Apply] runs in the machine. *)
Definition apply_args (image : string) : list string :=
  ["podman"; "machine"; "os"; "apply"; image].

(** A machine to apply an image to, and a host on which the remote
    command and the look-up of the directories succeed, given how the stop
    and the start end. *)
Definition box (restart : bool) : MachineOS :=
  {| Args := []; VM := Some (Fixtures.machine [] false);
     Provider := Some {| stub_VMType := QemuVirt |};
     VMName := "box"; Restart := restart |}.

Definition os_host (ssh stop start : result unit) : OsHost :=
  {| os_CommonSSH := fun _ _ _ _ _ _ => ssh;
     os_GetMachineDirs := fun _ _ =>
       Ok {| RuntimeDir := Some (Fixtures.file "/run/podman") |};
     p5_Stop := fun _ vm _ _ _ => (stop, vm);
     p5_Start := fun _ vm _ _ _ => (start, vm) |}.

End MachineOs.

(** ** More concrete hosts *)

Module MoreFixtures.
Import Define Command Vmconfigs Go Qemu Fixtures QemuRest.
Local Open Scope Z_scope.

(** The binary is not where the command says and cannot be found
    again. *)
Definition host_no_binary : Host :=
  with_Start (fun _ _ => Err (NotExist "qemu-system-x86_64"))
             (fun _ _ _ _ => Err (External "could not find qemu-system-x86_64"))
             host_ok.

(** A machine that [CreateVM] has not been run on. *)
Definition machine_bare : MachineConfig :=
  set_QEMUHypervisor None machine_ok.

(** The resize utility exits with an error. *)
Definition host_resize_fails : Host :=
  with_Run (fun _ _ _ => Err (External "exit status 1")) (ParseUSBs host_ok)
           (findQEMUBinary host_ok) host_ok.

(** No USB specification parses. *)
Definition host_bad_usb : Host :=
  with_Run (exec_Run host_ok) (fun _ => Err (External "invalid usb"))
           (findQEMUBinary host_ok) host_ok.

(** A host for [CreateVM] and the options of a machine named "box". *)
Definition create_host : CreateHost :=
  {| base := host_ok;
     NewQMPMonitor := fun name _ =>
       Ok {| Address := file ("/run/podman/qmp_" ++ name ++ ".sock")%string;
             Network := "unix"; Timeout := 2 |};
     mc_RuntimeDir := fun _ => Ok (file "/run/podman");
     AppendToNewVMFile := fun dir name _ =>
       Ok (file (GetPath dir ++ "/" ++ name)%string) |}.

Definition create_opts : CreateVMOpts :=
  {| opt_Name := "box";
     Dirs := Some {| RuntimeDir := Some (file "/run/podman") |} |}.

(** A system with the backslash as path separator, on which the stale
    socket cannot be deleted. *)
Definition net_host_backslash : NetHost :=
  {| Separator := "\"%char;
     net_GVProxySocket := fun _ => Ok (file "C:\run\podman\box-gvproxy.sock");
     vmfile_Delete := fun _ _ => Err (External "access denied") |}.

Definition opts_all : SetOptions :=
  {| Define.DiskSize := Some 20; Define.Rootful := Some true;
     Define.USBs := Some ["1234:5678"%string] |}.

End MoreFixtures.

(** ** Properties *)

Module QemuProps.
Import Define Command Vmconfigs Go Qemu Fixtures.
Local Open Scope Z_scope.
Local Open Scope go_scope.

(** *** Counting groups *)

Lemma count_app (p : group -> bool) (a b : QemuCmd) :
  count p (a ++ b) = (count p a + count p b)%nat.
Proof.
  unfold count. now rewrite filter_app, length_app.
Qed.

Lemma count_map_none (A : Type) (p : group -> bool) (f : A -> group) (l : list A) :
  (forall x, p (f x) = false) -> count p (map f l) = 0%nat.
Proof.
  intros Hf. unfold count.
  induction l as [|x l IH]; simpl; [reflexivity|].
  now rewrite Hf.
Qed.

Lemma count_map_all (A : Type) (p : group -> bool) (f : A -> group) (l : list A) :
  (forall x, p (f x) = true) -> count p (map f l) = List.length l.
Proof.
  intros Hf. unfold count.
  induction l as [|x l IH]; simpl; [reflexivity|].
  rewrite Hf. simpl. now rewrite IH.
Qed.

Lemma is_virtfs_virtfs_of (h : Host) (m : Mount) : is_virtfs (virtfs_of h m) = true.
Proof.
  unfold virtfs_of. now destruct (SplitVolume h 0 (OriginalInput m)) as [[[[? ?] ?] ?] ?].
Qed.

(** *** The loop over the mounts of [setQEMUCommandLine] *)

Lemma add_volumes (h : Host) (mounts : list Mount) (q : QEMUStubber) :
  for_range mounts (fun mount =>
    let '(_, _, _, _, securityModel) := SplitVolume h 0 (OriginalInput mount) in
    modify (on_Command
      (SetVirtfsMount (Source mount) (Tag mount) securityModel (ReadOnly mount)))) q
  = (Ok tt, on_Command (fun c => c ++ map (virtfs_of h) mounts) q).
Proof.
  revert q. induction mounts as [|m mounts IH]; intros q.
  - simpl. unfold ret, on_Command, set_Command. rewrite app_nil_r. now destruct q.
  - simpl. unfold bind.
    assert (Hstep :
      (let '(_, _, _, _, securityModel) := SplitVolume h 0 (OriginalInput m) in
       modify (on_Command
         (SetVirtfsMount (Source m) (Tag m) securityModel (ReadOnly m)))) q
      = (Ok tt, on_Command (fun c => c ++ [virtfs_of h m]) q)).
    { unfold virtfs_of.
      destruct (SplitVolume h 0 (OriginalInput m)) as [[[[? ?] ?] ?] sm].
      reflexivity. }
    rewrite Hstep, IH. f_equal.
    unfold on_Command, set_Command. simpl. now rewrite <- app_assoc.
Qed.

(** The command line [setQEMUCommandLine] leaves in the stubber when it
    succeeds. *)
Lemma setQEMUCommandLine_shape (h : Host) (mc : MachineConfig) (q q' : QEMUStubber) :
  setQEMUCommandLine h mc q = (Ok tt, q') ->
  exists binary ign ready hv image gv pidfile,
    findQEMUBinary h = Ok binary /\
    mc_ReadySocket h mc = Ok ready /\
    mc_GVProxySocket h mc = Ok gv /\
    Command q' =
      [Executable binary; Options (addArchOptions h []);
       BootableImage (GetPath image); Command.Memory (Memory (Resources mc));
       Command.CPUs (Vmconfigs.CPUs (Resources mc)); IgnitionFile ign;
       QmpMonitor (QMPMonitor hv); NetworkDevice gv;
       SerialPort ready pidfile (Name mc)]
      ++ map (virtfs_of h) (Mounts mc)
      ++ map USBHostPassthrough (Vmconfigs.USBs (Resources mc)).
Proof.
  unfold setQEMUCommandLine, bind, try, deref, SetNetwork, modify, ret, panic.
  destruct (findQEMUBinary h) as [binary|e|]; try discriminate.
  destruct (mc_IgnitionFile h mc) as [ign|e|]; try discriminate.
  destruct (mc_ReadySocket h mc) as [ready|e|]; try discriminate.
  destruct (QEMUHypervisor mc) as [hv|]; try discriminate.
  destruct (ImagePath mc) as [image|]; try discriminate.
  destruct (mc_GVProxySocket h mc) as [gv|e|]; try discriminate.
  unfold bind, try.
  destruct (SetNetwork_error h gv) as [[]|e|]; try discriminate.
  destruct (QEMUPidPath hv) as [pidfile|]; try discriminate.
  rewrite add_volumes. simpl.
  intros H. injection H as <-.
  exists binary, ign, ready, hv, image, gv, pidfile.
  repeat split.
Qed.

(** *** Cardinality of the attachments *)

(** C4. Whenever [setQEMUCommandLine] succeeds on a machine with N mounts,
    the command line it builds holds exactly one monitor-socket
    attachment, exactly one network-device attachment, exactly one
    serial-port attachment and exactly N shared-directory attachments,
    whatever the mounts contain. *)
Theorem setQEMUCommandLine_cardinality (h : Host) (mc : MachineConfig)
  (q q' : QEMUStubber) :
  setQEMUCommandLine h mc q = (Ok tt, q') ->
  count is_monitor (Command q') = 1%nat /\
  count is_network (Command q') = 1%nat /\
  count is_serial (Command q') = 1%nat /\
  count is_virtfs (Command q') = List.length (Mounts mc).
Proof.
  intros H.
  destruct (setQEMUCommandLine_shape h mc q q' H)
    as (binary & ign & ready & hv & image & gv & pidfile & _ & _ & _ & ->).
  rewrite !count_app.
  rewrite (count_map_all Mount is_virtfs (virtfs_of h) (Mounts mc)
             (is_virtfs_virtfs_of h)).
  rewrite !(count_map_none USBConfig _ USBHostPassthrough) by reflexivity.
  assert (Hv : forall p, (forall m, p (virtfs_of h m) = false) ->
                         count p (map (virtfs_of h) (Mounts mc)) = 0%nat)
    by (intros p Hp; now apply count_map_none).
  assert (Hnot : forall p, (forall s t m r, p (VirtfsMount s t m r) = false) ->
                           forall m, p (virtfs_of h m) = false).
  { intros p Hp m. unfold virtfs_of.
    destruct (SplitVolume h 0 (OriginalInput m)) as [[[[? ?] ?] ?] ?]. apply Hp. }
  rewrite (Hv is_monitor), (Hv is_network), (Hv is_serial)
    by (apply Hnot; reflexivity).
  cbn. repeat split; lia.
Qed.

Lemma setQEMUCommandLine_cardinality_witness :
  let q' := snd (setQEMUCommandLine host_ok (machine [mount_home; mount_data] false)
                   stubber0) in
  count is_monitor (Command q') = 1%nat /\
  count is_network (Command q') = 1%nat /\
  count is_serial (Command q') = 1%nat /\
  count is_virtfs (Command q') = 2%nat.
Proof.
  apply (setQEMUCommandLine_cardinality host_ok
           (machine [mount_home; mount_data] false) stubber0 _).
  vm_compute. reflexivity.
Defined.

(** *** Existence check *)

(** C9. [Exists] answers [(false, nil)] for every machine name: it never
    reports a machine and never fails. *)
Theorem Exists_reports_nothing (q : QEMUStubber) (name : string) :
  Exists q name = (false, None).
Proof.
  reflexivity.
Qed.

(** *** The command that creates a mount point *)

Lemma mkdir_args_outside (target : string) :
  writable_prefix target = false ->
  mkdir_args target
  = ["-q"; "--"] ++ clear_immutable ++ [";"] ++ mkdir_step target ++ [";"]
      ++ restore_immutable ++ [";"].
Proof.
  unfold writable_prefix, mkdir_args. intros Hw.
  apply orb_false_elim in Hw as [-> ->]. reflexivity.
Qed.

Lemma mkdir_args_inside (target : string) :
  writable_prefix target = true ->
  mkdir_args target = ["-q"; "--"] ++ mkdir_step target.
Proof.
  unfold writable_prefix, mkdir_args. intros Hw.
  destruct (HasPrefix target "/home"); [reflexivity|].
  simpl in Hw. rewrite Hw. reflexivity.
Qed.

(** C8. The first remote command of a mount is the one that creates the
    target directory; it clears the immutability of the root directory
    before the mkdir step and restores it after exactly when the target
    starts neither with "/home" nor with "/mnt"; for a target that starts
    with one of them it is the bare mkdir command, with no chattr in it. *)
Theorem mkdir_command_toggles_immutability (h : Host) (mc : MachineConfig)
  (quiet : bool) (mount : Mount) (t : Trace) :
  exists pre post args,
    snd (mount_volume h mc quiet mount t)
    = t ++ pre ++ EvCommonSSH (RemoteUsername (SSH mc)) (IdentityPath (SSH mc))
                    (Name mc) (Port (SSH mc)) args :: post /\
    forallb (fun e => negb (is_ssh e)) pre = true /\
    args = mkdir_args (Target mount) /\
    (toggles_around_mkdir (Target mount) args
     <-> writable_prefix (Target mount) = false) /\
    (writable_prefix (Target mount) = true ->
     args = ["-q"; "--"] ++ mkdir_step (Target mount) /\ ~ In "chattr"%string args).
Proof.
  assert (Hargs :
    (toggles_around_mkdir (Target mount) (mkdir_args (Target mount))
     <-> writable_prefix (Target mount) = false) /\
    (writable_prefix (Target mount) = true ->
     mkdir_args (Target mount) = ["-q"; "--"] ++ mkdir_step (Target mount) /\
     ~ In "chattr"%string (mkdir_args (Target mount)))).
  { split; [split|].
    - intros (a & b & c & d & Heq).
      destruct (writable_prefix (Target mount)) eqn:Hw; [|reflexivity].
      rewrite (mkdir_args_inside _ Hw) in Heq.
      apply (f_equal (@List.length string)) in Heq.
      rewrite !length_app in Heq. simpl in Heq. lia.
    - intros Hw. rewrite (mkdir_args_outside _ Hw).
      exists ["-q"; "--"], [";"], [";"], [";"]. reflexivity.
    - intros Hw. rewrite (mkdir_args_inside _ Hw). split; [reflexivity|].
      simpl. intros [H|[H|[H|[H|[H|[H|[]]]]]]]; try discriminate.
      rewrite H in Hw. discriminate. }
  set (ssh := EvCommonSSH (RemoteUsername (SSH mc)) (IdentityPath (SSH mc))
                (Name mc) (Port (SSH mc))).
  assert (Hdone : forall t' pre post,
    t' = t ++ pre ++ ssh (mkdir_args (Target mount)) :: post ->
    forallb (fun e => negb (is_ssh e)) pre = true ->
    exists pre post args,
      t' = t ++ pre ++ ssh args :: post /\
      forallb (fun e => negb (is_ssh e)) pre = true /\
      args = mkdir_args (Target mount) /\
      (toggles_around_mkdir (Target mount) args
       <-> writable_prefix (Target mount) = false) /\
      (writable_prefix (Target mount) = true ->
       args = ["-q"; "--"] ++ mkdir_step (Target mount) /\
       ~ In "chattr"%string args)).
  { intros t' pre post Ht Hpre.
    exists pre, post, (mkdir_args (Target mount)).
    split; [exact Ht|]. split; [exact Hpre|]. split; [reflexivity|]. exact Hargs. }
  unfold mount_volume, bind, CommonSSH, call, emit, modify, ret, fail.
  destruct quiet; simpl.
  - destruct (host_CommonSSH h t _ _ _ _ (mkdir_args (Target mount))) as [[]|e|].
    + destruct (Type_ mount =? MountType9p h)%string; simpl.
      * apply (Hdone _ [] [ssh (mount_args mount)]); [|reflexivity].
        now rewrite <- app_assoc.
      * now apply (Hdone _ [] []).
    + now apply (Hdone _ [] []).
    + now apply (Hdone _ [] []).
  - match goal with |- context [EvPrintf ?s] => set (p := EvPrintf s) end.
    destruct (host_CommonSSH h (t ++ [p]) _ _ _ _ (mkdir_args (Target mount)))
      as [[]|e|].
    + destruct (Type_ mount =? MountType9p h)%string; simpl.
      * apply (Hdone _ [p] [ssh (mount_args mount)]); [|reflexivity].
        now rewrite <- !app_assoc.
      * apply (Hdone _ [p] []); [|reflexivity]. now rewrite <- !app_assoc.
    + apply (Hdone _ [p] []); [|reflexivity]. now rewrite <- !app_assoc.
    + apply (Hdone _ [p] []); [|reflexivity]. now rewrite <- !app_assoc.
Qed.

Lemma mkdir_command_toggles_immutability_witness :
  exists pre post args,
    snd (mount_volume host_ok (machine [mount_data] false) false mount_data [])
    = [] ++ pre ++ EvCommonSSH "core" "/home/user/.ssh/box" "box" 2222 args :: post /\
    forallb (fun e => negb (is_ssh e)) pre = true /\
    args = mkdir_args "/data" /\
    (toggles_around_mkdir "/data" args <-> writable_prefix "/data" = false) /\
    (writable_prefix "/data" = true ->
     args = ["-q"; "--"] ++ mkdir_step "/data" /\ ~ In "chattr"%string args).
Proof.
  exact (mkdir_command_toggles_immutability host_ok (machine [mount_data] false)
           false mount_data []).
Defined.

(** *** Attribute mutation *)

(** C3. When the state of the machine is not Stopped, [SetProviderAttrs]
    returns an error and changes nothing, whatever was requested: the
    machine configuration is the one it was given (rootful flag and USB
    list included) and the only call made is the state query (no resize is
    run, no rootful toggle). *)
Theorem SetProviderAttrs_rejected_unless_stopped (h : Host) (opts : SetOptions)
  (mc : MachineConfig) (t : Trace) (state : Status) :
  host_State h t mc false = Ok state ->
  state <> Stopped ->
  SetProviderAttrs h opts (mc, t)
  = (Err (New "unable to change settings unless vm is stopped"),
     (mc, t ++ [EvState false])).
Proof.
  intros Hstate Hne.
  unfold SetProviderAttrs, bind, on_fst, on_snd, get, State, call. simpl.
  rewrite Hstate.
  destruct state; try reflexivity. now elim Hne.
Qed.

Lemma SetProviderAttrs_rejected_unless_stopped_witness :
  SetProviderAttrs (host (Ok 1) (Ok tt) Running false peer_ready)
    {| Define.DiskSize := Some 20; Define.Rootful := Some true;
       Define.USBs := Some ["1234:5678"%string] |}
    (machine [] false, [])
  = (Err (New "unable to change settings unless vm is stopped"),
     (machine [] false, [] ++ [EvState false])).
Proof.
  apply (SetProviderAttrs_rejected_unless_stopped
           (host (Ok 1) (Ok tt) Running false peer_ready) _ (machine [] false) []
           Running).
  - reflexivity.
  - discriminate.
Defined.

(** What [resizeDisk] adds to the trace holds no rootful toggle. *)
Lemma resizeDisk_events (h : Host) (newSize : Z) (diskPath : option VMFile)
  (t : Trace) :
  exists evs,
    snd (resizeDisk h newSize diskPath t) = t ++ evs /\
    forallb (fun e => negb (is_set_rootful e)) evs = true.
Proof.
  unfold resizeDisk, bind, config_Default, FindHelperBinary, exec_Command_Run,
    attempt, call, deref, ret, fail, panic.
  destruct (host_config_Default h t) as [cfg|e|];
    try (exists [EvConfigDefault]; split; reflexivity).
  set (t1 := t ++ [EvConfigDefault]).
  destruct (host_FindHelperBinary h t1 cfg "qemu-img" true) as [path|e|];
    try (exists [EvConfigDefault; EvFindHelperBinary "qemu-img" true];
         unfold t1; rewrite <- app_assoc; split; reflexivity).
  destruct diskPath as [disk|];
    try (exists [EvConfigDefault; EvFindHelperBinary "qemu-img" true];
         unfold t1; rewrite <- app_assoc; split; reflexivity).
  match goal with |- context [exec_Run h ?t' ?p ?a] =>
    destruct (exec_Run h t' p a) as [[]|e|];
    (exists [EvConfigDefault; EvFindHelperBinary "qemu-img" true; EvRun p a];
     unfold t1; rewrite <- !app_assoc; split; reflexivity)
  end.
Qed.

(** The steps of [SetProviderAttrs] after the resize, on a machine whose
    rootful flag is the requested one. *)
Lemma same_rootful_then_usbs (h : Host) (opts : SetOptions) (mc mc' : MachineConfig)
  (t1 t' : Trace) (r : result unit) :
  Define.Rootful opts = Some (Rootful (HostUser_ mc)) ->
  (mc1 <- on_fst get ;;
   match Define.Rootful opts with
   | Some rootful =>
       if negb (Bool.eqb (Rootful (HostUser_ mc1)) rootful)
       then SetRootful h rootful
       else ret tt
   | None => ret tt
   end ;;;
   match Define.USBs opts with
   | Some l =>
       usbs <- try (ParseUSBs h l) ;;
       on_fst (modify (set_USBs usbs))
   | None => ret tt
   end ;;;
   ret tt)%go (mc, t1) = (r, (mc', t')) ->
  t' = t1 /\ Rootful (HostUser_ mc') = Rootful (HostUser_ mc).
Proof.
  intros Hroot.
  unfold bind, on_fst, get, try, modify, ret. simpl.
  rewrite Hroot, Bool.eqb_reflx. simpl.
  destruct (Define.USBs opts) as [l|]; [destruct (ParseUSBs h l)|]; simpl;
    intros H; inversion H; subst; auto.
Qed.

(** C10. When the machine is Stopped and the requested rootful value is
    the one the machine already has, [SetProviderAttrs] never calls
    [SetRootful], whatever else was requested and however the call ends,
    and the rootful flag of the machine is what it was. *)
Theorem SetProviderAttrs_same_rootful_is_noop (h : Host) (opts : SetOptions)
  (mc mc' : MachineConfig) (t t' : Trace) (r : result unit) :
  host_State h t mc false = Ok Stopped ->
  Define.Rootful opts = Some (Rootful (HostUser_ mc)) ->
  SetProviderAttrs h opts (mc, t) = (r, (mc', t')) ->
  exists evs,
    t' = t ++ evs /\
    forallb (fun e => negb (is_set_rootful e)) evs = true /\
    Rootful (HostUser_ mc') = Rootful (HostUser_ mc).
Proof.
  intros Hstate Hroot.
  unfold SetProviderAttrs.
  unfold bind at 1. unfold on_fst at 1, get at 1. cbn [fst snd].
  unfold bind at 1. unfold on_snd at 1, State, call. cbn [fst snd].
  rewrite Hstate. cbn [Status_eqb negb].
  unfold bind at 1.
  destruct (Define.DiskSize opts) as [size|].
  - unfold on_snd at 1. cbn [fst snd].
    destruct (resizeDisk_events h size (ImagePath mc) (t ++ [EvState false]))
      as (evs & Ht & Hevs).
    destruct (resizeDisk h size (ImagePath mc) (t ++ [EvState false]))
      as [[[]|e|] t1]; simpl in Ht; subst t1.
    + intros Htail.
      destruct (same_rootful_then_usbs h opts mc mc' _ t' r Hroot Htail) as [-> Hflag].
      exists (EvState false :: evs). rewrite <- app_assoc. auto.
    + intros H. inversion H; subst.
      exists (EvState false :: evs). rewrite <- app_assoc. auto.
    + intros H. inversion H; subst.
      exists (EvState false :: evs). rewrite <- app_assoc. auto.
  - unfold ret at 1. intros Htail.
    destruct (same_rootful_then_usbs h opts mc mc' _ t' r Hroot Htail) as [-> Hflag].
    exists [EvState false]. auto.
Qed.

Lemma SetProviderAttrs_same_rootful_is_noop_witness :
  exists evs,
    snd (snd (SetProviderAttrs host_ok
                {| Define.DiskSize := Some 20; Define.Rootful := Some false;
                   Define.USBs := Some ["1234:5678"%string] |}
                (machine [] false, [])))
    = [] ++ evs /\
    forallb (fun e => negb (is_set_rootful e)) evs = true /\
    Rootful (HostUser_ (fst (snd (SetProviderAttrs host_ok
                {| Define.DiskSize := Some 20; Define.Rootful := Some false;
                   Define.USBs := Some ["1234:5678"%string] |}
                (machine [] false, [])))))
    = Rootful (HostUser_ (machine [] false)).
Proof.
  apply (SetProviderAttrs_same_rootful_is_noop host_ok
           {| Define.DiskSize := Some 20; Define.Rootful := Some false;
              Define.USBs := Some ["1234:5678"%string] |}
           (machine [] false) _ [] _ (Ok tt)).
  - reflexivity.
  - reflexivity.
  - vm_compute. reflexivity.
Defined.

(** *** The readiness wait *)

Lemma read_line_delivered (d : ascii) (line rest : string) :
  exists l, read_line d (line ++ String d rest)%string = Some l.
Proof.
  induction line as [|a line [l IH]]; simpl.
  - rewrite Ascii.eqb_refl. eauto.
  - destruct (Ascii.eqb a d); [eauto|]. rewrite IH. simpl. eauto.
Qed.

Lemma read_line_missing (d : ascii) (s : string) :
  contains_byte d s = false -> read_line d s = None.
Proof.
  induction s as [|a s IH]; simpl; [reflexivity|].
  intros H. apply orb_false_elim in H as [-> H]. now rewrite (IH H).
Qed.

(** C7. [waitForReady] dials the readiness socket once, with 6 attempts,
    a delay of 500ms and the process check bound to the given pid.  If the
    dialer fails, its error is returned as it is.  Once connected, one
    line is read: any bytes followed by a newline give [nil], whatever the
    bytes are; a stream that ends before a newline gives the error that
    ended it. *)
Theorem waitForReady_protocol (h : Host) (readySocket : VMFile) (pid : Z)
  (buf : Buffer) (t : Trace) :
  let dialed :=
    host_DialSocketWithBackoffsAndProcCheck h t 6 (500 * Millisecond)
      (GetPath readySocket) checkProcessStatus "qemu" pid buf in
  let dial :=
    EvDialSocket 6 (500 * Millisecond) (GetPath readySocket) checkProcessStatus
      "qemu" pid buf in
  let nl := "010"%char in
  (forall e, dialed = Err e ->
     waitForReady h readySocket pid buf t = (Err e, t ++ [dial])) /\
  (forall conn, dialed = Ok conn ->
     snd (waitForReady h readySocket pid buf t)
     = t ++ [dial; EvReadString conn nl; EvCloseConn conn]) /\
  (forall conn line rest, dialed = Ok conn ->
     peer_data conn = (line ++ String nl rest)%string ->
     fst (waitForReady h readySocket pid buf t) = Ok tt) /\
  (forall conn, dialed = Ok conn ->
     contains_byte nl (peer_data conn) = false ->
     fst (waitForReady h readySocket pid buf t) = Err (peer_end conn)).
Proof.
  cbv zeta.
  unfold waitForReady, bind, DialSocketWithBackoffsAndProcCheck, call, defer,
    bufio_ReadString, ret.
  repeat split.
  - intros e ->. reflexivity.
  - intros conn ->.
    destruct (read_line "010" (peer_data conn)); simpl; now rewrite <- !app_assoc.
  - intros conn line rest -> Hdata. rewrite Hdata.
    destruct (read_line_delivered "010" line rest) as [l ->]. reflexivity.
  - intros conn -> Hnone. now rewrite (read_line_missing _ _ Hnone).
Qed.

Lemma waitForReady_protocol_witness :
  fst (waitForReady host_ok (file "/run/podman/box_ready.sock") 4242 NewBuffer [])
  = Ok tt.
Proof.
  apply (proj1 (proj2 (proj2
           (waitForReady_protocol host_ok (file "/run/podman/box_ready.sock")
              4242 NewBuffer []))) peer_ready "R"%string ""%string).
  - reflexivity.
  - reflexivity.
Defined.

(** *** Launching the hypervisor *)

(** Whatever the error of the first start is, the binary is looked up
    again: the error is never examined. *)
Lemma runStartVMCommand_retries_on_any_error (h : Host) (cmd : Cmd) (t : Trace)
  (e : error) :
  exec_Start h t cmd = Err e ->
  exists rest,
    snd (snd (runStartVMCommand h (cmd, t)))
    = t ++ EvStart cmd (Err e) :: EvConfigDefault :: rest.
Proof.
  intros H1.
  unfold runStartVMCommand, bind, attempt, Cmd_Start, on_snd, on_fst,
    config_Default, FindHelperBinary, call, modify, get, ret, fail.
  cbn [fst snd]. rewrite H1. cbn [fst snd].
  set (s1 := EvStart cmd (Err e)).
  destruct (host_config_Default h (t ++ [s1])) as [cfg|e1|]; cbn [fst snd];
    try (exists []; now rewrite <- app_assoc).
  set (look := EvFindHelperBinary (QemuCommand h) true).
  destruct (host_FindHelperBinary h ((t ++ [s1]) ++ [EvConfigDefault]) cfg
              (QemuCommand h) true) as [path|e2|]; cbn [fst snd];
    try (exists [look]; now rewrite <- !app_assoc).
  match goal with |- context [exec_Start h ?t3 (set_Path path cmd)] =>
    destruct (exec_Start h t3 (set_Path path cmd)) as [pid|e3|]
  end; cbn [fst snd];
    match goal with |- context [EvStart (set_Path path cmd) ?res] =>
      exists [look; EvStart (set_Path path cmd) res]
    end; now rewrite <- !app_assoc.
Qed.

(** C1. A first start refused for lack of permission is not an error of
    the binary-not-found class, and still [runStartVMCommand] looks the
    binary up again and starts the command a second time, which here
    succeeds: the launch is retried where it should have been fatal. *)
Theorem runStartVMCommand_retries_on_permission_error :
  is_not_exist (External "permission denied") = false /\
  exec_Start host_eacces [] cmd0 = Err (External "permission denied") /\
  runStartVMCommand host_eacces (cmd0, [])
  = (Ok tt,
     (set_Process {| Pid := 4242 |}
        (set_Path "/usr/libexec/qemu-system-x86_64" cmd0),
      [EvStart cmd0 (Err (External "permission denied"));
       EvConfigDefault;
       EvFindHelperBinary "qemu-system-x86_64" true;
       EvStart (set_Path "/usr/libexec/qemu-system-x86_64" cmd0) (Ok 4242)])).
Proof.
  repeat split.
Qed.

(** *** The mount pass *)

Lemma for_range_app (S A : Type) (xs ys : list A) (body : A -> M S unit) (s : S) :
  for_range (xs ++ ys) body s
  = bind (for_range xs body) (fun _ => for_range ys body) s.
Proof.
  revert s. induction xs as [|x xs IH]; intros s; simpl.
  - reflexivity.
  - unfold bind. destruct (body x s) as [[[]|e|] s1]; try reflexivity.
    rewrite IH. reflexivity.
Qed.

(** C2, as stated, fails: on a machine whose only mount has the
    unsupported type "nfs", the pass fails, but the command that creates
    the mount point has been sent for that entry. *)
Lemma unsupported_mount_still_creates_directory :
  (Type_ mount_nfs =? MountType9p host_ok)%string = false /\
  MountVolumesToVM host_ok (machine [mount_nfs] false) true []
  = (Err (New "unknown mount type: nfs"),
     [EvCommonSSH "core" "/home/user/.ssh/box" "box" 2222
        ["-q"; "--"; "sudo"; "chattr"; "-i"; "/"; ";";
         "sudo"; "mkdir"; "-p"; "/data"; ";";
         "sudo"; "chattr"; "+i"; "/"; ";"]%string]) /\
  existsb is_ssh
    (snd (MountVolumesToVM host_ok (machine [mount_nfs] false) true [])) = true.
Proof.
  repeat split.
Qed.

(** C2, amended. When the mount pass reaches a mount of an unsupported
    type, it sends the command that creates the mount point for that
    entry and nothing else: if that command fails the pass fails with its
    error, otherwise with "unknown mount type"; the mount command is not
    sent for the entry, and no later entry is looked at. *)
Theorem unsupported_mount_fails_after_mkdir (h : Host) (mc : MachineConfig)
  (quiet : bool) (pre post : list Mount) (m : Mount) (t t1 : Trace) :
  Mounts mc = pre ++ m :: post ->
  (Type_ m =? MountType9p h)%string = false ->
  for_range pre (mount_volume h mc quiet) t = (Ok tt, t1) ->
  let t2 :=
    if quiet then t1
    else t1 ++ [EvPrintf ("Mounting volume... " ++ Source m ++ ":"
                            ++ Target m ++ String "010"%char "")%string] in
  MountVolumesToVM h mc quiet t
  = (match host_CommonSSH h t2 (RemoteUsername (SSH mc)) (IdentityPath (SSH mc))
             (Name mc) (Port (SSH mc)) (mkdir_args (Target m)) with
     | Ok _ => Err (New ("unknown mount type: " ++ Type_ m)%string)
     | Err e => Err e
     | Panic => Panic
     end,
     t2 ++ [EvCommonSSH (RemoteUsername (SSH mc)) (IdentityPath (SSH mc))
              (Name mc) (Port (SSH mc)) (mkdir_args (Target m))]).
Proof.
  intros Hmounts Htype Hpre. cbv zeta.
  unfold MountVolumesToVM. rewrite Hmounts, for_range_app.
  unfold bind at 1. rewrite Hpre.
  cbn [for_range]. unfold bind at 1.
  unfold mount_volume, bind, CommonSSH, call, emit, modify, ret, fail.
  rewrite Htype.
  destruct quiet; cbn [negb];
    match goal with |- context [host_CommonSSH h ?t' ?u ?i ?n ?p ?a] =>
      destruct (host_CommonSSH h t' u i n p a) as [[]|e|]; reflexivity
    end.
Qed.

Lemma unsupported_mount_fails_after_mkdir_witness :
  MountVolumesToVM host_ok (machine [mount_home; mount_nfs; mount_data] false) true []
  = (Err (New "unknown mount type: nfs"),
     [EvCommonSSH "core" "/home/user/.ssh/box" "box" 2222
        (mkdir_args "/home/user/data");
      EvCommonSSH "core" "/home/user/.ssh/box" "box" 2222 (mount_args mount_home)]
     ++ [EvCommonSSH "core" "/home/user/.ssh/box" "box" 2222 (mkdir_args "/data")]).
Proof.
  apply (unsupported_mount_fails_after_mkdir host_ok
           (machine [mount_home; mount_nfs; mount_data] false) true
           [mount_home] [mount_data] mount_nfs []
           [EvCommonSSH "core" "/home/user/.ssh/box" "box" 2222
              (mkdir_args "/home/user/data");
            EvCommonSSH "core" "/home/user/.ssh/box" "box" 2222
              (mount_args mount_home)]).
  - reflexivity.
  - reflexivity.
  - reflexivity.
Defined.

(** *** Starting the machine *)

(** What a launch adds to the trace: at least one start of the command,
    with look-ups of the binary in between and nothing else, and on
    success a start that gave the process the command now owns. *)
Lemma runStartVMCommand_spec (h : Host) (cmd cmd' : Cmd) (t t' : Trace)
  (r : result unit) :
  runStartVMCommand h (cmd, t) = (r, (cmd', t')) ->
  exists evs,
    t' = t ++ evs /\
    evs <> [] /\
    Forall (launch_step (Args cmd)) evs /\
    (r = Ok tt ->
     exists pid c, In (EvStart c (Ok pid)) evs /\ Process_ cmd' = Some {| Pid := pid |}).
Proof.
  unfold runStartVMCommand, bind, attempt, Cmd_Start, on_snd, on_fst,
    config_Default, FindHelperBinary, call, modify, get, ret, fail.
  cbn [fst snd].
  assert (Hdone : forall evs,
    evs <> [] -> Forall (launch_step (Args cmd)) evs ->
    (r = Ok tt ->
     exists pid c, In (EvStart c (Ok pid)) evs /\ Process_ cmd' = Some {| Pid := pid |}) ->
    t' = t ++ evs ->
    exists evs0,
      t' = t ++ evs0 /\ evs0 <> [] /\ Forall (launch_step (Args cmd)) evs0 /\
      (r = Ok tt ->
       exists pid c,
         In (EvStart c (Ok pid)) evs0 /\ Process_ cmd' = Some {| Pid := pid |}))
    by (intros evs; eauto).
  destruct (exec_Start h t cmd) as [pid|e|] eqn:H1; cbn [fst snd].
  - intros H. injection H as Hr Hc Ht; subst r cmd' t'.
    apply (Hdone [EvStart cmd (Ok pid)]); try discriminate; try reflexivity.
    + repeat constructor.
    + intros _. exists pid, cmd. simpl. auto.
  - set (s1 := EvStart cmd (Err e)).
    destruct (host_config_Default h (t ++ [s1])) as [cfg|e1|]; cbn [fst snd].
    + set (look := EvFindHelperBinary (QemuCommand h) true).
      destruct (host_FindHelperBinary h ((t ++ [s1]) ++ [EvConfigDefault]) cfg
                  (QemuCommand h) true) as [path|e2|]; cbn [fst snd].
      * set (t3 := ((t ++ [s1]) ++ [EvConfigDefault]) ++ [look]).
        destruct (exec_Start h t3 (set_Path path cmd)) as [pid|e3|] eqn:H2;
          cbn [fst snd]; intros H; injection H as Hr Hc Ht; subst r cmd' t';
          match goal with |- context [EvStart (set_Path path cmd) ?res] =>
            apply (Hdone [s1; EvConfigDefault; look; EvStart (set_Path path cmd) res])
          end;
          try discriminate;
          try (repeat constructor);
          try (unfold t3; now rewrite <- !app_assoc).
        intros _. exists pid, (set_Path path cmd).
        split; [right; right; right; left; reflexivity | reflexivity].
      * intros H. injection H as Hr Hc Ht; subst r cmd' t'.
        apply (Hdone [s1; EvConfigDefault; look]); try discriminate;
          try (repeat constructor); now rewrite <- !app_assoc.
      * intros H. injection H as Hr Hc Ht; subst r cmd' t'.
        apply (Hdone [s1; EvConfigDefault; look]); try discriminate;
          try (repeat constructor); now rewrite <- !app_assoc.
    + intros H. injection H as Hr Hc Ht; subst r cmd' t'.
      apply (Hdone [s1; EvConfigDefault]); try discriminate;
        try (repeat constructor); now rewrite <- !app_assoc.
    + intros H. injection H as Hr Hc Ht; subst r cmd' t'.
      apply (Hdone [s1; EvConfigDefault]); try discriminate;
        try (repeat constructor); now rewrite <- !app_assoc.
  - intros H. injection H as Hr Hc Ht; subst r cmd' t'.
    apply (Hdone [EvStart cmd Panic]); try discriminate; try reflexivity.
    repeat constructor.
Qed.

Lemma count_zero_In (p : group -> bool) (l : QemuCmd) (g : group) :
  count p l = 0%nat -> In g l -> p g = false.
Proof.
  unfold count. induction l as [|x l IH]; simpl; [easy|].
  destruct (p x) eqn:Hx; simpl; [discriminate|].
  intros H0 [<-|Hin]; auto.
Qed.

(** A command line fresh from [setQEMUCommandLine] starts with the
    executable and holds no display group. *)
Lemma built_without_display (h : Host) (mc : MachineConfig) (q q1 : QEMUStubber) :
  setQEMUCommandLine h mc q = (Ok tt, q1) ->
  count is_display (Command q1) = 0%nat /\
  exists binary rest, Command q1 = Executable binary :: rest.
Proof.
  intros H.
  destruct (setQEMUCommandLine_shape h mc q q1 H)
    as (binary & ign & ready & hv & image & gv & pidfile & _ & _ & _ & ->).
  split; [|eexists; eexists; reflexivity].
  rewrite !count_app.
  rewrite (count_map_none USBConfig _ USBHostPassthrough) by reflexivity.
  rewrite (count_map_none Mount is_display (virtfs_of h)); [reflexivity|].
  intros m. unfold virtfs_of.
  now destruct (SplitVolume h 0 (OriginalInput m)) as [[[[? ?] ?] ?] ?].
Qed.

(** The display group [StartVM] adds when debug logging is off. *)
Lemma display_rule (debug : bool) (cl : QemuCmd) :
  count is_display cl = 0%nat ->
  count is_display (if negb debug then SetDisplay "none" cl else cl)
  = (if debug then 0 else 1)%nat /\
  (forall d, In (Display d) (if negb debug then SetDisplay "none" cl else cl) ->
             d = "none"%string).
Proof.
  intros H0. destruct debug; simpl.
  - split; [exact H0|]. intros d Hin.
    now pose proof (count_zero_In is_display cl (Display d) H0 Hin).
  - unfold SetDisplay. rewrite count_app, H0. split; [reflexivity|].
    intros d Hin. apply in_app_or in Hin as [Hin|[Heq|[]]].
    + now pose proof (count_zero_In is_display cl (Display d) H0 Hin).
    + now injection Heq as <-.
Qed.

(** The three phases of a run of [StartVM]: what comes before the launch,
    the launch, and what comes after. *)
Lemma StartVM_phases (h : Host) (mc : MachineConfig) (q q' : QEMUStubber)
  (t t' : Trace) (r : result Started) :
  StartVM h mc (q, t) = (r, (q', t')) ->
  exists pre launch post cmdLine,
    t' = t ++ pre ++ launch ++ post /\
    forallb is_idle pre = true /\
    Forall (launch_step cmdLine) launch /\
    forallb is_idle post = true /\
    (launch <> [] ->
     (exists gv pre',
        mc_GVProxySocket h mc = Ok gv /\
        pre = EvWaitForSocket gvProxyMaxBackoffAttempts gvProxyWaitBackoff
                (GetPath gv) "gvproxy" (Ok tt) :: pre') /\
     count is_display cmdLine = (if IsDebugLevelEnabled h then 0 else 1)%nat /\
     (forall d, In (Display d) cmdLine -> d = "none"%string)) /\
    (forall s, r = Ok s ->
     exists pid c ready,
       In (EvStart c (Ok pid)) launch /\
       mc_ReadySocket h mc = Ok ready /\
       readyFunc s = waitForReady h ready pid NewBuffer) /\
    (forall gv, mc_GVProxySocket h mc = Ok gv ->
     host_WaitForSocketWithBackoffs h t gvProxyMaxBackoffAttempts
       gvProxyWaitBackoff (GetPath gv) "gvproxy" <> Ok tt ->
     launch = [] /\ forall s, r <> Ok s).
Proof.
  assert (Hfail : forall evs,
    forallb is_idle evs = true ->
    (forall s, r <> Ok s) ->
    t' = t ++ evs ->
    exists pre launch post cmdLine,
      t' = t ++ pre ++ launch ++ post /\
      forallb is_idle pre = true /\
      Forall (launch_step cmdLine) launch /\
      forallb is_idle post = true /\
      (launch <> [] ->
       (exists gv pre',
          mc_GVProxySocket h mc = Ok gv /\
          pre = EvWaitForSocket gvProxyMaxBackoffAttempts gvProxyWaitBackoff
                  (GetPath gv) "gvproxy" (Ok tt) :: pre') /\
       count is_display cmdLine = (if IsDebugLevelEnabled h then 0 else 1)%nat /\
       (forall d, In (Display d) cmdLine -> d = "none"%string)) /\
      (forall s, r = Ok s ->
       exists pid c ready,
         In (EvStart c (Ok pid)) launch /\
         mc_ReadySocket h mc = Ok ready /\
         readyFunc s = waitForReady h ready pid NewBuffer) /\
      (forall gv, mc_GVProxySocket h mc = Ok gv ->
       host_WaitForSocketWithBackoffs h t gvProxyMaxBackoffAttempts
         gvProxyWaitBackoff (GetPath gv) "gvproxy" <> Ok tt ->
       launch = [] /\ forall s, r <> Ok s)).
  { intros evs Hidle Hr Ht. exists evs, [], [], [].
    rewrite app_nil_r.
    split; [exact Ht|]. split; [exact Hidle|]. split; [constructor|].
    split; [reflexivity|]. split; [intros H; now elim H|].
    split; [intros s Hs; now elim (Hr s)|].
    intros gv _ _. split; [reflexivity|exact Hr]. }
  unfold StartVM.
  unfold bind at 1. unfold attempt at 1, on_fst at 1. cbn [fst snd].
  destruct (setQEMUCommandLine h mc q) as [[[]|e|] q1] eqn:Hset.
  2:{ unfold fail. intros H. injection H as Hr Hq Ht. subst r q' t'.
      apply (Hfail []); try discriminate; auto. now rewrite app_nil_r. }
  2:{ intros H. injection H as Hr Hq Ht. subst r q' t'.
      apply (Hfail []); try discriminate; auto. now rewrite app_nil_r. }
  unfold bind at 1, ret at 1.
  unfold bind at 1, try at 1.
  destruct (mc_ReadySocket h mc) as [ready|e|] eqn:Hready.
  2,3: intros H; injection H as Hr Hq Ht; subst r q' t';
       apply (Hfail []); try discriminate; auto; now rewrite app_nil_r.
  unfold bind at 1, try at 1.
  destruct (mc_GVProxySocket h mc) as [gv|e|] eqn:Hgv.
  2,3: intros H; injection H as Hr Hq Ht; subst r q' t';
       apply (Hfail []); try discriminate; auto; now rewrite app_nil_r.
  unfold bind at 1, on_snd at 1, WaitForSocketWithBackoffs, call. cbn [fst snd].
  destruct (host_WaitForSocketWithBackoffs h t gvProxyMaxBackoffAttempts
              gvProxyWaitBackoff (GetPath gv) "gvproxy") as [[]|e|] eqn:Hwait.
  2:{ intros H. injection H as Hr Hq Ht. subst r q' t'.
      apply (Hfail [EvWaitForSocket gvProxyMaxBackoffAttempts gvProxyWaitBackoff
                      (GetPath gv) "gvproxy" (Err e)]); try discriminate; auto. }
  2:{ intros H. injection H as Hr Hq Ht. subst r q' t'.
      apply (Hfail [EvWaitForSocket gvProxyMaxBackoffAttempts gvProxyWaitBackoff
                      (GetPath gv) "gvproxy" Panic]); try discriminate; auto. }
  set (wait := EvWaitForSocket gvProxyMaxBackoffAttempts gvProxyWaitBackoff
                 (GetPath gv) "gvproxy" (Ok tt)).
  unfold bind at 1, on_snd at 1, GetDevNullFiles, call. cbn [fst snd].
  destruct (host_GetDevNullFiles h (t ++ [wait])) as [[dnr dnw]|e|].
  2,3: intros H; injection H as Hr Hq Ht; subst r q' t';
       apply (Hfail [wait; EvGetDevNullFiles]); try discriminate; auto;
       now rewrite <- app_assoc.
  destruct (built_without_display h mc q q1 Hset) as (Hnone & binary & rest & Hcmd).
  destruct (display_rule (IsDebugLevelEnabled h) (Command q1) Hnone) as [Hcount Hval].
  unfold defer.
  unfold bind at 1, on_fst at 1, get at 1. cbn [fst snd].
  set (cmdLine := if negb (IsDebugLevelEnabled h)
                  then SetDisplay "none" (Command q1) else Command q1) in *.
  assert (Hfirst : first_token cmdLine = Some binary).
  { unfold cmdLine. rewrite Hcmd. now destruct (IsDebugLevelEnabled h). }
  unfold bind at 1, on_snd at 1, emit at 1, modify at 1. cbn [fst snd].
  unfold bind at 1. rewrite Hfirst. unfold deref at 1, ret at 1.
  set (t3 := (t ++ [wait; EvGetDevNullFiles]) ++ [EvDebugCmd cmdLine]).
  unfold bind at 1, with_local at 1. cbn [fst snd].
  set (cmd := {| Args := cmdLine; Path := binary; Stdin := dnr; Stdout := dnw;
                 Stderr := NewBuffer; Process_ := None |}).
match goal with |- context [runStartVMCommand h ?s] =>
    destruct (runStartVMCommand h s) as [r2 [cmd' t4]] eqn:Hrun
  end.
  destruct (runStartVMCommand_spec h cmd cmd' _ t4 r2 Hrun)
    as (evs & Ht4 & Hne & Hsteps & Hok).
  subst t4.
  assert (Hfin : forall post,
    forallb is_idle post = true ->
    t' = ((((t ++ [wait]) ++ [EvGetDevNullFiles]) ++ [EvDebugCmd cmdLine]) ++ evs)
           ++ post ->
    (forall s, r = Ok s ->
     exists pid c ready0,
       In (EvStart c (Ok pid)) evs /\
       Ok ready = Ok ready0 /\
       readyFunc s = waitForReady h ready0 pid NewBuffer) ->
    exists pre launch post0 cmdLine0,
      t' = t ++ pre ++ launch ++ post0 /\
      forallb is_idle pre = true /\
      Forall (launch_step cmdLine0) launch /\
      forallb is_idle post0 = true /\
      (launch <> [] ->
       (exists gv0 pre',
          Ok gv = Ok gv0 /\
          pre = EvWaitForSocket gvProxyMaxBackoffAttempts gvProxyWaitBackoff
                  (GetPath gv0) "gvproxy" (Ok tt) :: pre') /\
       count is_display cmdLine0 = (if IsDebugLevelEnabled h then 0 else 1)%nat /\
       (forall d, In (Display d) cmdLine0 -> d = "none"%string)) /\
      (forall s, r = Ok s ->
       exists pid c ready0,
         In (EvStart c (Ok pid)) launch /\
         Ok ready = Ok ready0 /\
         readyFunc s = waitForReady h ready0 pid NewBuffer) /\
      (forall gv0, Ok gv = Ok gv0 ->
       host_WaitForSocketWithBackoffs h t gvProxyMaxBackoffAttempts
         gvProxyWaitBackoff (GetPath gv0) "gvproxy" <> Ok tt ->
       launch = [] /\ forall s, r <> Ok s)).
  { intros post Hpost Ht Hs.
    exists [wait; EvGetDevNullFiles; EvDebugCmd cmdLine], evs, post, cmdLine.
    split; [rewrite Ht; now rewrite <- !app_assoc|].
    split; [reflexivity|]. split; [exact Hsteps|]. split; [exact Hpost|].
    split.
    { intros _. split; [|split; [exact Hcount|exact Hval]].
      exists gv, [EvGetDevNullFiles; EvDebugCmd cmdLine]. now split. }
    split; [exact Hs|].
    intros gv0 Heq Hno. injection Heq as <-. now elim Hno. }
  destruct r2 as [[]|e|]; cbn [fst snd].
  - destruct (Hok eq_refl) as (pid & c & Hin & Hproc).
    unfold bind, deref, on_snd, emit, modify, ret. cbn [fst snd].
    rewrite Hproc. cbn [fst snd Pid].
    intros H. injection H as Hr Hq Ht. subst r q' t'.
    apply (Hfin [EvDebugPid pid; EvCloseFile dnw; EvCloseFile dnr]).
    + reflexivity.
    + now rewrite <- !app_assoc.
    + intros s Hs. injection Hs as <-. exists pid, c, ready. now repeat split.
  - intros H. injection H as Hr Hq Ht. subst r q' t'.
    apply (Hfin [EvCloseFile dnw; EvCloseFile dnr]); try reflexivity.
    intros s Hs. discriminate.
  - intros H. injection H as Hr Hq Ht. subst r q' t'.
    apply (Hfin [EvCloseFile dnw; EvCloseFile dnr]); try reflexivity.
    intros s Hs. discriminate.
Qed.

Lemma idle_not_start (l : list event) (cmd : Cmd) (res : result Z) :
  forallb is_idle l = true -> In (EvStart cmd res) l -> False.
Proof.
  intros Hidle Hin. rewrite forallb_forall in Hidle.
  specialize (Hidle _ Hin). discriminate.
Qed.

Lemma idle_no_dial (l : list event) :
  forallb is_idle l = true -> forallb (fun e => negb (is_dial e)) l = true.
Proof.
  rewrite !forallb_forall. intros H e Hin. specialize (H e Hin).
  unfold is_idle in H. now apply andb_true_iff in H as [_ H].
Qed.

Lemma idle_no_start (l : list event) :
  forallb is_idle l = true -> forallb (fun e => negb (is_start e)) l = true.
Proof.
  rewrite !forallb_forall. intros H e Hin. specialize (H e Hin).
  unfold is_idle in H. now apply andb_true_iff in H as [H _].
Qed.

Lemma launch_no_dial (cmdLine : QemuCmd) (l : list event) :
  Forall (launch_step cmdLine) l -> forallb (fun e => negb (is_dial e)) l = true.
Proof.
  induction 1 as [|e l He _ IH]; simpl; [reflexivity|].
  rewrite IH, andb_true_r. now destruct e.
Qed.

(** A start among the events of a run lies in its launch phase. *)
Lemma start_in_launch (pre launch post : list event) (cmd : Cmd) (res : result Z) :
  forallb is_idle pre = true -> forallb is_idle post = true ->
  In (EvStart cmd res) (pre ++ launch ++ post) -> In (EvStart cmd res) launch.
Proof.
  intros Hpre Hpost Hin.
  apply in_app_or in Hin as [Hin|Hin]; [now elim (idle_not_start pre cmd res)|].
  apply in_app_or in Hin as [Hin|Hin]; [exact Hin|].
  now elim (idle_not_start post cmd res).
Qed.

(** C5. In every run of [StartVM], whatever is started is started after
    the wait for the proxy socket (6 attempts, 500ms apart) has come back
    without error, and the readiness socket is not dialed.  When the run
    succeeds, a process has been started and the readiness wait handed
    back is the one bound to its pid, so it can only begin once the
    launch is over.  When the wait for the proxy socket fails, the run
    fails and nothing is started. *)
Theorem StartVM_ordering (h : Host) (mc : MachineConfig) (q q' : QEMUStubber)
  (t t' : Trace) (r : result Started) :
  StartVM h mc (q, t) = (r, (q', t')) ->
  exists evs,
    t' = t ++ evs /\
    (forall before cmd res after,
       evs = before ++ EvStart cmd res :: after ->
       exists gv rest,
         mc_GVProxySocket h mc = Ok gv /\
         before = EvWaitForSocket 6 (500 * Millisecond) (GetPath gv) "gvproxy"
                    (Ok tt) :: rest) /\
    forallb (fun e => negb (is_dial e)) evs = true /\
    (forall s, r = Ok s ->
     exists pid cmd ready,
       In (EvStart cmd (Ok pid)) evs /\
       mc_ReadySocket h mc = Ok ready /\
       readyFunc s = waitForReady h ready pid NewBuffer) /\
    (forall gv, mc_GVProxySocket h mc = Ok gv ->
     host_WaitForSocketWithBackoffs h t 6 (500 * Millisecond) (GetPath gv)
       "gvproxy" <> Ok tt ->
     (forall s, r <> Ok s) /\
     forallb (fun e => negb (is_start e)) evs = true).
Proof.
  intros Hrun.
  destruct (StartVM_phases h mc q q' t t' r Hrun)
    as (pre & launch & post & cmdLine & Ht & Hpre & Hlaunch & Hpost & Hfirst
        & Hok & Hproxy).
  exists (pre ++ launch ++ post).
  split; [exact Ht|]. split; [|split; [|split]].
  - intros before cmd res after Heq.
    assert (Hin : In (EvStart cmd res) launch).
    { apply (start_in_launch pre launch post cmd res Hpre Hpost).
      rewrite Heq. apply in_or_app. right. now left. }
    assert (Hne : launch <> []) by (intros ->; elim Hin).
    destruct (Hfirst Hne) as ((gv & pre' & Hgv & ->) & _).
    exists gv. destruct before as [|b rest].
    + discriminate Heq.
    + injection Heq as <- _. exists rest. split; [exact Hgv|reflexivity].
  - rewrite !forallb_app.
    rewrite (idle_no_dial pre Hpre), (idle_no_dial post Hpost),
      (launch_no_dial cmdLine launch Hlaunch). reflexivity.
  - intros s Hs. destruct (Hok s Hs) as (pid & c & ready & Hin & Hready & Hfun).
    exists pid, c, ready. split; [|split; assumption].
    apply in_or_app. right. apply in_or_app. now left.
  - intros gv Hgv Hno. destruct (Hproxy gv Hgv Hno) as [-> Hr].
    split; [exact Hr|]. simpl. rewrite forallb_app.
    now rewrite (idle_no_start pre Hpre), (idle_no_start post Hpost).
Qed.

Lemma StartVM_ordering_witness :
  exists evs,
    snd (snd started_ok) = [] ++ evs /\
    (forall before cmd res after,
       evs = before ++ EvStart cmd res :: after ->
       exists gv rest,
         mc_GVProxySocket host_ok machine_ok = Ok gv /\
         before = EvWaitForSocket 6 (500 * Millisecond) (GetPath gv) "gvproxy"
                    (Ok tt) :: rest) /\
    forallb (fun e => negb (is_dial e)) evs = true /\
    (forall s, fst started_ok = Ok s ->
     exists pid cmd ready,
       In (EvStart cmd (Ok pid)) evs /\
       mc_ReadySocket host_ok machine_ok = Ok ready /\
       readyFunc s = waitForReady host_ok ready pid NewBuffer) /\
    (forall gv, mc_GVProxySocket host_ok machine_ok = Ok gv ->
     host_WaitForSocketWithBackoffs host_ok [] 6 (500 * Millisecond) (GetPath gv)
       "gvproxy" <> Ok tt ->
     (forall s, fst started_ok <> Ok s) /\
     forallb (fun e => negb (is_start e)) evs = true).
Proof.
  apply (StartVM_ordering host_ok machine_ok stubber0 (fst (snd started_ok)) []
           (snd (snd started_ok)) (fst started_ok)).
  vm_compute. reflexivity.
Defined.

(** C6. Every command [StartVM] starts carries the display group exactly
    when debug logging is off, and the only display value it can carry is
    "none", which disables the graphic window; a run that succeeds has
    started such a command. *)
Theorem StartVM_display_rule (h : Host) (mc : MachineConfig) (q q' : QEMUStubber)
  (t t' : Trace) (r : result Started) :
  StartVM h mc (q, t) = (r, (q', t')) ->
  exists evs,
    t' = t ++ evs /\
    (forall cmd res, In (EvStart cmd res) evs ->
       count is_display (Args cmd)
       = (if IsDebugLevelEnabled h then 0 else 1)%nat /\
       (forall d, In (Display d) (Args cmd) -> d = "none"%string)) /\
    (forall s, r = Ok s -> exists cmd pid, In (EvStart cmd (Ok pid)) evs).
Proof.
  intros Hrun.
  destruct (StartVM_phases h mc q q' t t' r Hrun)
    as (pre & launch & post & cmdLine & Ht & Hpre & Hlaunch & Hpost & Hfirst
        & Hok & _).
  exists (pre ++ launch ++ post).
  split; [exact Ht|]. split.
  - intros cmd res Hin.
    apply (start_in_launch pre launch post cmd res Hpre Hpost) in Hin.
    assert (Hne : launch <> []) by (intros ->; elim Hin).
    destruct (Hfirst Hne) as (_ & Hcount & Hval).
    rewrite Forall_forall in Hlaunch. specialize (Hlaunch _ Hin).
    simpl in Hlaunch. rewrite Hlaunch. now split.
  - intros s Hs. destruct (Hok s Hs) as (pid & c & ready & Hin & _).
    exists c, pid. apply in_or_app. right. apply in_or_app. now left.
Qed.

Lemma StartVM_display_rule_witness :
  exists evs,
    snd (snd started_ok) = [] ++ evs /\
    (forall cmd res, In (EvStart cmd res) evs ->
       count is_display (Args cmd)
       = (if IsDebugLevelEnabled host_ok then 0 else 1)%nat /\
       (forall d, In (Display d) (Args cmd) -> d = "none"%string)) /\
    (forall s, fst started_ok = Ok s ->
       exists cmd pid, In (EvStart cmd (Ok pid)) evs).
Proof.
  apply (StartVM_display_rule host_ok machine_ok stubber0 (fst (snd started_ok)) []
           (snd (snd started_ok)) (fst started_ok)).
  vm_compute. reflexivity.
Defined.

(** *** Runs on the concrete hosts *)

(** With a proxy socket that never comes up, the start fails with the
    error of the wait and the trace holds that wait alone. *)
Example StartVM_without_proxy :
  fst (StartVM host_no_proxy machine_ok (stubber0, []))
  = Err (External "gvproxy: timeout") /\
  snd (snd (StartVM host_no_proxy machine_ok (stubber0, [])))
  = [EvWaitForSocket 6 500000000 "/run/podman/box-gvproxy.sock" "gvproxy"
       (Err (External "gvproxy: timeout"))].
Proof.
  split; reflexivity.
Qed.

(** A peer that closes the readiness socket before sending a newline
    makes the wait fail with the error of the read. *)
Example waitForReady_silent_peer :
  waitForReady (host (Ok 4242) (Ok tt) Stopped false peer_silent)
    (file "/run/podman/box_ready.sock") 4242 NewBuffer []
  = (Err (External "EOF"),
     [EvDialSocket 6 500000000 "/run/podman/box_ready.sock" checkProcessStatus
        "qemu" 4242 NewBuffer;
      EvReadString peer_silent "010"%char;
      EvCloseConn peer_silent]).
Proof.
  reflexivity.
Qed.

(** A second failure of the start is wrapped with the command that was
    tried. *)
Example runStartVMCommand_second_failure :
  let h := {| exec_Start := fun _ _ => Err (NotExist "qemu-system-x86_64");
              exec_Run := exec_Run host_ok;
              host_GetDevNullFiles := host_GetDevNullFiles host_ok;
              host_config_Default := host_config_Default host_ok;
              host_FindHelperBinary := host_FindHelperBinary host_ok;
              IsDebugLevelEnabled := false;
              host_WaitForSocketWithBackoffs := host_WaitForSocketWithBackoffs host_ok;
              host_DialSocketWithBackoffsAndProcCheck :=
                host_DialSocketWithBackoffsAndProcCheck host_ok;
              host_CommonSSH := host_CommonSSH host_ok;
              QemuCommand := QemuCommand host_ok;
              MountType9p := MountType9p host_ok;
              findQEMUBinary := findQEMUBinary host_ok;
              addArchOptions := addArchOptions host_ok;
              host_State := host_State host_ok;
              mc_IgnitionFile := mc_IgnitionFile host_ok;
              mc_ReadySocket := mc_ReadySocket host_ok;
              mc_GVProxySocket := mc_GVProxySocket host_ok;
              mc_SetRootful := mc_SetRootful host_ok;
              SplitVolume := SplitVolume host_ok;
              ParseUSBs := ParseUSBs host_ok;
              SetNetwork_error := SetNetwork_error host_ok |} in
  fst (runStartVMCommand h (cmd0, []))
  = Err (UnableToExecute (set_Path "/usr/libexec/qemu-system-x86_64" cmd0)
           (NotExist "qemu-system-x86_64")).
Proof.
  reflexivity.
Qed.

End QemuProps.

(** ** Further properties of the stubber *)

Module LaunchProps.
Import Define Command Vmconfigs Go Qemu Fixtures QemuRest.
Local Open Scope Z_scope.
Local Open Scope go_scope.

(** X1. A first start that works ends the launch: the binary is not looked
    up, the path of the command is the one it came with, and the command
    owns the process that was started. *)
Theorem runStartVMCommand_first_start_ok (h : Host) (cmd : Cmd) (t : Trace)
  (pid : Z) :
  exec_Start h t cmd = Ok pid ->
  runStartVMCommand h (cmd, t)
  = (Ok tt, (set_Process {| Pid := pid |} cmd, t ++ [EvStart cmd (Ok pid)])).
Proof.
  intros H1.
  unfold runStartVMCommand, bind, attempt, Cmd_Start. cbn [fst snd].
  rewrite H1. reflexivity.
Qed.

Lemma runStartVMCommand_first_start_ok_witness :
  runStartVMCommand host_ok (cmd0, [])
  = (Ok tt, (set_Process {| Pid := 4242 |} cmd0, [] ++ [EvStart cmd0 (Ok 4242)])).
Proof.
  apply (runStartVMCommand_first_start_ok host_ok cmd0 [] 4242).
  reflexivity.
Defined.

(** X2. After a first start that failed and a look-up that answered, the
    command is started once more, with the same arguments and its path
    replaced by the binary that was found.  If that start works the
    launch succeeds; if it fails, its error comes back wrapped together
    with the command as it was retried. *)
Theorem runStartVMCommand_retry (h : Host) (cmd : Cmd) (t : Trace) (e : error)
  (cfg : Config) (path : string) :
  let t1 := t ++ [EvStart cmd (Err e)] in
  let t2 := t1 ++ [EvConfigDefault] in
  let t3 := t2 ++ [EvFindHelperBinary (QemuCommand h) true] in
  let retried := set_Path path cmd in
  exec_Start h t cmd = Err e ->
  host_config_Default h t1 = Ok cfg ->
  host_FindHelperBinary h t2 cfg (QemuCommand h) true = Ok path ->
  Args retried = Args cmd /\
  Path retried = path /\
  snd (snd (runStartVMCommand h (cmd, t)))
  = t3 ++ [EvStart retried (exec_Start h t3 retried)] /\
  fst (runStartVMCommand h (cmd, t))
  = match exec_Start h t3 retried with
    | Ok _ => Ok tt
    | Err e2 => Err (UnableToExecute retried e2)
    | Panic => Panic
    end.
Proof.
  cbv zeta. intros H1 H2 H3.
  unfold runStartVMCommand, bind, attempt, Cmd_Start, on_snd, on_fst,
    config_Default, FindHelperBinary, call, modify, get, ret, fail.
  cbn [fst snd]. rewrite H1. cbn [fst snd]. rewrite H2. cbn [fst snd].
  rewrite H3. cbn [fst snd].
  destruct (exec_Start h
              (((t ++ [EvStart cmd (Err e)]) ++ [EvConfigDefault])
                 ++ [EvFindHelperBinary (QemuCommand h) true])
              (set_Path path cmd)) as [pid|e2|]; repeat split.
Qed.

Lemma runStartVMCommand_retry_witness :
  fst (runStartVMCommand host_eacces (cmd0, [])) = Ok tt /\
  snd (snd (runStartVMCommand host_eacces (cmd0, [])))
  = [EvStart cmd0 (Err (External "permission denied")); EvConfigDefault;
     EvFindHelperBinary "qemu-system-x86_64" true;
     EvStart (set_Path "/usr/libexec/qemu-system-x86_64" cmd0) (Ok 4242)].
Proof.
  destruct (runStartVMCommand_retry host_eacces cmd0 []
              (External "permission denied") DefaultConfig
              "/usr/libexec/qemu-system-x86_64" eq_refl eq_refl eq_refl)
    as (_ & _ & Htrace & Hres).
  split; [exact Hres | exact Htrace].
Defined.

(** X3. No launch starts the command more than twice, and when the
    look-up of the binary fails after a first failed start, that error
    comes back as it is and the command is not started again. *)
Theorem runStartVMCommand_bounded (h : Host) (cmd cmd' : Cmd) (t t' : Trace)
  (r : result unit) :
  runStartVMCommand h (cmd, t) = (r, (cmd', t')) ->
  exists evs,
    t' = t ++ evs /\
    (1 <= List.length (filter is_start evs) <= 2)%nat /\
    (forall e cfg e',
       exec_Start h t cmd = Err e ->
       (host_config_Default h (t ++ [EvStart cmd (Err e)]) = Err e' \/
        (host_config_Default h (t ++ [EvStart cmd (Err e)]) = Ok cfg /\
         host_FindHelperBinary h ((t ++ [EvStart cmd (Err e)]) ++ [EvConfigDefault])
           cfg (QemuCommand h) true = Err e')) ->
       r = Err e' /\ List.length (filter is_start evs) = 1%nat /\ cmd' = cmd).
Proof.
  unfold runStartVMCommand, bind, attempt, Cmd_Start, on_snd, on_fst,
    config_Default, FindHelperBinary, call, modify, get, ret, fail.
  cbn [fst snd].
  destruct (exec_Start h t cmd) as [pid|e|] eqn:H1; cbn [fst snd].
  - intros H. injection H as Hr Hc Ht. subst r cmd' t'.
    exists [EvStart cmd (Ok pid)]. split; [reflexivity|]. split; [simpl; lia|].
    intros e cfg e' He. discriminate He.
  - set (s1 := EvStart cmd (Err e)).
    destruct (host_config_Default h (t ++ [s1])) as [cfg|e1|] eqn:H2;
      cbn [fst snd].
    + set (look := EvFindHelperBinary (QemuCommand h) true).
      destruct (host_FindHelperBinary h ((t ++ [s1]) ++ [EvConfigDefault]) cfg
                  (QemuCommand h) true) as [path|e2|] eqn:H3; cbn [fst snd].
      * match goal with |- context [exec_Start h ?t3 (set_Path path cmd)] =>
          destruct (exec_Start h t3 (set_Path path cmd)) as [pid|e3|]
        end; cbn [fst snd]; intros H; injection H as Hr Hc Ht; subst r cmd' t';
        match goal with |- context [EvStart (set_Path path cmd) ?res] =>
          exists [s1; EvConfigDefault; look; EvStart (set_Path path cmd) res]
        end;
        (split; [now rewrite <- !app_assoc|]); (split; [simpl; lia|]);
        intros e0 cfg0 e' He [Hcfg|[Hcfg Hlook]]; injection He as <-;
        fold s1 in Hcfg; try fold s1 in Hlook; try congruence;
        rewrite H2 in Hcfg; injection Hcfg as <-; congruence.
      * intros H. injection H as Hr Hc Ht. subst r cmd' t'.
        exists [s1; EvConfigDefault; look].
        split; [now rewrite <- !app_assoc|]. split; [simpl; lia|].
        intros e0 cfg0 e' He [Hcfg|[Hcfg Hlook]]; injection He as <-;
          fold s1 in Hcfg; try fold s1 in Hlook; try congruence.
        rewrite H2 in Hcfg. injection Hcfg as <-.
        rewrite H3 in Hlook. injection Hlook as <-. now repeat split.
      * intros H. injection H as Hr Hc Ht. subst r cmd' t'.
        exists [s1; EvConfigDefault; look].
        split; [now rewrite <- !app_assoc|]. split; [simpl; lia|].
        intros e0 cfg0 e' He [Hcfg|[Hcfg Hlook]]; injection He as <-;
          fold s1 in Hcfg; try fold s1 in Hlook; congruence.
    + intros H. injection H as Hr Hc Ht. subst r cmd' t'.
      exists [s1; EvConfigDefault].
      split; [now rewrite <- !app_assoc|]. split; [simpl; lia|].
      intros e0 cfg0 e' He [Hcfg|[Hcfg Hlook]]; injection He as <-;
        fold s1 in Hcfg; try congruence.
      rewrite H2 in Hcfg. injection Hcfg as <-. now repeat split.
    + intros H. injection H as Hr Hc Ht. subst r cmd' t'.
      exists [s1; EvConfigDefault].
      split; [now rewrite <- !app_assoc|]. split; [simpl; lia|].
      intros e0 cfg0 e' He [Hcfg|[Hcfg Hlook]]; injection He as <-;
        fold s1 in Hcfg; congruence.
  - intros H. injection H as Hr Hc Ht. subst r cmd' t'.
    exists [EvStart cmd Panic]. split; [reflexivity|]. split; [simpl; lia|].
    intros e cfg e' He. discriminate He.
Qed.

Lemma runStartVMCommand_bounded_witness :
  exists evs,
    snd (snd (runStartVMCommand MoreFixtures.host_no_binary (cmd0, []))) = [] ++ evs /\
    (1 <= List.length (filter is_start evs) <= 2)%nat.
Proof.
  destruct (runStartVMCommand_bounded MoreFixtures.host_no_binary cmd0
              (fst (snd (runStartVMCommand MoreFixtures.host_no_binary (cmd0, []))))
              []
              (snd (snd (runStartVMCommand MoreFixtures.host_no_binary (cmd0, []))))
              (fst (runStartVMCommand MoreFixtures.host_no_binary (cmd0, [])))
              eq_refl) as (evs & Ht & Hn & _).
  exists evs. split; [exact Ht | exact Hn].
Defined.

(** *** The command line *)

(** What must hold for [setQEMUCommandLine] to succeed, and what it
    leaves in the stubber then. *)
Lemma setQEMUCommandLine_inv (h : Host) (mc : MachineConfig) (q q' : QEMUStubber) :
  setQEMUCommandLine h mc q = (Ok tt, q') ->
  exists binary ign ready gv hv image pidfile,
    findQEMUBinary h = Ok binary /\
    mc_IgnitionFile h mc = Ok ign /\
    mc_ReadySocket h mc = Ok ready /\
    mc_GVProxySocket h mc = Ok gv /\
    SetNetwork_error h gv = Ok tt /\
    QEMUHypervisor mc = Some hv /\
    QEMUPidPath hv = Some pidfile /\
    ImagePath mc = Some image /\
    q' = {| stub_QMPMonitor := stub_QMPMonitor q;
            stub_QEMUPidPath := Some pidfile;
            Command :=
              [Executable binary; Options (addArchOptions h []);
               BootableImage (GetPath image);
               Command.Memory (Memory (Resources mc));
               Command.CPUs (Vmconfigs.CPUs (Resources mc)); IgnitionFile ign;
               QmpMonitor (QMPMonitor hv); NetworkDevice gv;
               SerialPort ready pidfile (Name mc)]
              ++ map (virtfs_of h) (Mounts mc)
              ++ map USBHostPassthrough (Vmconfigs.USBs (Resources mc)) |}.
Proof.
  unfold setQEMUCommandLine, bind, try, deref, SetNetwork, modify, ret, panic.
  destruct (findQEMUBinary h) as [binary|e|]; try discriminate.
  destruct (mc_IgnitionFile h mc) as [ign|e|]; try discriminate.
  destruct (mc_ReadySocket h mc) as [ready|e|]; try discriminate.
  destruct (QEMUHypervisor mc) as [hv|]; try discriminate.
  destruct (ImagePath mc) as [image|]; try discriminate.
  destruct (mc_GVProxySocket h mc) as [gv|e|]; try discriminate.
  unfold bind, try.
  destruct (SetNetwork_error h gv) as [[]|e|] eqn:Hn; try discriminate.
  destruct (QEMUPidPath hv) as [pidfile|] eqn:Hpid; try discriminate.
  rewrite QemuProps.add_volumes. simpl.
  intros H. injection H as <-.
  exists binary, ign, ready, gv, hv, image, pidfile.
  repeat (split; [first [reflexivity | assumption]|]).
  unfold on_Command, set_Command, set_QEMUPidPath, SetUSBHostPassthrough. simpl.
  try rewrite <- !app_assoc; reflexivity.
Qed.

(** The run of [setQEMUCommandLine] when everything it asks for resolves. *)
Lemma setQEMUCommandLine_run (h : Host) (mc : MachineConfig) (q : QEMUStubber)
  (binary : string) (ign ready gv image pidfile : VMFile) (hv : QEMUConfig) :
  findQEMUBinary h = Ok binary ->
  mc_IgnitionFile h mc = Ok ign ->
  mc_ReadySocket h mc = Ok ready ->
  mc_GVProxySocket h mc = Ok gv ->
  SetNetwork_error h gv = Ok tt ->
  QEMUHypervisor mc = Some hv ->
  QEMUPidPath hv = Some pidfile ->
  ImagePath mc = Some image ->
  setQEMUCommandLine h mc q
  = (Ok tt,
     {| stub_QMPMonitor := stub_QMPMonitor q;
        stub_QEMUPidPath := Some pidfile;
        Command :=
          [Executable binary; Options (addArchOptions h []);
           BootableImage (GetPath image); Command.Memory (Memory (Resources mc));
           Command.CPUs (Vmconfigs.CPUs (Resources mc)); IgnitionFile ign;
           QmpMonitor (QMPMonitor hv); NetworkDevice gv;
           SerialPort ready pidfile (Name mc)]
          ++ map (virtfs_of h) (Mounts mc)
          ++ map USBHostPassthrough (Vmconfigs.USBs (Resources mc)) |}).
Proof.
  intros Hb Hi Hr Hg Hn Hh Hp Him.
  unfold setQEMUCommandLine, bind, try, deref, SetNetwork, modify, ret.
  rewrite Hb, Hi, Hr, Hh, Him, Hg. unfold bind, try. rewrite Hn, Hp.
  rewrite QemuProps.add_volumes. simpl.
  unfold SetUSBHostPassthrough. try rewrite <- !app_assoc. reflexivity.
Qed.

(** X4. When the binary, the first-boot file and the sockets resolve and
    the machine has its image and its hypervisor record with a PID file,
    [setQEMUCommandLine] succeeds.  The command line is then, in this
    order: executable, architecture options, image, memory, CPUs,
    first-boot file, monitor, network device, serial port, one
    shared-directory group per mount in the order of the mounts, one
    passthrough group per USB device; and the stubber takes over the PID
    file of the machine. *)
Theorem setQEMUCommandLine_builds (h : Host) (mc : MachineConfig) (q : QEMUStubber)
  (binary : string) (ign ready gv image pidfile : VMFile) (hv : QEMUConfig) :
  findQEMUBinary h = Ok binary ->
  mc_IgnitionFile h mc = Ok ign ->
  mc_ReadySocket h mc = Ok ready ->
  mc_GVProxySocket h mc = Ok gv ->
  SetNetwork_error h gv = Ok tt ->
  QEMUHypervisor mc = Some hv ->
  QEMUPidPath hv = Some pidfile ->
  ImagePath mc = Some image ->
  setQEMUCommandLine h mc q
  = (Ok tt,
     {| stub_QMPMonitor := stub_QMPMonitor q;
        stub_QEMUPidPath := Some pidfile;
        Command :=
          [Executable binary; Options (addArchOptions h []);
           BootableImage (GetPath image); Command.Memory (Memory (Resources mc));
           Command.CPUs (Vmconfigs.CPUs (Resources mc)); IgnitionFile ign;
           QmpMonitor (QMPMonitor hv); NetworkDevice gv;
           SerialPort ready pidfile (Name mc)]
          ++ map (virtfs_of h) (Mounts mc)
          ++ map USBHostPassthrough (Vmconfigs.USBs (Resources mc)) |}).
Proof.
  intros Hb Hi Hr Hg Hn Hh Hp Him.
  unfold setQEMUCommandLine, bind, try, deref, SetNetwork, modify, ret.
  rewrite Hb, Hi, Hr, Hh, Him, Hg. unfold bind, try. rewrite Hn, Hp.
  rewrite QemuProps.add_volumes. simpl.
  unfold SetUSBHostPassthrough. try rewrite <- !app_assoc. reflexivity.
Qed.

Lemma setQEMUCommandLine_builds_witness :
  Command (snd (setQEMUCommandLine host_ok machine_ok stubber0))
  = [Executable "/usr/bin/qemu-system-x86_64"; Options (addArchOptions host_ok []);
     BootableImage "/var/lib/box.qcow2"; Command.Memory 2048; Command.CPUs 2;
     IgnitionFile (file "/var/lib/box.ign"); QmpMonitor monitor0;
     NetworkDevice (file "/run/podman/box-gvproxy.sock");
     SerialPort (file "/run/podman/box_ready.sock") (file "/run/podman/box_vm.pid")
       "box"]
    ++ map (virtfs_of host_ok) [mount_home; mount_data]
    ++ map USBHostPassthrough [].
Proof.
  rewrite (setQEMUCommandLine_builds host_ok machine_ok stubber0
             "/usr/bin/qemu-system-x86_64" (file "/var/lib/box.ign")
             (file "/run/podman/box_ready.sock")
             (file "/run/podman/box-gvproxy.sock") (file "/var/lib/box.qcow2")
             (file "/run/podman/box_vm.pid")
             {| QMPMonitor := monitor0;
                QEMUPidPath := Some (file "/run/podman/box_vm.pid") |}
             eq_refl eq_refl eq_refl eq_refl eq_refl eq_refl eq_refl eq_refl).
  reflexivity.
Defined.

(** X5. The command line is built afresh: when [setQEMUCommandLine]
    succeeds from one stubber it succeeds from any other, with the same
    command line and the same PID file, whatever command line the stubber
    held before. *)
Theorem setQEMUCommandLine_fresh (h : Host) (mc : MachineConfig)
  (qa qa' qb : QEMUStubber) :
  setQEMUCommandLine h mc qa = (Ok tt, qa') ->
  fst (setQEMUCommandLine h mc qb) = Ok tt /\
  Command (snd (setQEMUCommandLine h mc qb)) = Command qa' /\
  stub_QEMUPidPath (snd (setQEMUCommandLine h mc qb)) = stub_QEMUPidPath qa'.
Proof.
  intros H.
  destruct (setQEMUCommandLine_inv h mc qa qa' H)
    as (binary & ign & ready & gv & hv & image & pidfile
        & Hb & Hi & Hr & Hg & Hn & Hh & Hp & Him & ->).
  rewrite (setQEMUCommandLine_run h mc qb binary ign ready gv image pidfile hv
             Hb Hi Hr Hg Hn Hh Hp Him).
  repeat split.
Qed.

Lemma setQEMUCommandLine_fresh_witness :
  fst (setQEMUCommandLine host_ok machine_ok
         (snd (setQEMUCommandLine host_ok machine_ok stubber0))) = Ok tt /\
  Command (snd (setQEMUCommandLine host_ok machine_ok
                  (snd (setQEMUCommandLine host_ok machine_ok stubber0))))
  = Command (snd (setQEMUCommandLine host_ok machine_ok stubber0)) /\
  stub_QEMUPidPath (snd (setQEMUCommandLine host_ok machine_ok
                  (snd (setQEMUCommandLine host_ok machine_ok stubber0))))
  = stub_QEMUPidPath (snd (setQEMUCommandLine host_ok machine_ok stubber0)).
Proof.
  apply (setQEMUCommandLine_fresh host_ok machine_ok stubber0).
  vm_compute. reflexivity.
Defined.

(** X6. On a machine without its hypervisor record (one [CreateVM] has
    not been run on) [setQEMUCommandLine] never succeeds and leaves the
    stubber as it was; once binary, first-boot file and readiness socket
    have resolved, it ends in a nil dereference, not in an error. *)
Theorem setQEMUCommandLine_without_hypervisor (h : Host) (mc : MachineConfig)
  (q : QEMUStubber) :
  QEMUHypervisor mc = None ->
  snd (setQEMUCommandLine h mc q) = q /\
  fst (setQEMUCommandLine h mc q) <> Ok tt /\
  (forall binary ign ready,
     findQEMUBinary h = Ok binary -> mc_IgnitionFile h mc = Ok ign ->
     mc_ReadySocket h mc = Ok ready ->
     fst (setQEMUCommandLine h mc q) = Panic).
Proof.
  intros Hnone.
  unfold setQEMUCommandLine, bind, try, deref, panic.
  destruct (findQEMUBinary h) as [binary|e|];
    [|repeat split; try discriminate; intros; discriminate ..].
  destruct (mc_IgnitionFile h mc) as [ign|e|];
    [|repeat split; try discriminate; intros; discriminate ..].
  destruct (mc_ReadySocket h mc) as [ready|e|];
    [|repeat split; try discriminate; intros; discriminate ..].
  rewrite Hnone. repeat split; discriminate.
Qed.

Lemma setQEMUCommandLine_without_hypervisor_witness :
  snd (setQEMUCommandLine host_ok MoreFixtures.machine_bare stubber0) = stubber0 /\
  fst (setQEMUCommandLine host_ok MoreFixtures.machine_bare stubber0) = Panic.
Proof.
  destruct (setQEMUCommandLine_without_hypervisor host_ok
              MoreFixtures.machine_bare stubber0 eq_refl) as (Hq & _ & Hp).
  split; [exact Hq|].
  apply (Hp "/usr/bin/qemu-system-x86_64" (file "/var/lib/box.ign")
            (file "/run/podman/box_ready.sock")); reflexivity.
Defined.

(** *** Starting the machine, step by step *)

(** X7. When the command line cannot be built, [StartVM] returns that
    error quoted behind "unable to generate qemu command line: " and does
    nothing else: no wait for the proxy socket, no file opened, nothing
    started. *)
Theorem StartVM_command_line_error (h : Host) (mc : MachineConfig)
  (q q1 : QEMUStubber) (t : Trace) (e : error) :
  setQEMUCommandLine h mc q = (Err e, q1) ->
  StartVM h mc (q, t)
  = (Err (Quoted "unable to generate qemu command line: " e), (q1, t)).
Proof.
  intros Hset.
  unfold StartVM. unfold bind at 1. unfold attempt at 1, on_fst at 1.
  cbn [fst snd]. rewrite Hset. reflexivity.
Qed.

Lemma StartVM_command_line_error_witness :
  StartVM (with_Run (exec_Run host_ok) (ParseUSBs host_ok)
             (Err (External "qemu not installed")) host_ok)
    machine_ok (stubber0, [])
  = (Err (Quoted "unable to generate qemu command line: "
            (External "qemu not installed")), (stubber0, [])).
Proof.
  apply (StartVM_command_line_error
           (with_Run (exec_Run host_ok) (ParseUSBs host_ok)
              (Err (External "qemu not installed")) host_ok)
           machine_ok stubber0 stubber0 [] (External "qemu not installed")).
  reflexivity.
Defined.

(** [StartVM] from the point where the proxy socket is up and the null
    files are open. *)
Lemma StartVM_launch (h : Host) (mc : MachineConfig) (q q1 : QEMUStubber)
  (t : Trace) (ready gv : VMFile) (dnr dnw : File) :
  let wait := EvWaitForSocket gvProxyMaxBackoffAttempts gvProxyWaitBackoff
                (GetPath gv) "gvproxy" (Ok tt) in
  setQEMUCommandLine h mc q = (Ok tt, q1) ->
  mc_ReadySocket h mc = Ok ready ->
  mc_GVProxySocket h mc = Ok gv ->
  host_WaitForSocketWithBackoffs h t gvProxyMaxBackoffAttempts gvProxyWaitBackoff
    (GetPath gv) "gvproxy" = Ok tt ->
  host_GetDevNullFiles h (t ++ [wait]) = Ok (dnr, dnw) ->
  exists binary,
    findQEMUBinary h = Ok binary /\
    StartVM h mc (q, t)
    = let cmd := start_command h q1 binary dnr dnw in
      let t3 := ((t ++ [wait]) ++ [EvGetDevNullFiles]) ++ [EvDebugCmd (Args cmd)] in
      let closes := [EvCloseFile dnw; EvCloseFile dnr] in
      match runStartVMCommand h (cmd, t3) with
      | (Ok _, (cmd', t4)) =>
          match Process_ cmd' with
          | Some proc =>
              (Ok {| release := Process_Release proc;
                     readyFunc := waitForReady h ready (Pid proc) NewBuffer |},
               (q1, (t4 ++ [EvDebugPid (Pid proc)]) ++ closes))
          | None => (Panic, (q1, t4 ++ closes))
          end
      | (Err e, (_, t4)) => (Err e, (q1, t4 ++ closes))
      | (Panic, (_, t4)) => (Panic, (q1, t4 ++ closes))
      end.
Proof.
  cbv zeta. intros Hset Hready Hgv Hwait Hnull.
  destruct (setQEMUCommandLine_inv h mc q q1 Hset)
    as (binary & ign & ready' & gv' & hv & image & pidfile
        & Hb & _ & _ & _ & _ & _ & _ & _ & Hq1).
  exists binary. split; [exact Hb|].
  assert (Hfirst : first_token (if negb (IsDebugLevelEnabled h)
                                then SetDisplay "none" (Command q1)
                                else Command q1) = Some binary).
  { rewrite Hq1. now destruct (IsDebugLevelEnabled h). }
  unfold StartVM.
  unfold bind at 1. unfold attempt at 1, on_fst at 1. cbn [fst snd].
  rewrite Hset.
  unfold bind at 1, ret at 1. unfold bind at 1, try at 1. rewrite Hready.
  unfold bind at 1, try at 1. rewrite Hgv.
  unfold bind at 1, on_snd at 1, WaitForSocketWithBackoffs, call. cbn [fst snd].
  rewrite Hwait.
  unfold bind at 1, on_snd at 1, GetDevNullFiles, call. cbn [fst snd].
  rewrite Hnull.
  unfold defer. unfold bind at 1, on_fst at 1, get at 1. cbn [fst snd].
  unfold bind at 1, on_snd at 1, emit at 1, modify at 1. cbn [fst snd].
  unfold bind at 1. rewrite Hfirst. unfold deref at 1, ret at 1.
  unfold bind at 1, with_local at 1. cbn [fst snd].
  unfold start_command. cbn [Args].
  match goal with |- ?l = match ?x with _ => _ end =>
    match l with context C [runStartVMCommand h ?s] =>
      let l' := context C [x] in change l with l'
    end;
    destruct x as [[[]|e|] [cmd' t4]]
  end; cbn [fst snd]; try reflexivity.
  unfold bind, deref, on_snd, emit, modify, ret, panic. cbn [fst snd].
  destruct (Process_ cmd') as [proc|]; reflexivity.
Qed.

(** X8. Once the null files are open, every way out of [StartVM] closes
    them both, the one for output before the one for input, as the last
    thing it does, whether the launch worked or not. *)
Theorem StartVM_closes_null_files (h : Host) (mc : MachineConfig)
  (q q1 q' : QEMUStubber) (t t' : Trace) (ready gv : VMFile) (dnr dnw : File)
  (r : result Started) :
  let wait := EvWaitForSocket gvProxyMaxBackoffAttempts gvProxyWaitBackoff
                (GetPath gv) "gvproxy" (Ok tt) in
  setQEMUCommandLine h mc q = (Ok tt, q1) ->
  mc_ReadySocket h mc = Ok ready ->
  mc_GVProxySocket h mc = Ok gv ->
  host_WaitForSocketWithBackoffs h t gvProxyMaxBackoffAttempts gvProxyWaitBackoff
    (GetPath gv) "gvproxy" = Ok tt ->
  host_GetDevNullFiles h (t ++ [wait]) = Ok (dnr, dnw) ->
  StartVM h mc (q, t) = (r, (q', t')) ->
  exists mid,
    t' = (t ++ [wait; EvGetDevNullFiles]) ++ mid
           ++ [EvCloseFile dnw; EvCloseFile dnr].
Proof.
  cbv zeta. intros Hset Hready Hgv Hwait Hnull.
  destruct (StartVM_launch h mc q q1 t ready gv dnr dnw Hset Hready Hgv Hwait Hnull)
    as (binary & _ & ->).
  cbv zeta.
  match goal with |- context [runStartVMCommand h (?c, ?t3)] =>
    destruct (runStartVMCommand h (c, t3)) as [r2 [cmd' t4]] eqn:Hrun;
    destruct (QemuProps.runStartVMCommand_spec h c cmd' t3 t4 r2 Hrun)
      as (evs & -> & _)
  end.
  destruct r2 as [[]|e|]; [destruct (Process_ cmd') as [proc|]|..];
    intros H; injection H as _ _ <-.
  - exists ([EvDebugCmd (Args (start_command h q1 binary dnr dnw))] ++ evs
            ++ [EvDebugPid (Pid proc)]).
    now rewrite <- !app_assoc.
  - exists ([EvDebugCmd (Args (start_command h q1 binary dnr dnw))] ++ evs).
    now rewrite <- !app_assoc.
  - exists ([EvDebugCmd (Args (start_command h q1 binary dnr dnw))] ++ evs).
    now rewrite <- !app_assoc.
  - exists ([EvDebugCmd (Args (start_command h q1 binary dnr dnw))] ++ evs).
    now rewrite <- !app_assoc.
Qed.

Lemma StartVM_closes_null_files_witness :
  exists mid,
    snd (snd (StartVM MoreFixtures.host_no_binary machine_ok (stubber0, [])))
    = ([] ++ [EvWaitForSocket gvProxyMaxBackoffAttempts gvProxyWaitBackoff
                "/run/podman/box-gvproxy.sock" "gvproxy" (Ok tt);
              EvGetDevNullFiles])
      ++ mid ++ [EvCloseFile 4; EvCloseFile 3].
Proof.
  apply (StartVM_closes_null_files MoreFixtures.host_no_binary machine_ok stubber0
           (snd (setQEMUCommandLine MoreFixtures.host_no_binary machine_ok stubber0))
           (fst (snd (StartVM MoreFixtures.host_no_binary machine_ok (stubber0, []))))
           []
           (snd (snd (StartVM MoreFixtures.host_no_binary machine_ok (stubber0, []))))
           (file "/run/podman/box_ready.sock")
           (file "/run/podman/box-gvproxy.sock") 3 4
           (fst (StartVM MoreFixtures.host_no_binary machine_ok (stubber0, []))));
    vm_compute; reflexivity.
Defined.

(** A launch begins with a start of the command it was given. *)
Lemma runStartVMCommand_first_event (h : Host) (cmd : Cmd) (t : Trace) :
  exists res rest,
    snd (snd (runStartVMCommand h (cmd, t))) = t ++ EvStart cmd res :: rest.
Proof.
  destruct (exec_Start h t cmd) as [pid|e|] eqn:H1.
  - unfold runStartVMCommand, bind, attempt, Cmd_Start. cbn [fst snd].
    rewrite H1. exists (Ok pid), []. reflexivity.
  - destruct (QemuProps.runStartVMCommand_retries_on_any_error h cmd t e H1)
      as [rest ->].
    exists (Err e), (EvConfigDefault :: rest). reflexivity.
  - unfold runStartVMCommand, bind, attempt, Cmd_Start. cbn [fst snd].
    rewrite H1. exists Panic, []. reflexivity.
Qed.

(** X9. The command [StartVM] starts first is the one whose path is the
    binary [setQEMUCommandLine] found, whose input and output are the
    null files and whose arguments are the command line of the stubber,
    followed by the display group when debug logging is off.  The command
    line kept in the stubber itself holds no display group, so the log
    level of one start does not leak into the next. *)
Theorem StartVM_started_command (h : Host) (mc : MachineConfig)
  (q q1 q' : QEMUStubber) (t t' : Trace) (ready gv : VMFile) (dnr dnw : File)
  (r : result Started) :
  let wait := EvWaitForSocket gvProxyMaxBackoffAttempts gvProxyWaitBackoff
                (GetPath gv) "gvproxy" (Ok tt) in
  setQEMUCommandLine h mc q = (Ok tt, q1) ->
  mc_ReadySocket h mc = Ok ready ->
  mc_GVProxySocket h mc = Ok gv ->
  host_WaitForSocketWithBackoffs h t gvProxyMaxBackoffAttempts gvProxyWaitBackoff
    (GetPath gv) "gvproxy" = Ok tt ->
  host_GetDevNullFiles h (t ++ [wait]) = Ok (dnr, dnw) ->
  StartVM h mc (q, t) = (r, (q', t')) ->
  exists binary res rest,
    findQEMUBinary h = Ok binary /\
    q' = q1 /\
    count is_display (Command q') = 0%nat /\
    t' = t ++ [wait; EvGetDevNullFiles;
               EvDebugCmd (Args (start_command h q' binary dnr dnw));
               EvStart (start_command h q' binary dnr dnw) res] ++ rest /\
    Args (start_command h q' binary dnr dnw)
    = Command q' ++ (if IsDebugLevelEnabled h then [] else [Display "none"]).
Proof.
  cbv zeta. intros Hset Hready Hgv Hwait Hnull.
  destruct (StartVM_launch h mc q q1 t ready gv dnr dnw Hset Hready Hgv Hwait Hnull)
    as (binary & Hb & ->).
  destruct (QemuProps.built_without_display h mc q q1 Hset) as (Hnone & _).
  cbv zeta.
  match goal with |- context [runStartVMCommand h ?s] =>
    match s with (?c, ?t3) =>
      destruct (runStartVMCommand_first_event h c t3) as (res & rest0 & Hfirst);
      change (runStartVMCommand h (c, t3)) with (runStartVMCommand h s) in Hfirst
    end;
    destruct (runStartVMCommand h s) as [r2 [cmd' t4]] eqn:Hrun
  end.
  try rewrite Hrun in Hfirst. cbn [fst snd] in Hfirst. subst t4.
  assert (Hargs : Args (start_command h q1 binary dnr dnw)
                  = Command q1
                    ++ (if IsDebugLevelEnabled h then [] else [Display "none"])).
  { unfold start_command, SetDisplay. cbn [Args].
    destruct (IsDebugLevelEnabled h); simpl; [now rewrite app_nil_r|reflexivity]. }
  destruct r2 as [[]|e|]; [destruct (Process_ cmd') as [proc|]|..];
    intros H; injection H as _ <- <-; exists binary, res.
  - exists (rest0 ++ [EvDebugPid (Pid proc); EvCloseFile dnw; EvCloseFile dnr]).
    repeat (split; [first [assumption | reflexivity]|]).
    split; [|exact Hargs]. now rewrite <- !app_assoc.
  - exists (rest0 ++ [EvCloseFile dnw; EvCloseFile dnr]).
    repeat (split; [first [assumption | reflexivity]|]).
    split; [|exact Hargs]. now rewrite <- !app_assoc.
  - exists (rest0 ++ [EvCloseFile dnw; EvCloseFile dnr]).
    repeat (split; [first [assumption | reflexivity]|]).
    split; [|exact Hargs]. now rewrite <- !app_assoc.
  - exists (rest0 ++ [EvCloseFile dnw; EvCloseFile dnr]).
    repeat (split; [first [assumption | reflexivity]|]).
    split; [|exact Hargs]. now rewrite <- !app_assoc.
Qed.

Lemma StartVM_started_command_witness :
  exists binary res rest,
    findQEMUBinary host_ok = Ok binary /\
    fst (snd started_ok) = snd (setQEMUCommandLine host_ok machine_ok stubber0) /\
    count is_display (Command (fst (snd started_ok))) = 0%nat /\
    snd (snd started_ok)
    = [] ++ [EvWaitForSocket gvProxyMaxBackoffAttempts gvProxyWaitBackoff
               "/run/podman/box-gvproxy.sock" "gvproxy" (Ok tt);
             EvGetDevNullFiles;
             EvDebugCmd (Args (start_command host_ok (fst (snd started_ok)) binary 3 4));
             EvStart (start_command host_ok (fst (snd started_ok)) binary 3 4) res]
         ++ rest /\
    Args (start_command host_ok (fst (snd started_ok)) binary 3 4)
    = Command (fst (snd started_ok))
      ++ (if IsDebugLevelEnabled host_ok then [] else [Display "none"]).
Proof.
  apply (StartVM_started_command host_ok machine_ok stubber0
           (snd (setQEMUCommandLine host_ok machine_ok stubber0))
           (fst (snd started_ok)) [] (snd (snd started_ok))
           (file "/run/podman/box_ready.sock")
           (file "/run/podman/box-gvproxy.sock") 3 4 (fst started_ok));
    vm_compute; reflexivity.
Defined.

End LaunchProps.

(** ** Properties of disk, creation and attributes *)

Module ProvisionProps.
Import Define Command Vmconfigs Go Qemu Fixtures QemuRest MoreFixtures.
Local Open Scope Z_scope.
Local Open Scope go_scope.

(** *** Resizing the image *)

Lemma Atoi_Itoa (z : Z) : Atoi (Itoa z) = Some z.
Proof.
  unfold Atoi, Itoa.
  rewrite NilZero.isi.
  - simpl. now rewrite DecimalZ.of_to.
  - destruct z; simpl; try discriminate.
    intros H. injection H as H. now apply DecimalPos.Unsigned.to_uint_nonnil in H.
  - destruct z; simpl; try discriminate.
    intros H. injection H as H. now apply DecimalPos.Unsigned.to_uint_nonnil in H.
Qed.

(** The run of [resizeDisk] once the utility has been found. *)
Lemma resizeDisk_run (h : Host) (newSize : Z) (disk : VMFile) (t : Trace)
  (cfg : Config) (path : string) :
  let t2 := (t ++ [EvConfigDefault]) ++ [EvFindHelperBinary "qemu-img" true] in
  let args := ["resize"; GetPath disk;
               (Itoa (int_of_uint64 newSize) ++ "G")%string] in
  host_config_Default h t = Ok cfg ->
  host_FindHelperBinary h (t ++ [EvConfigDefault]) cfg "qemu-img" true = Ok path ->
  resizeDisk h newSize (Some disk) t
  = (match exec_Run h t2 path args with
     | Ok _ => Ok tt
     | Err e => Err (Quoted "resizing image: " e)
     | Panic => Panic
     end, t2 ++ [EvRun path args]).
Proof.
  cbv zeta. intros Hcfg Hlook.
  unfold resizeDisk, bind, config_Default, FindHelperBinary, exec_Command_Run,
    attempt, call, deref, ret, fail.
  rewrite Hcfg, Hlook.
  match goal with |- context [exec_Run h ?t' ?p ?a] =>
    destruct (exec_Run h t' p a) as [[]|e|]; reflexivity
  end.
Qed.

(** X10. Once the utility "qemu-img" has been found, [resizeDisk] runs it
    exactly once, with the arguments "resize", the path of the image and
    the size followed by "G".  The size reads back as the requested
    number of GiB as long as that is below 2^63; from 2^63 on, the
    conversion to [int] makes it negative.  A failure of the utility
    comes back quoted behind "resizing image: ". *)
Theorem resizeDisk_command (h : Host) (newSize : Z) (disk : VMFile) (t : Trace)
  (cfg : Config) (path : string) :
  host_config_Default h t = Ok cfg ->
  host_FindHelperBinary h (t ++ [EvConfigDefault]) cfg "qemu-img" true = Ok path ->
  exists size,
    let t2 := (t ++ [EvConfigDefault]) ++ [EvFindHelperBinary "qemu-img" true] in
    let args := ["resize"; GetPath disk; (size ++ "G")%string] in
    resizeDisk h newSize (Some disk) t
    = (match exec_Run h t2 path args with
       | Ok _ => Ok tt
       | Err e => Err (Quoted "resizing image: " e)
       | Panic => Panic
       end, t2 ++ [EvRun path args]) /\
    (0 <= newSize < 2 ^ 63 -> Atoi size = Some newSize) /\
    (2 ^ 63 <= newSize < 2 ^ 64 ->
     Atoi size = Some (newSize - 2 ^ 64) /\ newSize - 2 ^ 64 < 0).
Proof.
  intros Hcfg Hlook.
  exists (Itoa (int_of_uint64 newSize)). cbv zeta.
  split; [exact (resizeDisk_run h newSize disk t cfg path Hcfg Hlook)|].
  rewrite Atoi_Itoa. unfold int_of_uint64. split; intros Hn.
  - rewrite Z.mod_small by lia.
    destruct (Z.ltb_spec newSize (2 ^ 63)); [reflexivity|lia].
  - rewrite Z.mod_small by lia.
    destruct (Z.ltb_spec newSize (2 ^ 63)); [lia|]. split; [reflexivity|lia].
Qed.

Lemma resizeDisk_command_witness :
  exists size,
    resizeDisk host_resize_fails 20 (Some (file "/var/lib/box.qcow2")) []
    = (Err (Quoted "resizing image: " (External "exit status 1")),
       (([] ++ [EvConfigDefault]) ++ [EvFindHelperBinary "qemu-img" true])
         ++ [EvRun "/usr/libexec/qemu-img"
               ["resize"; "/var/lib/box.qcow2"; (size ++ "G")%string]]) /\
    Atoi size = Some 20.
Proof.
  destruct (resizeDisk_command host_resize_fails 20 (file "/var/lib/box.qcow2") []
              DefaultConfig "/usr/libexec/qemu-img" eq_refl eq_refl)
    as (size & Hrun & Hsmall & _).
  exists size. split; [exact Hrun|]. apply Hsmall. lia.
Defined.

(** What [resizeDisk] adds to the trace. *)
Lemma resizeDisk_extends (h : Host) (newSize : Z) (diskPath : option VMFile)
  (t : Trace) :
  exists evs, snd (resizeDisk h newSize diskPath t) = t ++ evs.
Proof.
  destruct (QemuProps.resizeDisk_events h newSize diskPath t) as (evs & H & _).
  now exists evs.
Qed.

(** A resize that succeeded has run the utility. *)
Lemma resizeDisk_needs_trace (h : Host) (newSize : Z) (diskPath : option VMFile)
  (t : Trace) :
  fst (resizeDisk h newSize diskPath t) = Ok tt ->
  existsb is_run (snd (resizeDisk h newSize diskPath t)) = true.
Proof.
  unfold resizeDisk, bind, config_Default, FindHelperBinary, exec_Command_Run,
    attempt, call, deref, ret, fail, panic.
  destruct (host_config_Default h t) as [cfg|e|]; try discriminate.
  destruct (host_FindHelperBinary h (t ++ [EvConfigDefault]) cfg "qemu-img" true)
    as [path|e|]; try discriminate.
  destruct diskPath as [disk|]; try discriminate.
  match goal with |- context [exec_Run h ?t' ?p ?a] =>
    destruct (exec_Run h t' p a) as [[]|e|]; try discriminate
  end.
  intros _. cbn [snd]. rewrite existsb_app. simpl. apply orb_true_r.
Qed.

(** X11. [resizeDisk] gives up before running anything when the utility
    cannot be looked up or when there is no image: it never succeeds
    without having run the utility on an image, and an error of the
    look-up comes back as it is. *)
Theorem resizeDisk_needs_utility (h : Host) (newSize : Z)
  (diskPath : option VMFile) (t : Trace) :
  (fst (resizeDisk h newSize diskPath t) = Ok tt ->
   exists disk path size,
     diskPath = Some disk /\
     In (EvRun path ["resize"; GetPath disk; (size ++ "G")%string])
        (snd (resizeDisk h newSize diskPath t))) /\
  (forall e, host_config_Default h t = Err e ->
     resizeDisk h newSize diskPath t = (Err e, t ++ [EvConfigDefault])) /\
  (forall cfg e, host_config_Default h t = Ok cfg ->
     host_FindHelperBinary h (t ++ [EvConfigDefault]) cfg "qemu-img" true = Err e ->
     resizeDisk h newSize diskPath t
     = (Err e, (t ++ [EvConfigDefault]) ++ [EvFindHelperBinary "qemu-img" true])).
Proof.
  unfold resizeDisk, bind, config_Default, FindHelperBinary, exec_Command_Run,
    attempt, call, deref, ret, fail, panic.
  split; [|split].
  - destruct (host_config_Default h t) as [cfg|e|]; try discriminate.
    destruct (host_FindHelperBinary h (t ++ [EvConfigDefault]) cfg "qemu-img" true)
      as [path|e|]; try discriminate.
    destruct diskPath as [disk|]; try discriminate.
    match goal with |- context [exec_Run h ?t' ?p ?a] =>
      destruct (exec_Run h t' p a) as [[]|e|]; try discriminate
    end.
    intros _. exists disk, path, (Itoa (int_of_uint64 newSize)).
    split; [reflexivity|]. cbn [snd]. apply in_or_app. right. now left.
  - intros e ->. reflexivity.
  - intros cfg e -> ->. reflexivity.
Qed.

Lemma resizeDisk_needs_utility_witness :
  exists disk path size,
    Some (file "/var/lib/box.qcow2") = Some disk /\
    In (EvRun path ["resize"; GetPath disk; (size ++ "G")%string])
       (snd (resizeDisk host_ok 20 (Some (file "/var/lib/box.qcow2")) [])).
Proof.
  apply (proj1 (resizeDisk_needs_utility host_ok 20
                  (Some (file "/var/lib/box.qcow2")) [])).
  reflexivity.
Defined.

(** *** Creating the machine *)

(** How a run of [CreateVM] ends. *)
Lemma CreateVM_cases (ch : CreateHost) (opts : CreateVMOpts) (mc mc' : MachineConfig)
  (t t' : Trace) (r : result unit) :
  CreateVM ch opts (mc, t) = (r, (mc', t')) ->
  (r <> Ok tt /\ mc' = mc /\ t' = t) \/
  (exists dirs monitor rundir pidfile,
     Dirs opts = Some dirs /\
     NewQMPMonitor ch (opt_Name opts) (RuntimeDir dirs) = Ok monitor /\
     mc_RuntimeDir ch mc = Ok rundir /\
     AppendToNewVMFile ch rundir (Name mc ++ "_vm.pid")%string None = Ok pidfile /\
     mc' = set_QEMUHypervisor
             (Some {| QMPMonitor := monitor; QEMUPidPath := Some pidfile |}) mc /\
     (r, t') = resizeDisk (base ch) (DiskSize (Resources mc)) (ImagePath mc) t).
Proof.
  unfold CreateVM, bind, deref, try, on_fst, on_snd, get, modify, ret, panic,
    assign_QEMUPidPath.
  destruct (Dirs opts) as [dirs|];
    [|intros H; injection H as <- <- <-; left; repeat split; discriminate].
  destruct (NewQMPMonitor ch (opt_Name opts) (RuntimeDir dirs)) as [monitor|e|]
    eqn:Hmon;
    [|intros H; injection H as <- <- <-; left; repeat split; discriminate ..].
  cbn [fst snd].
  destruct (mc_RuntimeDir ch mc) as [rundir|e|] eqn:Hdir;
    [|intros H; injection H as <- <- <-; left; repeat split; discriminate ..].
  cbn [fst snd].
  destruct (AppendToNewVMFile ch rundir (Name mc ++ "_vm.pid")%string None)
    as [pidfile|e|] eqn:Hpid;
    [|intros H; injection H as <- <- <-; left; repeat split; discriminate ..].
  simpl.
  destruct (resizeDisk (base ch) (DiskSize (Resources mc)) (ImagePath mc) t)
    as [r2 t2].
  intros H. injection H as <- <- <-.
  right. exists dirs, monitor, rundir, pidfile.
  repeat (split; [first [reflexivity | assumption]|]). reflexivity.
Qed.

(** X12. [CreateVM] either fails before touching anything, leaving the
    machine configuration and the trace as they were, or installs the
    hypervisor record (the new monitor and the PID file named after the
    machine) and then ends exactly as the resize of the image to the
    configured disk size ends; the record stays installed when that
    resize fails. *)
Theorem CreateVM_outcome (ch : CreateHost) (opts : CreateVMOpts)
  (mc mc' : MachineConfig) (t t' : Trace) (r : result unit) :
  CreateVM ch opts (mc, t) = (r, (mc', t')) ->
  (r <> Ok tt /\ mc' = mc /\ t' = t) \/
  (exists dirs monitor rundir pidfile,
     Dirs opts = Some dirs /\
     NewQMPMonitor ch (opt_Name opts) (RuntimeDir dirs) = Ok monitor /\
     mc_RuntimeDir ch mc = Ok rundir /\
     AppendToNewVMFile ch rundir (Name mc ++ "_vm.pid")%string None = Ok pidfile /\
     mc' = set_QEMUHypervisor
             (Some {| QMPMonitor := monitor; QEMUPidPath := Some pidfile |}) mc /\
     (r, t') = resizeDisk (base ch) (DiskSize (Resources mc)) (ImagePath mc) t).
Proof.
  unfold CreateVM, bind, deref, try, on_fst, on_snd, get, modify, ret, panic,
    assign_QEMUPidPath.
  destruct (Dirs opts) as [dirs|];
    [|intros H; injection H as <- <- <-; left; repeat split; discriminate].
  destruct (NewQMPMonitor ch (opt_Name opts) (RuntimeDir dirs)) as [monitor|e|]
    eqn:Hmon;
    [|intros H; injection H as <- <- <-; left; repeat split; discriminate ..].
  cbn [fst snd].
  destruct (mc_RuntimeDir ch mc) as [rundir|e|] eqn:Hdir;
    [|intros H; injection H as <- <- <-; left; repeat split; discriminate ..].
  cbn [fst snd].
  destruct (AppendToNewVMFile ch rundir (Name mc ++ "_vm.pid")%string None)
    as [pidfile|e|] eqn:Hpid;
    [|intros H; injection H as <- <- <-; left; repeat split; discriminate ..].
  simpl.
  destruct (resizeDisk (base ch) (DiskSize (Resources mc)) (ImagePath mc) t)
    as [r2 t2].
  intros H. injection H as <- <- <-.
  right. exists dirs, monitor, rundir, pidfile.
  repeat (split; [first [reflexivity | assumption]|]). reflexivity.
Qed.

Lemma CreateVM_outcome_witness :
  QEMUHypervisor (fst (snd (CreateVM create_host create_opts (machine_bare, []))))
  = Some {| QMPMonitor := {| Address := file "/run/podman/qmp_box.sock";
                             Network := "unix"; Timeout := 2 |};
            QEMUPidPath := Some (file "/run/podman/box_vm.pid") |}.
Proof.
  destruct (CreateVM_outcome create_host create_opts machine_bare
              (fst (snd (CreateVM create_host create_opts (machine_bare, []))))
              []
              (snd (snd (CreateVM create_host create_opts (machine_bare, []))))
              (fst (CreateVM create_host create_opts (machine_bare, [])))
              eq_refl) as [(Hr & _)|(dirs & monitor & rundir & pidfile & _)].
  - now elim Hr.
  - reflexivity.
Defined.

(** X13. A machine [CreateVM] has succeeded on is ready for
    [setQEMUCommandLine]: when the binary, the first-boot file and the
    sockets resolve, the command line is built without a nil dereference,
    its monitor group is the monitor [CreateVM] made, and its serial port
    and the stubber carry the PID file [CreateVM] made. *)
Theorem CreateVM_then_command_line (ch : CreateHost) (opts : CreateVMOpts)
  (mc mc' : MachineConfig) (t t' : Trace) (q : QEMUStubber)
  (binary : string) (ign ready gv : VMFile) :
  CreateVM ch opts (mc, t) = (Ok tt, (mc', t')) ->
  findQEMUBinary (base ch) = Ok binary ->
  mc_IgnitionFile (base ch) mc' = Ok ign ->
  mc_ReadySocket (base ch) mc' = Ok ready ->
  mc_GVProxySocket (base ch) mc' = Ok gv ->
  SetNetwork_error (base ch) gv = Ok tt ->
  exists monitor pidfile q',
    QEMUHypervisor mc'
    = Some {| QMPMonitor := monitor; QEMUPidPath := Some pidfile |} /\
    setQEMUCommandLine (base ch) mc' q = (Ok tt, q') /\
    In (QmpMonitor monitor) (Command q') /\
    In (SerialPort ready pidfile (Name mc)) (Command q') /\
    stub_QEMUPidPath q' = Some pidfile.
Proof.
  intros Hcreate Hb Hi Hr Hg Hn.
  destruct (CreateVM_cases ch opts mc mc' t t' (Ok tt) Hcreate)
    as [(Hne & _)|(dirs & monitor & rundir & pidfile & _ & _ & _ & _ & Hmc & Hres)];
    [now elim Hne|].
  assert (Himage : exists image, ImagePath mc = Some image).
  { destruct (ImagePath mc) as [image|] eqn:Him; [now exists image|].
    exfalso. revert Hres.
    unfold resizeDisk, bind, config_Default, FindHelperBinary, call, deref, panic.
    destruct (host_config_Default (base ch) t) as [cfg|e|]; try discriminate.
    destruct (host_FindHelperBinary (base ch) (t ++ [EvConfigDefault]) cfg
                "qemu-img" true) as [path|e|]; discriminate. }
  destruct Himage as [image Him].
  subst mc'.
  exists monitor, pidfile.
  eexists. split; [reflexivity|].
  split.
  - apply (LaunchProps.setQEMUCommandLine_run (base ch) _ q binary ign ready gv
             image pidfile {| QMPMonitor := monitor; QEMUPidPath := Some pidfile |});
      first [assumption | reflexivity].
  - cbn [Command stub_QEMUPidPath QMPMonitor Name set_QEMUHypervisor].
    split; [|split; [|reflexivity]].
    + apply in_or_app. left. simpl. tauto.
    + apply in_or_app. left. simpl. tauto.
Qed.

Lemma CreateVM_then_command_line_witness :
  exists monitor pidfile q',
    QEMUHypervisor (fst (snd (CreateVM create_host create_opts (machine_bare, []))))
    = Some {| QMPMonitor := monitor; QEMUPidPath := Some pidfile |} /\
    setQEMUCommandLine host_ok
      (fst (snd (CreateVM create_host create_opts (machine_bare, [])))) stubber0
    = (Ok tt, q') /\
    In (QmpMonitor monitor) (Command q') /\
    In (SerialPort (file "/run/podman/box_ready.sock") pidfile "box") (Command q') /\
    stub_QEMUPidPath q' = Some pidfile.
Proof.
  apply (CreateVM_then_command_line create_host create_opts machine_bare
           (fst (snd (CreateVM create_host create_opts (machine_bare, [])))) []
           (snd (snd (CreateVM create_host create_opts (machine_bare, []))))
           stubber0 "/usr/bin/qemu-system-x86_64" (file "/var/lib/box.ign")
           (file "/run/podman/box_ready.sock")
           (file "/run/podman/box-gvproxy.sock"));
    vm_compute; reflexivity.
Defined.

(** *** Changing attributes *)

(** Case analysis on whatever a run still waits for. *)
(** Case analysis on the computation a [bind] waits for. *)
Ltac step_bind :=
  unfold bind at 1;
  match goal with
  | |- match ?m with pair _ _ => _ end = _ -> _ =>
      let Hstep := fresh "Hstep" in
      destruct m as [[[]|?|] [? ?]] eqn:Hstep; try discriminate
  end.

(** X14. [SetProviderAttrs] succeeds only on a machine whose state query
    answered Stopped, only after a requested resize has itself succeeded,
    and, when a USB list was requested, with the USB devices of the
    machine replaced by the parsed list. *)
Theorem SetProviderAttrs_success (h : Host) (opts : SetOptions)
  (mc mc' : MachineConfig) (t t' : Trace) :
  SetProviderAttrs h opts (mc, t) = (Ok tt, (mc', t')) ->
  host_State h t mc false = Ok Stopped /\
  (forall n, Define.DiskSize opts = Some n ->
     fst (resizeDisk h n (ImagePath mc) (t ++ [EvState false])) = Ok tt) /\
  (forall l, Define.USBs opts = Some l ->
     exists usbs, ParseUSBs h l = Ok usbs /\ Vmconfigs.USBs (Resources mc') = usbs).
Proof.
  intros H.
  assert (Hst : host_State h t mc false = Ok Stopped).
  { revert H. unfold SetProviderAttrs, bind, on_fst, on_snd, get, State, call.
    cbn [fst snd].
    destruct (host_State h t mc false) as [[]|e|]; simpl; try discriminate.
    reflexivity. }
  split; [exact Hst|]. revert H.
  unfold SetProviderAttrs.
  unfold bind at 1. unfold on_fst at 1, get at 1. cbn [fst snd].
  unfold bind at 1. unfold on_snd at 1, State, call. cbn [fst snd].
  rewrite Hst. cbn [Status_eqb negb].
  step_bind. unfold bind at 1, on_fst at 1, get at 1. cbn [fst snd].
  step_bind. step_bind. unfold ret. intros H. injection H as <- <-.
  split.
  - intros k Hk. rewrite Hk in Hstep. unfold on_snd in Hstep. cbn [fst snd] in Hstep.
    destruct (resizeDisk h k (ImagePath mc) (t ++ [EvState false])) as [r1 tr1].
    now injection Hstep as -> _ _.
  - intros l Hl. rewrite Hl in Hstep1.
    unfold bind, try, on_fst, modify in Hstep1.
    destruct (ParseUSBs h l) as [usbs|e|]; simpl in Hstep1; try discriminate.
    injection Hstep1 as <- _. exists usbs. split; reflexivity.
Qed.

Lemma SetProviderAttrs_success_witness :
  host_State host_ok [] (machine [] false) false = Ok Stopped /\
  Vmconfigs.USBs (Resources (fst (snd (SetProviderAttrs host_ok opts_all
                                         (machine [] false, [])))))
  = [{| Bus := "1234:5678"; DevNumber := "1234:5678"; Vendor := 0; Product := 0 |}].
Proof.
  destruct (SetProviderAttrs_success host_ok opts_all (machine [] false)
              (fst (snd (SetProviderAttrs host_ok opts_all (machine [] false, []))))
              []
              (snd (snd (SetProviderAttrs host_ok opts_all (machine [] false, []))))
              eq_refl) as (Hst & _ & Husb).
  split; [exact Hst|].
  destruct (Husb ["1234:5678"%string] eq_refl) as (usbs & Hparse & ->).
  injection Hparse as <-. reflexivity.
Defined.

(** X15. When the requested resize fails, [SetProviderAttrs] returns the
    error of the resize as it is and stops there: the machine
    configuration is untouched, the rootful setting is not changed and
    the USB list is not even parsed. *)
Theorem SetProviderAttrs_resize_fails (h : Host) (opts : SetOptions)
  (mc : MachineConfig) (t t1 : Trace) (n : Z) (e : error) :
  host_State h t mc false = Ok Stopped ->
  Define.DiskSize opts = Some n ->
  resizeDisk h n (ImagePath mc) (t ++ [EvState false]) = (Err e, t1) ->
  SetProviderAttrs h opts (mc, t) = (Err e, (mc, t1)).
Proof.
  intros Hst Hsize Hres.
  unfold SetProviderAttrs, bind, on_fst, on_snd, get, State, call.
  cbn [fst snd]. rewrite Hst. cbn [Status_eqb negb]. rewrite Hsize.
  cbn [fst snd]. rewrite Hres. reflexivity.
Qed.

Lemma SetProviderAttrs_resize_fails_witness :
  SetProviderAttrs host_resize_fails opts_all (machine [] false, [])
  = (Err (Quoted "resizing image: " (External "exit status 1")),
     (machine [] false,
      snd (resizeDisk host_resize_fails 20 (ImagePath (machine [] false))
             ([] ++ [EvState false])))).
Proof.
  apply (SetProviderAttrs_resize_fails host_resize_fails opts_all
           (machine [] false) [] _ 20); reflexivity.
Defined.

(** X16. Nothing is rolled back: when the USB list does not parse, the
    error of the parser is returned, the USB devices of the machine stay
    as they were, and a resize done earlier in the same call stays
    done. *)
Theorem SetProviderAttrs_usb_parse_fails (h : Host) (opts : SetOptions)
  (mc : MachineConfig) (t t1 : Trace) (n : Z) (l : list string) (e : error) :
  host_State h t mc false = Ok Stopped ->
  Define.DiskSize opts = Some n ->
  resizeDisk h n (ImagePath mc) (t ++ [EvState false]) = (Ok tt, t1) ->
  Define.Rootful opts = None ->
  Define.USBs opts = Some l ->
  ParseUSBs h l = Err e ->
  SetProviderAttrs h opts (mc, t) = (Err e, (mc, t1)) /\
  existsb is_run t1 = true.
Proof.
  intros Hst Hsize Hres Hroot Husb Hparse.
  split.
  - unfold SetProviderAttrs, bind, on_fst, on_snd, get, State, call, try.
    cbn [fst snd]. rewrite Hst. cbn [Status_eqb negb]. rewrite Hsize.
    cbn [fst snd]. rewrite Hres. cbn [fst snd]. rewrite Hroot, Husb, Hparse.
    reflexivity.
  - pose proof (resizeDisk_needs_trace h n (ImagePath mc) (t ++ [EvState false]))
      as Hran.
    rewrite Hres in Hran. apply (Hran eq_refl).
Qed.

Lemma SetProviderAttrs_usb_parse_fails_witness :
  SetProviderAttrs host_bad_usb
    {| Define.DiskSize := Some 20; Define.Rootful := None;
       Define.USBs := Some ["nonsense"%string] |}
    (machine [] false, [])
  = (Err (External "invalid usb"),
     (machine [] false,
      [EvState false; EvConfigDefault; EvFindHelperBinary "qemu-img" true;
       EvRun "/usr/libexec/qemu-img" ["resize"; "/var/lib/box.qcow2"; "20G"]%string])).
Proof.
  apply (SetProviderAttrs_usb_parse_fails host_bad_usb
           {| Define.DiskSize := Some 20; Define.Rootful := None;
              Define.USBs := Some ["nonsense"%string] |}
           (machine [] false) [] _ 20 ["nonsense"%string] (External "invalid usb"));
    reflexivity.
Defined.

(** X17. When the machine is Stopped, no resize is requested and the
    requested rootful value differs from the current one, [SetRootful] is
    called exactly once, with the requested value, right after the state
    query, and nothing else is called.  If it fails, its error is
    returned as it is; if it succeeds and no USB list is requested, the
    call succeeds with the configuration [SetRootful] left. *)
Theorem SetProviderAttrs_rootful_toggle (h : Host) (opts : SetOptions)
  (mc mc1 : MachineConfig) (t : Trace) (b : bool) (r1 : result unit) :
  host_State h t mc false = Ok Stopped ->
  Define.DiskSize opts = None ->
  Define.Rootful opts = Some b ->
  b <> Rootful (HostUser_ mc) ->
  mc_SetRootful h (t ++ [EvState false]) mc b = (r1, mc1) ->
  snd (snd (SetProviderAttrs h opts (mc, t)))
  = t ++ [EvState false; EvSetRootful b] /\
  (forall e, r1 = Err e ->
     SetProviderAttrs h opts (mc, t)
     = (Err e, (mc1, t ++ [EvState false; EvSetRootful b]))) /\
  (r1 = Ok tt -> Define.USBs opts = None ->
     SetProviderAttrs h opts (mc, t)
     = (Ok tt, (mc1, t ++ [EvState false; EvSetRootful b]))).
Proof.
  intros Hst Hsize Hroot Hne Hset.
  assert (Heqb : Bool.eqb (Rootful (HostUser_ mc)) b = false).
  { destruct (Rootful (HostUser_ mc)), b; try reflexivity; now elim Hne. }
  unfold SetProviderAttrs, bind, on_fst, on_snd, get, State, call, SetRootful,
    try, modify, ret.
  cbn [fst snd]. rewrite Hst. cbn [Status_eqb negb]. rewrite Hsize.
  cbn [fst snd]. rewrite Hroot, Heqb. cbn [negb fst snd]. rewrite Hset.
  rewrite <- app_assoc. cbn [app].
  destruct r1 as [[]|e1|].
  - destruct (Define.USBs opts) as [l|];
      [destruct (ParseUSBs h l) as [usbs|e2|]|];
      (split; [reflexivity|]); (split; [discriminate|]);
      intros _ Hno; try discriminate Hno; reflexivity.
  - split; [reflexivity|]. split; [|discriminate].
    intros e He. now injection He as <-.
  - split; [reflexivity|]. split; discriminate.
Qed.

Lemma SetProviderAttrs_rootful_toggle_witness :
  SetProviderAttrs host_ok
    {| Define.DiskSize := None; Define.Rootful := Some true; Define.USBs := None |}
    (machine [] false, [])
  = (Ok tt, (machine [] true, [] ++ [EvState false; EvSetRootful true])).
Proof.
  apply (proj2 (proj2 (SetProviderAttrs_rootful_toggle host_ok
           {| Define.DiskSize := None; Define.Rootful := Some true;
              Define.USBs := None |}
           (machine [] false) (machine [] true) [] true (Ok tt)
           eq_refl eq_refl eq_refl ltac:(discriminate) eq_refl)));
    reflexivity.
Defined.

End ProvisionProps.

(** ** Properties of the mount pass *)

Module MountProps.
Import Define Command Vmconfigs Go Qemu Fixtures QemuRest MoreFixtures.
Local Open Scope Z_scope.
Local Open Scope go_scope.

(** The two remote commands of one turn of the loop. *)
Lemma mount_commands_turn (h : Host) (mc : MachineConfig) (m : Mount)
  (t t' : Trace) (r : result unit) :
  (CommonSSH h (RemoteUsername (SSH mc)) (IdentityPath (SSH mc)) (Name mc)
     (Port (SSH mc)) (mkdir_args (Target m)) ;;;
   if (Type_ m =? MountType9p h)%string
   then CommonSSH h (RemoteUsername (SSH mc)) (IdentityPath (SSH mc)) (Name mc)
          (Port (SSH mc)) (mount_args m)
   else fail (New ("unknown mount type: " ++ Type_ m)%string)) t = (r, t') ->
  exists evs rest,
    t' = t ++ evs /\
    mount_commands mc m = evs ++ rest /\
    (r = Ok tt -> rest = [] /\ supported h m = true) /\
    (forall e, r = Err e ->
       (supported h m = false /\
        e = New ("unknown mount type: " ++ Type_ m)%string) \/
       (exists t0 args,
          host_CommonSSH h t0 (RemoteUsername (SSH mc)) (IdentityPath (SSH mc))
            (Name mc) (Port (SSH mc)) args = Err e)).
Proof.
  unfold mount_commands, supported, bind, CommonSSH, call, fail.
  set (ssh := EvCommonSSH (RemoteUsername (SSH mc)) (IdentityPath (SSH mc))
                (Name mc) (Port (SSH mc))).
  destruct (host_CommonSSH h t (RemoteUsername (SSH mc))
              (IdentityPath (SSH mc)) (Name mc) (Port (SSH mc))
              (mkdir_args (Target m))) as [[]|e1|] eqn:H1.
  - destruct (Type_ m =? MountType9p h)%string eqn:Hty.
    + destruct (host_CommonSSH h (t ++ [ssh (mkdir_args (Target m))])
                  (RemoteUsername (SSH mc)) (IdentityPath (SSH mc)) (Name mc)
                  (Port (SSH mc)) (mount_args m)) as [[]|e2|] eqn:H2;
        intros H; injection H as <- <-;
        exists [ssh (mkdir_args (Target m)); ssh (mount_args m)], [];
        (split; [now rewrite <- !app_assoc|]);
        (split; [reflexivity|]);
        (split; [intros Hr; first [discriminate Hr | now split]|]);
        intros e He; try discriminate He.
      injection He as <-. right. eauto.
    + intros H. injection H as <- <-.
      exists [ssh (mkdir_args (Target m))], [ssh (mount_args m)].
      split; [reflexivity|]. split; [reflexivity|]. split; [discriminate|].
      intros e He. injection He as <-. left. now split.
  - intros H. injection H as <- <-.
    exists [ssh (mkdir_args (Target m))], [ssh (mount_args m)].
    split; [reflexivity|]. split; [reflexivity|]. split; [discriminate|].
    intros e He. injection He as <-. right. eauto.
  - intros H. injection H as <- <-.
    exists [ssh (mkdir_args (Target m))], [ssh (mount_args m)].
    split; [reflexivity|]. split; [reflexivity|]. split; discriminate.
Qed.

(** One turn of the loop: what it adds to the trace is a beginning of the
    script of the mount, all of it when the turn succeeds; the turn
    succeeds only on a supported mount; an error is the one of a remote
    command or the complaint about the type. *)
Lemma mount_volume_turn (h : Host) (mc : MachineConfig) (quiet : bool) (m : Mount)
  (t t' : Trace) (r : result unit) :
  mount_volume h mc quiet m t = (r, t') ->
  exists evs rest,
    t' = t ++ evs /\
    mount_script mc quiet m = evs ++ rest /\
    (r = Ok tt -> rest = [] /\ supported h m = true) /\
    (forall e, r = Err e ->
       (supported h m = false /\
        e = New ("unknown mount type: " ++ Type_ m)%string) \/
       (exists t0 args,
          host_CommonSSH h t0 (RemoteUsername (SSH mc)) (IdentityPath (SSH mc))
            (Name mc) (Port (SSH mc)) args = Err e)).
Proof.
  unfold mount_volume, mount_script. unfold bind at 1.
  destruct quiet; cbn [negb]; unfold ret, emit, modify.
  - intros H.
    destruct (mount_commands_turn h mc m t t' r H)
      as (evs & rest & Ht & Hcmd & Hok & Herr).
    exists evs, rest. auto.
  - intros H.
    destruct (mount_commands_turn h mc m _ t' r H)
      as (evs & rest & Ht & Hcmd & Hok & Herr).
    exists (mount_notice m :: evs), rest.
    split; [rewrite Ht; now rewrite <- app_assoc|].
    split; [simpl; now rewrite Hcmd|]. auto.
Qed.

(** The whole loop, over any list of mounts. *)
Lemma mount_loop (h : Host) (mc : MachineConfig) (quiet : bool) (ms : list Mount) :
  forall (t t' : Trace) (r : result unit),
  for_range ms (mount_volume h mc quiet) t = (r, t') ->
  exists evs rest,
    t' = t ++ evs /\
    flat_map (mount_script mc quiet) ms = evs ++ rest /\
    (r = Ok tt -> rest = [] /\ forallb (supported h) ms = true) /\
    (forall e, r = Err e ->
       (exists m, In m ms /\ supported h m = false /\
                  e = New ("unknown mount type: " ++ Type_ m)%string) \/
       (exists t0 args,
          host_CommonSSH h t0 (RemoteUsername (SSH mc)) (IdentityPath (SSH mc))
            (Name mc) (Port (SSH mc)) args = Err e)).
Proof.
  induction ms as [|m ms IH]; intros t t' r.
  - simpl. unfold ret. intros H. injection H as <- <-.
    exists [], []. rewrite app_nil_r.
    split; [reflexivity|]. split; [reflexivity|].
    split; [now split|]. discriminate.
  - cbn [for_range]. unfold bind.
    destruct (mount_volume h mc quiet m t) as [r1 t1] eqn:Hturn.
    destruct (mount_volume_turn h mc quiet m t t1 r1 Hturn)
      as (evs1 & rest1 & -> & Hscript & Hok1 & Herr1).
    destruct r1 as [[]|e1|].
    + destruct (Hok1 eq_refl) as [-> Hsup]. rewrite app_nil_r in Hscript.
      intros Hrest.
      destruct (IH _ _ _ Hrest) as (evs & rest & -> & Hflat & Hok & Herr).
      exists (evs1 ++ evs), rest.
      split; [now rewrite <- app_assoc|].
      split; [cbn [flat_map]; now rewrite Hscript, Hflat, <- app_assoc|].
      split.
      * intros Hr. destruct (Hok Hr) as [-> Hall]. split; [reflexivity|].
        cbn [forallb]. now rewrite Hsup, Hall.
      * intros e He. destruct (Herr e He) as [(m0 & Hin & Hm0)|Hssh];
          [left; exists m0; split; [now right|exact Hm0]|now right].
    + intros H. injection H as <- <-.
      exists evs1, (rest1 ++ flat_map (mount_script mc quiet) ms).
      split; [reflexivity|].
      split; [cbn [flat_map]; now rewrite Hscript, <- app_assoc|].
      split; [discriminate|].
      intros e He. destruct (Herr1 e He) as [[Hsup Hm]|Hssh];
        [left; exists m; split; [now left|now split]|now right].
    + intros H. injection H as <- <-.
      exists evs1, (rest1 ++ flat_map (mount_script mc quiet) ms).
      split; [reflexivity|].
      split; [cbn [flat_map]; now rewrite Hscript, <- app_assoc|].
      split; discriminate.
Qed.

(** X18. The mount pass follows its script: in every run, what it does
    is a beginning of the list made of, for each mount in order, the
    notice (unless quiet), the command that creates the mount point and
    the mount command; nothing is skipped, repeated or reordered, and a
    run that succeeds has gone through the whole list. *)
Theorem MountVolumesToVM_follows_script (h : Host) (mc : MachineConfig)
  (quiet : bool) (t t' : Trace) (r : result unit) :
  MountVolumesToVM h mc quiet t = (r, t') ->
  exists evs rest,
    t' = t ++ evs /\
    flat_map (mount_script mc quiet) (Mounts mc) = evs ++ rest /\
    (r = Ok tt -> rest = []).
Proof.
  intros H.
  destruct (mount_loop h mc quiet (Mounts mc) t t' r H)
    as (evs & rest & Ht & Hflat & Hok & _).
  exists evs, rest. split; [exact Ht|]. split; [exact Hflat|].
  intros Hr. now destruct (Hok Hr).
Qed.

Lemma MountVolumesToVM_follows_script_witness :
  exists evs rest,
    snd (MountVolumesToVM host_ok machine_ok false []) = [] ++ evs /\
    flat_map (mount_script machine_ok false) [mount_home; mount_data] = evs ++ rest /\
    (fst (MountVolumesToVM host_ok machine_ok false []) = Ok tt -> rest = []).
Proof.
  apply (MountVolumesToVM_follows_script host_ok machine_ok false []
           (snd (MountVolumesToVM host_ok machine_ok false []))
           (fst (MountVolumesToVM host_ok machine_ok false []))).
  reflexivity.
Defined.

(** X19. The mount pass succeeds only if every mount of the machine has
    the supported type. *)
Theorem MountVolumesToVM_success_supported (h : Host) (mc : MachineConfig)
  (quiet : bool) (t t' : Trace) :
  MountVolumesToVM h mc quiet t = (Ok tt, t') ->
  forallb (supported h) (Mounts mc) = true.
Proof.
  intros H.
  destruct (mount_loop h mc quiet (Mounts mc) t t' (Ok tt) H)
    as (evs & rest & _ & _ & Hok & _).
  now destruct (Hok eq_refl).
Qed.

Lemma MountVolumesToVM_success_supported_witness :
  forallb (supported host_ok) [mount_home; mount_data] = true.
Proof.
  apply (MountVolumesToVM_success_supported host_ok machine_ok true []
           (snd (MountVolumesToVM host_ok machine_ok true []))).
  reflexivity.
Defined.

(** X20. Errors of the mount pass are not wrapped: an error it returns is
    either the error a remote command came back with, as it is, or the
    complaint "unknown mount type: " followed by the type of a mount of
    the machine whose type is not supported. *)
Theorem MountVolumesToVM_error_origin (h : Host) (mc : MachineConfig)
  (quiet : bool) (t t' : Trace) (e : error) :
  MountVolumesToVM h mc quiet t = (Err e, t') ->
  (exists m, In m (Mounts mc) /\ supported h m = false /\
             e = New ("unknown mount type: " ++ Type_ m)%string) \/
  (exists t0 args,
     host_CommonSSH h t0 (RemoteUsername (SSH mc)) (IdentityPath (SSH mc))
       (Name mc) (Port (SSH mc)) args = Err e).
Proof.
  intros H.
  destruct (mount_loop h mc quiet (Mounts mc) t t' (Err e) H)
    as (evs & rest & _ & _ & _ & Herr).
  exact (Herr e eq_refl).
Qed.

Lemma MountVolumesToVM_error_origin_witness :
  (exists m, In m [mount_home; mount_nfs; mount_data] /\
             supported host_ok m = false /\
             New "unknown mount type: nfs"
             = New ("unknown mount type: " ++ Type_ m)%string) \/
  (exists t0 args,
     host_CommonSSH host_ok t0 "core" "/home/user/.ssh/box" "box" 2222 args
     = Err (New "unknown mount type: nfs")).
Proof.
  apply (MountVolumesToVM_error_origin host_ok
           (machine [mount_home; mount_nfs; mount_data] false) true []
           (snd (MountVolumesToVM host_ok
                   (machine [mount_home; mount_nfs; mount_data] false) true []))).
  reflexivity.
Defined.

(** X21. A quiet mount pass prints nothing: in every run, whatever it adds
    to the trace is a remote command. *)
Theorem MountVolumesToVM_quiet (h : Host) (mc : MachineConfig) (t t' : Trace)
  (r : result unit) :
  MountVolumesToVM h mc true t = (r, t') ->
  exists evs, t' = t ++ evs /\ forallb is_ssh evs = true.
Proof.
  intros H.
  destruct (mount_loop h mc true (Mounts mc) t t' r H)
    as (evs & rest & Ht & Hflat & _).
  exists evs. split; [exact Ht|].
  assert (Hall : forallb is_ssh (flat_map (mount_script mc true) (Mounts mc)) = true).
  { clear. induction (Mounts mc) as [|m ms IH]; [reflexivity|].
    cbn [flat_map]. rewrite forallb_app, IH. reflexivity. }
  rewrite Hflat, forallb_app in Hall.
  now apply andb_true_iff in Hall as [Hevs _].
Qed.

Lemma MountVolumesToVM_quiet_witness :
  exists evs,
    snd (MountVolumesToVM host_ok machine_ok true []) = [] ++ evs /\
    forallb is_ssh evs = true.
Proof.
  apply (MountVolumesToVM_quiet host_ok machine_ok []
           (snd (MountVolumesToVM host_ok machine_ok true []))
           (fst (MountVolumesToVM host_ok machine_ok true []))).
  reflexivity.
Defined.

(** X22. When every mount has the supported type and every remote
    command succeeds, the mount pass succeeds and does the whole script:
    for each mount in order, the notice (unless quiet), the creation of
    the mount point, the mount; two remote commands per mount.  With no
    mounts it succeeds without doing anything. *)
Theorem MountVolumesToVM_all_mounted (h : Host) (mc : MachineConfig)
  (quiet : bool) (t : Trace) :
  forallb (supported h) (Mounts mc) = true ->
  (forall t0 args,
     host_CommonSSH h t0 (RemoteUsername (SSH mc)) (IdentityPath (SSH mc))
       (Name mc) (Port (SSH mc)) args = Ok tt) ->
  MountVolumesToVM h mc quiet t
  = (Ok tt, t ++ flat_map (mount_script mc quiet) (Mounts mc)) /\
  List.length (filter is_ssh (flat_map (mount_script mc quiet) (Mounts mc)))
  = (2 * List.length (Mounts mc))%nat.
Proof.
  intros Hsup Hssh. unfold MountVolumesToVM. split.
  - revert t Hsup. induction (Mounts mc) as [|m ms IH]; intros t Hsup.
    + simpl. unfold ret. now rewrite app_nil_r.
    + cbn [forallb] in Hsup. apply andb_true_iff in Hsup as [Hm Hms].
      cbn [for_range flat_map]. unfold bind at 1.
      assert (Hturn : mount_volume h mc quiet m t
                      = (Ok tt, t ++ mount_script mc quiet m)).
      { unfold mount_volume, mount_script, mount_commands, mount_notice,
          bind, CommonSSH, call, emit, modify, ret.
        unfold supported in Hm. rewrite Hm.
        destruct quiet; cbn [negb]; rewrite !Hssh; cbn [app];
          now rewrite <- ?app_assoc. }
      rewrite Hturn, (IH _ Hms). now rewrite <- app_assoc.
  - clear. induction (Mounts mc) as [|m ms IH]; [reflexivity|].
    cbn [flat_map]. rewrite filter_app, length_app, IH.
    unfold mount_script, mount_commands, mount_notice.
    destruct quiet; simpl; lia.
Qed.

Lemma MountVolumesToVM_all_mounted_witness :
  MountVolumesToVM host_ok machine_ok true []
  = (Ok tt, [] ++ flat_map (mount_script machine_ok true) [mount_home; mount_data]) /\
  List.length (filter is_ssh
                 (flat_map (mount_script machine_ok true) [mount_home; mount_data]))
  = (2 * 2)%nat.
Proof.
  apply (MountVolumesToVM_all_mounted host_ok machine_ok true []).
  - reflexivity.
  - intros t0 args. reflexivity.
Defined.

(** X23. The mount command asks for a read-only mount exactly when the
    mount is read-only: its arguments end with "-o" "ro" if and only if
    the read-only flag of the mount is set, whatever tag and target
    are. *)
Theorem mount_args_read_only (m : Mount) :
  (exists pre, mount_args m = pre ++ ["-o"; "ro"]%string) <-> ReadOnly m = true.
Proof.
  unfold mount_args. split.
  - intros [pre Hpre]. destruct (ReadOnly m); [reflexivity|].
    apply (f_equal (@rev string)) in Hpre.
    simpl in Hpre. rewrite rev_app_distr in Hpre. simpl in Hpre.
    discriminate Hpre.
  - intros ->. eexists. cbn [app].
    change (["-q"; "--"; "sudo"; "mount"; "-t"; "9p"; "-o"; "trans=virtio";
             Tag m; Target m; "-o"; "version=9p2000.L,msize=131072,cache=mmap";
             "-o"; "ro"]%string)
      with (["-q"; "--"; "sudo"; "mount"; "-t"; "9p"; "-o"; "trans=virtio";
             Tag m; Target m; "-o"; "version=9p2000.L,msize=131072,cache=mmap"]%string
            ++ ["-o"; "ro"]%string).
    reflexivity.
Qed.

End MountProps.

(** ** Properties of networking and of applying an image *)

Module OutsideProps.
Import Define Command Vmconfigs Go Qemu Fixtures QemuRest MoreFixtures MachineOs.
Local Open Scope Z_scope.
Local Open Scope go_scope.

Lemma mount_args_read_only_witness :
  exists pre, mount_args mount_data = pre ++ ["-o"; "ro"]%string.
Proof.
  apply (proj2 (MountProps.mount_args_read_only mount_data)). reflexivity.
Defined.

(** *** [StartNetworking] *)

Lemma replace_byte_gone (old new : ascii) (s : string) :
  old <> new -> contains_byte old (replace_byte old new s) = false.
Proof.
  intros Hne. induction s as [|c s IH]; simpl; [reflexivity|].
  rewrite IH, orb_false_r.
  destruct (Ascii.eqb_spec c old) as [->|Hc].
  - apply Ascii.eqb_neq. congruence.
  - now apply Ascii.eqb_neq.
Qed.

Lemma replace_byte_length (old new : ascii) (s : string) :
  String.length (replace_byte old new s) = String.length s.
Proof.
  induction s as [|c s IH]; simpl; [reflexivity|]. now rewrite IH.
Qed.

(** The two ways a run of [StartNetworking] goes. *)
Lemma StartNetworking_registers_aux (nh : NetHost) (mc : MachineConfig)
  (t : list net_event) :
  (forall e, net_GVProxySocket nh mc = Err e ->
     StartNetworking nh mc t = (Err e, t)) /\
  (forall gv, net_GVProxySocket nh mc = Ok gv ->
     vmfile_Delete nh t gv <> Panic ->
     StartNetworking nh mc t
     = (Ok tt,
        t ++ [EvDelete gv (vmfile_Delete nh t gv)]
          ++ match vmfile_Delete nh t gv with
             | Err e => [EvLogError e]
             | _ => []
             end
          ++ [EvAddQemuSocket
                ("unix://" ++ ToSlash (Separator nh) (GetPath gv))%string])).
Proof.
  unfold StartNetworking, bind, try, attempt, modify, ret. split.
  - intros e ->. reflexivity.
  - intros gv -> Hno.
    destruct (vmfile_Delete nh t gv) as [[]|e|]; [| |now elim Hno];
      cbn [app]; now rewrite <- !app_assoc.
Qed.

(** X24. When the proxy socket of the machine resolves, [StartNetworking]
    first deletes the socket file and then registers the socket with the
    proxy as "unix://" followed by its path in slash form, and returns
    nil; a deletion that fails is logged and changes nothing else.  When
    the socket does not resolve, the error is returned and nothing is
    deleted or registered. *)
Theorem StartNetworking_registers (nh : NetHost) (mc : MachineConfig)
  (t : list net_event) :
  (forall e, net_GVProxySocket nh mc = Err e ->
     StartNetworking nh mc t = (Err e, t)) /\
  (forall gv, net_GVProxySocket nh mc = Ok gv ->
     vmfile_Delete nh t gv <> Panic ->
     StartNetworking nh mc t
     = (Ok tt,
        t ++ [EvDelete gv (vmfile_Delete nh t gv)]
          ++ match vmfile_Delete nh t gv with
             | Err e => [EvLogError e]
             | _ => []
             end
          ++ [EvAddQemuSocket
                ("unix://" ++ ToSlash (Separator nh) (GetPath gv))%string])).
Proof.
  unfold StartNetworking, bind, try, attempt, modify, ret. split.
  - intros e ->. reflexivity.
  - intros gv -> Hno.
    destruct (vmfile_Delete nh t gv) as [[]|e|]; [| |now elim Hno];
      cbn [app]; now rewrite <- !app_assoc.
Qed.

(** X25. On a system whose path separator is not the slash, the path
    [StartNetworking] registers holds no separator any more and has the
    length of the path of the socket; on a system whose separator is the
    slash, it is the path of the socket itself. *)
Theorem StartNetworking_slash_form (nh : NetHost) (mc : MachineConfig)
  (t : list net_event) (gv : VMFile) :
  net_GVProxySocket nh mc = Ok gv ->
  vmfile_Delete nh t gv <> Panic ->
  exists path,
    In (EvAddQemuSocket ("unix://" ++ path)%string)
       (snd (StartNetworking nh mc t)) /\
    String.length path = String.length (GetPath gv) /\
    (Separator nh = "/"%char -> path = GetPath gv) /\
    (Separator nh <> "/"%char -> contains_byte (Separator nh) path = false).
Proof.
  intros Hgv Hno.
  exists (ToSlash (Separator nh) (GetPath gv)).
  split; [|split; [|split]].
  - rewrite (proj2 (StartNetworking_registers_aux nh mc t) gv Hgv Hno). cbn [snd].
    apply in_or_app. right. apply in_or_app. right. apply in_or_app. right.
    now left.
  - unfold ToSlash. destruct (Ascii.eqb (Separator nh) "/"); [reflexivity|].
    apply replace_byte_length.
  - intros ->. reflexivity.
  - intros Hsep. unfold ToSlash.
    destruct (Ascii.eqb_spec (Separator nh) "/"%char) as [Heq|_]; [now elim Hsep|].
    now apply replace_byte_gone.
Qed.

Lemma StartNetworking_registers_witness :
  StartNetworking net_host_backslash machine_ok []
  = (Ok tt,
     [EvDelete (file "C:\run\podman\box-gvproxy.sock")
        (Err (External "access denied"));
      EvLogError (External "access denied");
      EvAddQemuSocket "unix://C:/run/podman/box-gvproxy.sock"]).
Proof.
  rewrite (proj2 (StartNetworking_registers net_host_backslash machine_ok [])
             (file "C:\run\podman\box-gvproxy.sock") eq_refl ltac:(discriminate)).
  reflexivity.
Defined.

Lemma StartNetworking_slash_form_witness :
  exists path,
    In (EvAddQemuSocket ("unix://" ++ path)%string)
       (snd (StartNetworking net_host_backslash machine_ok [])) /\
    String.length path = String.length "C:\run\podman\box-gvproxy.sock" /\
    contains_byte "\"%char path = false.
Proof.
  destruct (StartNetworking_slash_form net_host_backslash machine_ok []
              (file "C:\run\podman\box-gvproxy.sock") eq_refl ltac:(discriminate))
    as (path & Hin & Hlen & _ & Hsep).
  exists path. split; [exact Hin|]. split; [exact Hlen|].
  apply Hsep. discriminate.
Defined.

(** *** [Apply] *)

(** X26. When the remote command fails, [Apply] returns its error as it
    is and does nothing more: the directories are not looked up and the
    machine is neither stopped nor started, even if a restart was asked
    for. *)
Theorem Apply_remote_failure (h : OsHost) (image : string) (opts : ApplyOptions)
  (m : MachineOS) (vm : MachineConfig) (t : list os_event) (e : error) :
  VM m = Some vm ->
  os_CommonSSH h t (RemoteUsername (SSH vm)) (IdentityPath (SSH vm)) (VMName m)
    (Port (SSH vm)) (apply_args image) = Err e ->
  Apply h image opts (m, t)
  = (Err e,
     (m, t ++ [OsCommonSSH (RemoteUsername (SSH vm)) (IdentityPath (SSH vm))
                 (VMName m) (Port (SSH vm)) (apply_args image) (Err e)])).
Proof.
  intros Hvm Hssh.
  unfold Apply, bind, on_fst, on_snd, get, deref, ret. cbn [fst snd].
  rewrite Hvm. cbn [fst snd]. unfold apply_args in Hssh. rewrite Hssh.
  reflexivity.
Qed.

Lemma Apply_remote_failure_witness :
  Apply (os_host (Err (External "ssh: connection refused")) (Ok tt) (Ok tt))
    "quay.io/podman/machine-os:5.0" mkApplyOptions (box true, [])
  = (Err (External "ssh: connection refused"),
     (box true,
      [] ++ [OsCommonSSH "core" "/home/user/.ssh/box" "box" 2222
               (apply_args "quay.io/podman/machine-os:5.0")
               (Err (External "ssh: connection refused"))])).
Proof.
  apply (Apply_remote_failure
           (os_host (Err (External "ssh: connection refused")) (Ok tt) (Ok tt))
           "quay.io/podman/machine-os:5.0" mkApplyOptions (box true)
           (machine [] false) []); reflexivity.
Defined.

(** The end of a branch of [Apply]: the calls made are known. *)
Ltac apply_leaf vm :=
  cbn [fst snd];
  first [ exists []; split; [now rewrite app_nil_r|]
        | eexists; split; [rewrite <- ?app_assoc; reflexivity|] ];
  cbn [app];
  (split; [reflexivity|]);
  (split; [intros Hf; first [congruence | split; reflexivity]|]);
  (split; [split;
           [intros Hp; first [discriminate Hp | split; [reflexivity|assumption]]
           |intros [Hr Hre']; first [discriminate Hr | congruence | reflexivity]]|]);
  (split; [intros f a Hin; simpl in Hin;
           intuition (try discriminate);
           match goal with
           | Hx : OsPrintf _ _ = OsPrintf _ _ |- _ => now injection Hx as _ <-
           end|]);
  intros Hr; first [discriminate Hr | exists vm; eexists; split; reflexivity].

(** How a run of [Apply] relates to the calls it makes. *)
Lemma Apply_run (h : OsHost) (image : string) (opts : ApplyOptions)
  (m : MachineOS) (t : list os_event) :
  exists evs,
    snd (snd (Apply h image opts (m, t))) = t ++ evs /\
    stop_then_start false evs = true /\
    (Restart m = false ->
     fst (snd (Apply h image opts (m, t))) = m /\
     forallb (fun e => negb (is_stop e) && negb (is_os_start e)
                       && negb (is_os_printf e)) evs = true) /\
    (existsb is_os_printf evs = true
     <-> fst (Apply h image opts (m, t)) = Ok tt /\ Restart m = true) /\
    (forall f a, In (OsPrintf f a) evs -> a = [VMName m]) /\
    (fst (Apply h image opts (m, t)) = Ok tt ->
     exists vm rest,
       VM m = Some vm /\
       evs = OsCommonSSH (RemoteUsername (SSH vm)) (IdentityPath (SSH vm))
               (VMName m) (Port (SSH vm)) (apply_args image) (Ok tt) :: rest).
Proof.
  unfold Apply, bind, on_fst, on_snd, on_VM, get, deref, modify, ret, panic,
    apply_args.
  cbn [fst snd].
  destruct (VM m) as [vm|] eqn:Hvm; [|apply_leaf (Fixtures.machine [] false)].
  cbn [fst snd].
  destruct (os_CommonSSH h t (RemoteUsername (SSH vm)) (IdentityPath (SSH vm))
              (VMName m) (Port (SSH vm))
              ["podman"; "machine"; "os"; "apply"; image]%string) as [[]|e|];
    [|apply_leaf vm ..].
  cbn [fst snd].
  destruct (Provider m) as [provider|]; [|apply_leaf vm].
  cbn [fst snd].
  match goal with |- context [os_GetMachineDirs h ?t1 ?ty] =>
    destruct (os_GetMachineDirs h t1 ty) as [dirs|e|]; [|apply_leaf vm ..]
  end.
  cbn [fst snd].
  destruct (Restart m) eqn:Hre; [|apply_leaf vm].
  cbn [fst snd]. rewrite Hvm.
  match goal with |- context [p5_Stop h ?t2 vm provider dirs false] =>
    destruct (p5_Stop h t2 vm provider dirs false) as [[[]|e|] vm1];
      [|apply_leaf vm ..]
  end.
  cbn [fst snd VM set_VM].
  match goal with |- context [p5_Start h ?t3 vm1 provider dirs ?o] =>
    destruct (p5_Start h t3 vm1 provider dirs o) as [[[]|e|] vm2];
      apply_leaf vm
  end.
Qed.

(** X27. Without a restart asked for, [Apply] never stops or starts the
    machine and prints nothing, however it ends, and the machine it was
    given is as it was. *)
Theorem Apply_without_restart (h : OsHost) (image : string) (opts : ApplyOptions)
  (m m' : MachineOS) (t t' : list os_event) (r : result unit) :
  Restart m = false ->
  Apply h image opts (m, t) = (r, (m', t')) ->
  m' = m /\
  exists evs,
    t' = t ++ evs /\
    forallb (fun e => negb (is_stop e) && negb (is_os_start e)
                      && negb (is_os_printf e)) evs = true.
Proof.
  intros Hre Hrun.
  destruct (Apply_run h image opts m t) as (evs & Ht & _ & Hno & _).
  rewrite Hrun in Ht, Hno. cbn [fst snd] in Ht, Hno.
  destruct (Hno Hre) as [Hm Hevs].
  split; [exact Hm|]. exists evs. now split.
Qed.

Lemma Apply_without_restart_witness :
  fst (snd (Apply (os_host (Ok tt) (Ok tt) (Ok tt)) "quay.io/podman/machine-os:5.0"
              mkApplyOptions (box false, []))) = box false /\
  exists evs,
    snd (snd (Apply (os_host (Ok tt) (Ok tt) (Ok tt))
                "quay.io/podman/machine-os:5.0" mkApplyOptions (box false, [])))
    = [] ++ evs /\
    forallb (fun e => negb (is_stop e) && negb (is_os_start e)
                      && negb (is_os_printf e)) evs = true.
Proof.
  apply (Apply_without_restart (os_host (Ok tt) (Ok tt) (Ok tt))
           "quay.io/podman/machine-os:5.0" mkApplyOptions (box false) _ [] _
           (fst (Apply (os_host (Ok tt) (Ok tt) (Ok tt))
                   "quay.io/podman/machine-os:5.0" mkApplyOptions (box false, []))));
    reflexivity.
Defined.

(** X28. In every run of [Apply], the machine is started only right after
    a stop that was not forced and that succeeded, and it is started with
    the information output switched off.  The line that reports the
    restart is printed exactly when a restart was asked for and [Apply]
    succeeds, and it names the machine. *)
Theorem Apply_restart_order (h : OsHost) (image : string) (opts : ApplyOptions)
  (m m' : MachineOS) (t t' : list os_event) (r : result unit) :
  Apply h image opts (m, t) = (r, (m', t')) ->
  exists evs,
    t' = t ++ evs /\
    stop_then_start false evs = true /\
    (existsb is_os_printf evs = true <-> r = Ok tt /\ Restart m = true) /\
    (forall f a, In (OsPrintf f a) evs -> a = [VMName m]).
Proof.
  intros Hrun.
  destruct (Apply_run h image opts m t) as (evs & Ht & Hord & _ & Hp & Hname & _).
  rewrite Hrun in Ht, Hp. cbn [fst snd] in Ht, Hp.
  exists evs. repeat (split; [assumption|]). exact Hname.
Qed.

Lemma Apply_restart_order_witness :
  exists evs,
    snd (snd (Apply (os_host (Ok tt) (Ok tt) (Ok tt))
                "quay.io/podman/machine-os:5.0" mkApplyOptions (box true, [])))
    = [] ++ evs /\
    stop_then_start false evs = true /\
    (existsb is_os_printf evs = true
     <-> fst (Apply (os_host (Ok tt) (Ok tt) (Ok tt))
                "quay.io/podman/machine-os:5.0" mkApplyOptions (box true, []))
         = Ok tt /\ Restart (box true) = true) /\
    (forall f a, In (OsPrintf f a) evs -> a = [VMName (box true)]).
Proof.
  apply (Apply_restart_order (os_host (Ok tt) (Ok tt) (Ok tt))
           "quay.io/podman/machine-os:5.0" mkApplyOptions (box true)
           (fst (snd (Apply (os_host (Ok tt) (Ok tt) (Ok tt))
                        "quay.io/podman/machine-os:5.0" mkApplyOptions
                        (box true, [])))) []).
  reflexivity.
Defined.

(** X29. [Apply] succeeds only if the first thing it did was to run
    "podman machine os apply" with the image in the machine, under the
    user, identity and port of the machine's SSH settings, and that
    command succeeded. *)
Theorem Apply_success_needs_remote (h : OsHost) (image : string)
  (opts : ApplyOptions) (m m' : MachineOS) (t t' : list os_event) :
  Apply h image opts (m, t) = (Ok tt, (m', t')) ->
  exists vm rest,
    VM m = Some vm /\
    t' = t ++ OsCommonSSH (RemoteUsername (SSH vm)) (IdentityPath (SSH vm))
               (VMName m) (Port (SSH vm))
               ["podman"; "machine"; "os"; "apply"; image]%string (Ok tt) :: rest.
Proof.
  intros Hrun.
  destruct (Apply_run h image opts m t) as (evs & Ht & _ & _ & _ & _ & Hok).
  rewrite Hrun in Ht, Hok. cbn [fst snd] in Ht, Hok.
  destruct (Hok eq_refl) as (vm & rest & Hvm & ->).
  exists vm, rest. now split.
Qed.

Lemma Apply_success_needs_remote_witness :
  exists vm rest,
    VM (box true) = Some vm /\
    snd (snd (Apply (os_host (Ok tt) (Ok tt) (Ok tt))
                "quay.io/podman/machine-os:5.0" mkApplyOptions (box true, [])))
    = [] ++ OsCommonSSH (RemoteUsername (SSH vm)) (IdentityPath (SSH vm))
              (VMName (box true)) (Port (SSH vm))
              ["podman"; "machine"; "os"; "apply";
               "quay.io/podman/machine-os:5.0"]%string (Ok tt) :: rest.
Proof.
  apply (Apply_success_needs_remote (os_host (Ok tt) (Ok tt) (Ok tt))
           "quay.io/podman/machine-os:5.0" mkApplyOptions (box true)
           (fst (snd (Apply (os_host (Ok tt) (Ok tt) (Ok tt))
                        "quay.io/podman/machine-os:5.0" mkApplyOptions
                        (box true, [])))) []).
  reflexivity.
Defined.

End OutsideProps.
